(** * YA6502E: the instruction-stepped MOS 6502 core

    A shallow embedding of [my6502.c], in its revision that decodes all 151
    opcodes: the register file, the two host callbacks, the addressing
    resolver, one routine per mnemonic and the opcode switch of
    [my6502_step], followed by the properties of the core that the project
    documentation states.

    Conventions of the embedding.
    - A [uint8_t], [uint16_t] or [uint32_t] object holds a [Z]; every C
      conversion from a wider type (an assignment of an [int] expression, an
      argument passed to a narrower parameter, a [return]) is written out
      with [to_u8], [to_u16] or [to_u32].  Where source and destination have
      the same type nothing is written.
    - The globals [my_pc], [my_ac], [my_x], [my_y], [my_sr], [my_sp] are the
      fields of [regfile].
    - The host callbacks are external.  The host is a function from the
      history of bus accesses and an address to the byte it answers; every
      access is appended to the history, so the order of bus accesses is
      observable.
    - Assertions are compiled in (the Makefile defines no [NDEBUG]), so
      [assert(0)] aborts the process; a routine is a function from the
      machine to an [outcome], either a normal return or an abort at one of
      the three assertion sites, with the registers and the bus history as
      they are at that moment. *)

From Stdlib Require Import ZArith List Bool Lia.
Import ListNotations.
Local Open Scope Z_scope.

(** ** Fixed-width integers *)

Definition to_u8 (v : Z) : Z := v mod 256.
Definition to_u16 (v : Z) : Z := v mod 65536.
Definition to_u32 (v : Z) : Z := v mod 4294967296.

(** [(int8_t)v]: the low byte read as a two's complement number. *)
Definition to_i8 (v : Z) : Z :=
  let b := v mod 256 in if b <? 128 then b else b - 256.

(** ** Status register: NV-BDIZC *)

Definition SR_FLAG_NEGATIVE : Z := Z.shiftl 1 7.
Definition SR_FLAG_OVERFLOW : Z := Z.shiftl 1 6.
Definition SR_FLAG_UNUSED : Z := Z.shiftl 1 5.
Definition SR_FLAG_BREAK : Z := Z.shiftl 1 4.
Definition SR_FLAG_DECIMAL : Z := Z.shiftl 1 3.
Definition SR_FLAG_INTERRUPT : Z := Z.shiftl 1 2.
Definition SR_FLAG_ZERO : Z := Z.shiftl 1 1.
Definition SR_FLAG_CARRY : Z := Z.shiftl 1 0.

(** Memory layout. *)
Definition STACK_OFFSET : Z := 0x100.
Definition IRQ_OFFSET : Z := 0xFFFE.

(** A C truth value. *)
Definition truthy (v : Z) : bool := negb (v =? 0).

(** ** Registers, bus history, machine *)

Record regfile : Type := mkRegs {
  my_pc : Z;
  my_ac : Z;
  my_x : Z;
  my_y : Z;
  my_sr : Z;
  my_sp : Z
}.

Inductive bus_event : Type :=
| BusRead (address value : Z)
| BusWrite (address value : Z).

(** [bus] lists the accesses made so far, the most recent first. *)
Record machine : Type := mkMachine {
  regs : regfile;
  bus : list bus_event
}.

Inductive assert_site : Type :=
| In_my_read_addr
| In_my_read_op
| In_my6502_step.

Inductive outcome (A : Type) : Type :=
| Returns (a : A) (m : machine)
| Aborts (site : assert_site) (m : machine).

Arguments Returns {A} a m.
Arguments Aborts {A} site m.

Definition M (A : Type) : Type := machine -> outcome A.

Definition ret {A} (a : A) : M A := fun m => Returns a m.

Definition bind {A B} (c : M A) (k : A -> M B) : M B :=
  fun m => match c m with
           | Returns a m' => k a m'
           | Aborts site m' => Aborts site m'
           end.

Definition assert_0 {A} (site : assert_site) : M A := fun m => Aborts site m.

Declare Scope cpu_scope.
Delimit Scope cpu_scope with cpu.
Notation "x <- c ;; k" := (bind c (fun x => k))
  (at level 61, c at next level, right associativity) : cpu_scope.
Notation "c ;; k" := (bind c (fun _ => k))
  (at level 61, right associativity) : cpu_scope.
Local Open Scope cpu_scope.

Definition get {A} (field : regfile -> A) : M A := fun m => Returns (field (regs m)) m.

Definition modify (f : regfile -> regfile) : M unit :=
  fun m => Returns tt (mkMachine (f (regs m)) (bus m)).

Definition set_pc (v : Z) : M unit :=
  modify (fun r => mkRegs v (my_ac r) (my_x r) (my_y r) (my_sr r) (my_sp r)).
Definition set_ac (v : Z) : M unit :=
  modify (fun r => mkRegs (my_pc r) v (my_x r) (my_y r) (my_sr r) (my_sp r)).
Definition set_x (v : Z) : M unit :=
  modify (fun r => mkRegs (my_pc r) (my_ac r) v (my_y r) (my_sr r) (my_sp r)).
Definition set_y (v : Z) : M unit :=
  modify (fun r => mkRegs (my_pc r) (my_ac r) (my_x r) v (my_sr r) (my_sp r)).
Definition set_sr (v : Z) : M unit :=
  modify (fun r => mkRegs (my_pc r) (my_ac r) (my_x r) (my_y r) v (my_sp r)).
Definition set_sp (v : Z) : M unit :=
  modify (fun r => mkRegs (my_pc r) (my_ac r) (my_x r) (my_y r) (my_sr r) v).

(** Status register helpers: [SR_CLR], [SR_SET], [SR_IS_SET]. *)
Definition SR_CLR (bit : Z) : M unit :=
  sr <- get my_sr ;; set_sr (to_u8 (Z.land sr (Z.lnot bit))).
Definition SR_SET (bit : Z) : M unit :=
  sr <- get my_sr ;; set_sr (to_u8 (Z.lor sr bit)).
Definition SR_IS_SET (bit : Z) : M Z :=
  sr <- get my_sr ;; ret (Z.land sr bit).

(** [void my6502_reset(uint16_t pc)] *)
Definition my6502_reset (pc : Z) : M unit :=
  set_pc pc ;;
  set_ac 0 ;;
  set_x 0 ;;
  set_y 0 ;;
  set_sp 0xFD ;;
  set_sr SR_FLAG_UNUSED.

Definition my_update_sr (value flags : Z) : M unit :=
  (if truthy (Z.land flags SR_FLAG_NEGATIVE)
   then if truthy (Z.land value 0x80)
        then SR_SET SR_FLAG_NEGATIVE
        else SR_CLR SR_FLAG_NEGATIVE
   else ret tt) ;;
  (if truthy (Z.land flags SR_FLAG_ZERO)
   then if negb (truthy value)
        then SR_SET SR_FLAG_ZERO
        else SR_CLR SR_FLAG_ZERO
   else ret tt).

Definition my_update_sr_with_carry (reg_value flags carry_value : Z) : M unit :=
  my_update_sr reg_value flags ;;
  if truthy carry_value then SR_SET SR_FLAG_CARRY else SR_CLR SR_FLAG_CARRY.

(** Addressing modes, with the values the enumeration gives them. *)
Inductive my_addr : Type :=
| IMMEDIATE
| ABSOLUTE
| ABSOLUTE_X
| ABSOLUTE_Y
| ACCUMULATOR
| RELATIVE
| INDIRECT
| INDIRECT_X
| INDIRECT_Y
| ZEROPAGE
| ZEROPAGE_X
| ZEROPAGE_Y.

Definition my_addr_value (mode : my_addr) : Z :=
  match mode with
  | IMMEDIATE => 0
  | ABSOLUTE => 1
  | ABSOLUTE_X => 2
  | ABSOLUTE_Y => 3
  | ACCUMULATOR => 4
  | RELATIVE => 5
  | INDIRECT => 6
  | INDIRECT_X => 7
  | INDIRECT_Y => 8
  | ZEROPAGE => 9
  | ZEROPAGE_X => 10
  | ZEROPAGE_Y => 11
  end.

Section Core.

(** The host: the byte answered to a read of [address] after the accesses
    [history].  The callback returns a [uint8_t], hence the [to_u8]. *)
Variable host : list bus_event -> Z -> Z.

(** [uint8_t my6502_read(uint16_t address)] *)
Definition my6502_read (address : Z) : M Z :=
  fun m => let value := to_u8 (host (bus m) address) in
           Returns value (mkMachine (regs m) (BusRead address value :: bus m)).

(** [void my6502_write(uint16_t address, uint8_t value)] *)
Definition my6502_write (address value : Z) : M unit :=
  fun m => Returns tt (mkMachine (regs m) (BusWrite address value :: bus m)).

(** [my6502_write(STACK_OFFSET + my_sp--, value)] *)
Definition my_push (value : Z) : M unit :=
  sp <- get my_sp ;;
  set_sp (to_u8 (sp - 1)) ;;
  my6502_write (to_u16 (STACK_OFFSET + sp)) value.

(** [return my6502_read(STACK_OFFSET + ++my_sp)] *)
Definition my_pop : M Z :=
  sp <- get my_sp ;;
  set_sp (to_u8 (sp + 1)) ;;
  sp <- get my_sp ;;
  my6502_read (to_u16 (STACK_OFFSET + sp)).

(** [my6502_read(my_pc++)] *)
Definition fetch : M Z :=
  pc <- get my_pc ;;
  set_pc (to_u16 (pc + 1)) ;;
  my6502_read pc.

(** [my_read_addr_from_mem(uint16_t *reg)]: the pointed-to object is passed
    by value and its final value is returned next to the address read. *)
Definition my_read_addr_from_mem (reg : Z) : M (Z * Z) :=
  lo <- my6502_read reg ;;
  let reg := to_u16 (reg + 1) in
  hi <- my6502_read reg ;;
  let reg := to_u16 (reg + 1) in
  ret (to_u16 (Z.lor lo (Z.shiftl hi 8)), reg).

(** [my_read_addr_from_mem(&my_pc)] *)
Definition my_read_addr_from_pc : M Z :=
  lo <- fetch ;;
  hi <- fetch ;;
  ret (to_u16 (Z.lor lo (Z.shiftl hi 8))).

Definition my_read_addr (mode : my_addr) : M Z :=
  match mode with
  | ABSOLUTE => my_read_addr_from_pc
  | ABSOLUTE_X =>
      addr <- my_read_addr_from_pc ;; x <- get my_x ;; ret (to_u16 (addr + x))
  | ABSOLUTE_Y =>
      addr <- my_read_addr_from_pc ;; y <- get my_y ;; ret (to_u16 (addr + y))
  | RELATIVE =>
      addr <- fetch ;;
      pc <- get my_pc ;;
      ret (to_u16 (pc + to_i8 addr))
  | INDIRECT =>
      addr <- my_read_addr_from_pc ;;
      r <- my_read_addr_from_mem addr ;;
      ret (fst r)
  | INDIRECT_X =>
      b <- fetch ;;
      x <- get my_x ;;
      let addr := to_u16 (Z.land (b + x) 0xFF) in
      r <- my_read_addr_from_mem addr ;;
      ret (fst r)
  | INDIRECT_Y =>
      addr <- fetch ;;
      r <- my_read_addr_from_mem addr ;;
      y <- get my_y ;;
      ret (to_u16 (fst r + y))
  | ZEROPAGE => fetch
  | ZEROPAGE_X =>
      b <- fetch ;; x <- get my_x ;; ret (to_u16 (Z.land (b + x) 0xFF))
  | ZEROPAGE_Y =>
      b <- fetch ;; y <- get my_y ;; ret (to_u16 (Z.land (b + y) 0xFF))
  | _ => assert_0 In_my_read_addr
  end.

(** The packed operand: byte 0 is the value, byte 1 the addressing mode,
    bytes 2-3 the address. *)
Definition pack_op (addr : Z) (mode : my_addr) (value : Z) : Z :=
  to_u32 (Z.lor (Z.lor (Z.shiftl addr 16) (Z.shiftl (my_addr_value mode) 8)) value).

Definition my_read_op (mode : my_addr) : M Z :=
  match mode with
  | ABSOLUTE | ABSOLUTE_X | ABSOLUTE_Y | INDIRECT_X | INDIRECT_Y
  | ZEROPAGE | ZEROPAGE_X | ZEROPAGE_Y =>
      addr <- my_read_addr mode ;;
      value <- my6502_read addr ;;
      ret (pack_op addr mode value)
  | IMMEDIATE =>
      addr <- get my_pc ;;
      set_pc (to_u16 (addr + 1)) ;;
      value <- my6502_read addr ;;
      ret (pack_op addr mode value)
  | ACCUMULATOR =>
      ac <- get my_ac ;;
      ret (to_u32 (Z.lor (Z.shiftl (my_addr_value mode) 8) ac))
  | _ => assert_0 In_my_read_op
  end.

Definition my_write_op (op value : Z) : M unit :=
  let mode := Z.land (Z.shiftr op 8) 0xFF in
  let addr := to_u16 (Z.shiftr op 16) in
  if negb (mode =? my_addr_value ACCUMULATOR)
  then my6502_write addr value
  else set_ac value.


(** ** Instruction primitives *)

(** Add Memory to Accumulator with Carry. *)
Definition my_adc (value : Z) : M unit :=
  ac <- get my_ac ;;
  let same_sign := Z.land ac 0x80 =? Z.land value 0x80 in
  let result := to_u16 (ac + value) in
  carry <- SR_IS_SET SR_FLAG_CARRY ;;
  let result := if truthy carry then to_u16 (result + 1) else result in
  (if same_sign && negb (Z.land result 0x80 =? Z.land value 0x80)
   then SR_SET SR_FLAG_OVERFLOW
   else SR_CLR SR_FLAG_OVERFLOW) ;;
  set_ac (to_u8 result) ;;
  ac <- get my_ac ;;
  my_update_sr_with_carry ac (Z.lor SR_FLAG_NEGATIVE SR_FLAG_ZERO)
    (if result >=? 0x100 then 1 else 0).

Definition my_and (value : Z) : M unit :=
  ac <- get my_ac ;;
  set_ac (to_u8 (Z.land ac value)) ;;
  ac <- get my_ac ;;
  my_update_sr ac (Z.lor SR_FLAG_NEGATIVE SR_FLAG_ZERO).

(** Shift Left One Bit (Memory or Accumulator). *)
Definition my_asl (op : Z) : M unit :=
  let value := to_u8 op in
  let msb := to_u8 (Z.land value 0x80) in
  let value := to_u8 (Z.shiftl value 1) in
  my_update_sr_with_carry value (Z.lor SR_FLAG_NEGATIVE SR_FLAG_ZERO) msb ;;
  my_write_op op value.

Definition branch_if (taken : Z -> bool) (flag addr : Z) : M unit :=
  v <- SR_IS_SET flag ;;
  if taken v then set_pc addr else ret tt.

(** Branch on Carry Set. *)
Definition my_bcs (addr : Z) : M unit := branch_if truthy SR_FLAG_CARRY addr.

(** Test Bits in Memory with Accumulator. *)
Definition my_bit (value : Z) : M unit :=
  (if truthy (Z.land value SR_FLAG_NEGATIVE)
   then SR_SET SR_FLAG_NEGATIVE else SR_CLR SR_FLAG_NEGATIVE) ;;
  (if truthy (Z.land value SR_FLAG_OVERFLOW)
   then SR_SET SR_FLAG_OVERFLOW else SR_CLR SR_FLAG_OVERFLOW) ;;
  ac <- get my_ac ;;
  if truthy (Z.land ac value)
  then SR_CLR SR_FLAG_ZERO else SR_SET SR_FLAG_ZERO.

(** Branch on Result not Zero. *)
Definition my_bne (addr : Z) : M unit :=
  branch_if (fun v => negb (truthy v)) SR_FLAG_ZERO addr.

(** Branch on Carry Clear. *)
Definition my_bcc (addr : Z) : M unit :=
  branch_if (fun v => negb (truthy v)) SR_FLAG_CARRY addr.

(** Branch on Result Zero. *)
Definition my_beq (addr : Z) : M unit := branch_if truthy SR_FLAG_ZERO addr.

Definition my_bmi (addr : Z) : M unit := branch_if truthy SR_FLAG_NEGATIVE addr.

(** Branch on Result Plus. *)
Definition my_bpl (addr : Z) : M unit :=
  branch_if (fun v => negb (truthy v)) SR_FLAG_NEGATIVE addr.

(** Force Break. *)
Definition my_brk : M unit :=
  pc <- get my_pc ;;
  let return_addr := to_u16 (pc + 1) in
  my_push (to_u8 (Z.shiftr return_addr 8)) ;;
  my_push (to_u8 return_addr) ;;
  sr <- get my_sr ;;
  my_push (to_u8 (Z.lor sr SR_FLAG_BREAK)) ;;
  lo <- my6502_read IRQ_OFFSET ;;
  set_pc lo ;;
  hi <- my6502_read (to_u16 (IRQ_OFFSET + 1)) ;;
  pc <- get my_pc ;;
  set_pc (to_u16 (Z.lor pc (Z.shiftl hi 8))) ;;
  SR_SET SR_FLAG_INTERRUPT.

Definition my_bvc (addr : Z) : M unit :=
  branch_if (fun v => negb (truthy v)) SR_FLAG_OVERFLOW addr.

Definition my_bvs (addr : Z) : M unit := branch_if truthy SR_FLAG_OVERFLOW addr.

(** Clear Carry Flag. *)
Definition my_clc : M unit := SR_CLR SR_FLAG_CARRY.

(** Clear Decimal Mode. *)
Definition my_cld : M unit := SR_CLR SR_FLAG_DECIMAL.

Definition my_cli : M unit := SR_CLR SR_FLAG_INTERRUPT.

Definition my_clv : M unit := SR_CLR SR_FLAG_OVERFLOW.

Definition compare_with (reg : regfile -> Z) (value : Z) : M unit :=
  r <- get reg ;;
  my_update_sr_with_carry (to_u8 (r - value))
    (Z.lor SR_FLAG_NEGATIVE SR_FLAG_ZERO) (if r >=? value then 1 else 0).

Definition my_cmp (value : Z) : M unit := compare_with my_ac value.
Definition my_cpx (value : Z) : M unit := compare_with my_x value.
Definition my_cpy (value : Z) : M unit := compare_with my_y value.

Definition my_dec (addr : Z) : M unit :=
  value <- my6502_read addr ;;
  let value := to_u8 (value - 1) in
  my_update_sr value (Z.lor SR_FLAG_NEGATIVE SR_FLAG_ZERO) ;;
  my6502_write addr value.

(** Decrement Index X by One. *)
Definition my_dex : M unit :=
  x <- get my_x ;;
  set_x (to_u8 (x - 1)) ;;
  x <- get my_x ;;
  my_update_sr x (Z.lor SR_FLAG_NEGATIVE SR_FLAG_ZERO).

(** Decrement Index Y by One. *)
Definition my_dey : M unit :=
  y <- get my_y ;;
  set_y (to_u8 (y - 1)) ;;
  y <- get my_y ;;
  my_update_sr y (Z.lor SR_FLAG_NEGATIVE SR_FLAG_ZERO).

(** Exclusive-OR Memory with Accumulator. *)
Definition my_eor (value : Z) : M unit :=
  ac <- get my_ac ;;
  set_ac (to_u8 (Z.lxor ac value)) ;;
  ac <- get my_ac ;;
  my_update_sr ac (Z.lor SR_FLAG_NEGATIVE SR_FLAG_ZERO).

Definition my_jmp (addr : Z) : M unit := set_pc addr.

(** Jump to New Location Saving Return Address. *)
Definition my_jsr (addr : Z) : M unit :=
  pc <- get my_pc ;;
  let old_pc := to_u16 (pc - 1) in
  my_push (to_u8 (Z.shiftr old_pc 8)) ;;
  my_push (to_u8 old_pc) ;;
  set_pc addr.

Definition my_inc (addr : Z) : M unit :=
  value <- my6502_read addr ;;
  let value := to_u8 (value + 1) in
  my_update_sr value (Z.lor SR_FLAG_NEGATIVE SR_FLAG_ZERO) ;;
  my6502_write addr value.

Definition my_inx : M unit :=
  x <- get my_x ;;
  set_x (to_u8 (x + 1)) ;;
  x <- get my_x ;;
  my_update_sr x (Z.lor SR_FLAG_NEGATIVE SR_FLAG_ZERO).

Definition my_iny : M unit :=
  y <- get my_y ;;
  set_y (to_u8 (y + 1)) ;;
  y <- get my_y ;;
  my_update_sr y (Z.lor SR_FLAG_NEGATIVE SR_FLAG_ZERO).

(** Load Accumulator with Memory. *)
Definition my_lda (value : Z) : M unit :=
  set_ac value ;;
  ac <- get my_ac ;;
  my_update_sr ac (Z.lor SR_FLAG_NEGATIVE SR_FLAG_ZERO).

Definition my_ldx (value : Z) : M unit :=
  set_x value ;;
  x <- get my_x ;;
  my_update_sr x (Z.lor SR_FLAG_NEGATIVE SR_FLAG_ZERO).

Definition my_ldy (value : Z) : M unit :=
  set_y value ;;
  y <- get my_y ;;
  my_update_sr y (Z.lor SR_FLAG_NEGATIVE SR_FLAG_ZERO).

(** Shift One Bit Right (Memory or Accumulator). *)
Definition my_lsr (op : Z) : M unit :=
  let value := to_u8 op in
  let lsb := to_u8 (Z.land value 0x01) in
  let value := to_u8 (Z.shiftr value 1) in
  my_update_sr_with_carry value (Z.lor SR_FLAG_NEGATIVE SR_FLAG_ZERO) lsb ;;
  my_write_op op value.

Definition my_nop : M unit := ret tt.

Definition my_ora (value : Z) : M unit :=
  ac <- get my_ac ;;
  set_ac (to_u8 (Z.lor ac value)) ;;
  ac <- get my_ac ;;
  my_update_sr ac (Z.lor SR_FLAG_NEGATIVE SR_FLAG_ZERO).

Definition my_rol (op : Z) : M unit :=
  let value := to_u8 op in
  let msb := to_u8 (Z.land value 0x80) in
  sr <- get my_sr ;;
  let value := to_u8 (Z.shiftl value 1 + Z.land sr SR_FLAG_CARRY) in
  my_update_sr_with_carry value (Z.lor SR_FLAG_NEGATIVE SR_FLAG_ZERO) msb ;;
  my_write_op op value.

Definition my_ror (op : Z) : M unit :=
  let value := to_u8 op in
  let lsb := to_u8 (Z.land value 0x01) in
  sr <- get my_sr ;;
  let value :=
    to_u8 (Z.shiftr value 1 + (if truthy (Z.land sr SR_FLAG_CARRY) then 0x80 else 0x00)) in
  my_update_sr_with_carry value (Z.lor SR_FLAG_NEGATIVE SR_FLAG_ZERO) lsb ;;
  my_write_op op value.

Definition my_rti : M unit :=
  v <- my_pop ;;
  set_sr (to_u8 (Z.lor v SR_FLAG_BREAK)) ;;
  lo <- my_pop ;;
  set_pc lo ;;
  hi <- my_pop ;;
  pc <- get my_pc ;;
  set_pc (to_u16 (Z.lor pc (Z.shiftl hi 8))).

Definition my_rts : M unit :=
  lo <- my_pop ;;
  set_pc lo ;;
  hi <- my_pop ;;
  pc <- get my_pc ;;
  set_pc (to_u16 (Z.lor pc (Z.shiftl hi 8))) ;;
  pc <- get my_pc ;;
  set_pc (to_u16 (pc + 1)).

(** Push Accumulator on Stack. *)
Definition my_pha : M unit := ac <- get my_ac ;; my_push ac.

Definition my_php : M unit :=
  sr <- get my_sr ;; my_push (to_u8 (Z.lor sr SR_FLAG_BREAK)).

(** Pull Accumulator from Stack. *)
Definition my_pla : M unit :=
  v <- my_pop ;;
  set_ac v ;;
  ac <- get my_ac ;;
  my_update_sr ac (Z.lor SR_FLAG_NEGATIVE SR_FLAG_ZERO).

(** Pull Processor Status from Stack. *)
Definition my_plp : M unit :=
  v <- my_pop ;; set_sr (to_u8 (Z.lor v SR_FLAG_UNUSED)).

(** Subtract Memory from Accumulator with Borrow: [my_adc(~value)]. *)
Definition my_sbc (value : Z) : M unit := my_adc (to_u8 (Z.lnot value)).

Definition my_sec : M unit := SR_SET SR_FLAG_CARRY.
Definition my_sed : M unit := SR_SET SR_FLAG_DECIMAL.
Definition my_sei : M unit := SR_SET SR_FLAG_INTERRUPT.

Definition my_sta (addr : Z) : M unit := ac <- get my_ac ;; my6502_write addr ac.
Definition my_stx (addr : Z) : M unit := x <- get my_x ;; my6502_write addr x.
Definition my_sty (addr : Z) : M unit := y <- get my_y ;; my6502_write addr y.

(** Transfer Accumulator to Index X. *)
Definition my_tax : M unit :=
  ac <- get my_ac ;; set_x ac ;;
  x <- get my_x ;; my_update_sr x (Z.lor SR_FLAG_NEGATIVE SR_FLAG_ZERO).

Definition my_tay : M unit :=
  ac <- get my_ac ;; set_y ac ;;
  y <- get my_y ;; my_update_sr y (Z.lor SR_FLAG_NEGATIVE SR_FLAG_ZERO).

(** Transfer Stack Pointer to Index X. *)
Definition my_tsx : M unit :=
  sp <- get my_sp ;; set_x sp ;;
  x <- get my_x ;; my_update_sr x (Z.lor SR_FLAG_NEGATIVE SR_FLAG_ZERO).

Definition my_txa : M unit :=
  x <- get my_x ;; set_ac x ;;
  ac <- get my_ac ;; my_update_sr ac (Z.lor SR_FLAG_NEGATIVE SR_FLAG_ZERO).

(** Transfer Index X to Stack Register. *)
Definition my_txs : M unit := x <- get my_x ;; set_sp x.

(** Transfer Index Y to Accumulator. *)
Definition my_tya : M unit :=
  y <- get my_y ;; set_ac y ;;
  ac <- get my_ac ;; my_update_sr ac (Z.lor SR_FLAG_NEGATIVE SR_FLAG_ZERO).

(** ** The dispatcher

    A handler that takes a [uint8_t] receives the packed operand converted,
    that is, its byte 0. *)
Definition dispatch (opcode : Z) : M unit :=
  match opcode with
  | 0x00 => my_brk
  | 0x01 => op <- my_read_op INDIRECT_X ;; my_ora (to_u8 op)
  | 0x05 => op <- my_read_op ZEROPAGE ;; my_ora (to_u8 op)
  | 0x06 => op <- my_read_op ZEROPAGE ;; my_asl op
  | 0x08 => my_php
  | 0x09 => op <- my_read_op IMMEDIATE ;; my_ora (to_u8 op)
  | 0x0A => op <- my_read_op ACCUMULATOR ;; my_asl op
  | 0x0D => op <- my_read_op ABSOLUTE ;; my_ora (to_u8 op)
  | 0x0E => op <- my_read_op ABSOLUTE ;; my_asl op
  | 0x10 => addr <- my_read_addr RELATIVE ;; my_bpl addr
  | 0x11 => op <- my_read_op INDIRECT_Y ;; my_ora (to_u8 op)
  | 0x15 => op <- my_read_op ZEROPAGE_X ;; my_ora (to_u8 op)
  | 0x16 => op <- my_read_op ZEROPAGE_X ;; my_asl op
  | 0x18 => my_clc
  | 0x19 => op <- my_read_op ABSOLUTE_Y ;; my_ora (to_u8 op)
  | 0x1D => op <- my_read_op ABSOLUTE_X ;; my_ora (to_u8 op)
  | 0x1E => op <- my_read_op ABSOLUTE_X ;; my_asl op
  | 0x20 => addr <- my_read_addr ABSOLUTE ;; my_jsr addr
  | 0x21 => op <- my_read_op INDIRECT_X ;; my_and (to_u8 op)
  | 0x24 => op <- my_read_op ZEROPAGE ;; my_bit (to_u8 op)
  | 0x25 => op <- my_read_op ZEROPAGE ;; my_and (to_u8 op)
  | 0x26 => op <- my_read_op ZEROPAGE ;; my_rol op
  | 0x28 => my_plp
  | 0x29 => op <- my_read_op IMMEDIATE ;; my_and (to_u8 op)
  | 0x2A => op <- my_read_op ACCUMULATOR ;; my_rol op
  | 0x2C => op <- my_read_op ABSOLUTE ;; my_bit (to_u8 op)
  | 0x2D => op <- my_read_op ABSOLUTE ;; my_and (to_u8 op)
  | 0x2E => op <- my_read_op ABSOLUTE ;; my_rol op
  | 0x30 => addr <- my_read_addr RELATIVE ;; my_bmi addr
  | 0x31 => op <- my_read_op INDIRECT_Y ;; my_and (to_u8 op)
  | 0x35 => op <- my_read_op ZEROPAGE_X ;; my_and (to_u8 op)
  | 0x36 => op <- my_read_op ZEROPAGE_X ;; my_rol op
  | 0x38 => my_sec
  | 0x39 => op <- my_read_op ABSOLUTE_Y ;; my_and (to_u8 op)
  | 0x3D => op <- my_read_op ABSOLUTE_X ;; my_and (to_u8 op)
  | 0x3E => op <- my_read_op ABSOLUTE_X ;; my_rol op
  | 0x40 => my_rti
  | 0x41 => op <- my_read_op INDIRECT_X ;; my_eor (to_u8 op)
  | 0x45 => op <- my_read_op ZEROPAGE ;; my_eor (to_u8 op)
  | 0x46 => op <- my_read_op ZEROPAGE ;; my_lsr op
  | 0x48 => my_pha
  | 0x49 => op <- my_read_op IMMEDIATE ;; my_eor (to_u8 op)
  | 0x4A => op <- my_read_op ACCUMULATOR ;; my_lsr op
  | 0x4C => addr <- my_read_addr ABSOLUTE ;; my_jmp addr
  | 0x4D => op <- my_read_op ABSOLUTE ;; my_eor (to_u8 op)
  | 0x4E => op <- my_read_op ABSOLUTE ;; my_lsr op
  | 0x50 => addr <- my_read_addr RELATIVE ;; my_bvc addr
  | 0x51 => op <- my_read_op INDIRECT_Y ;; my_eor (to_u8 op)
  | 0x55 => op <- my_read_op ZEROPAGE_X ;; my_eor (to_u8 op)
  | 0x56 => op <- my_read_op ZEROPAGE_X ;; my_lsr op
  | 0x58 => my_cli
  | 0x59 => op <- my_read_op ABSOLUTE_Y ;; my_eor (to_u8 op)
  | 0x5D => op <- my_read_op ABSOLUTE_X ;; my_eor (to_u8 op)
  | 0x5E => op <- my_read_op ABSOLUTE_X ;; my_lsr op
  | 0x60 => my_rts
  | 0x61 => op <- my_read_op INDIRECT_X ;; my_adc (to_u8 op)
  | 0x65 => op <- my_read_op ZEROPAGE ;; my_adc (to_u8 op)
  | 0x66 => op <- my_read_op ZEROPAGE ;; my_ror op
  | 0x68 => my_pla
  | 0x69 => op <- my_read_op IMMEDIATE ;; my_adc (to_u8 op)
  | 0x6A => op <- my_read_op ACCUMULATOR ;; my_ror op
  | 0x6C => addr <- my_read_addr INDIRECT ;; my_jmp addr
  | 0x6D => op <- my_read_op ABSOLUTE ;; my_adc (to_u8 op)
  | 0x6E => op <- my_read_op ABSOLUTE ;; my_ror op
  | 0x70 => addr <- my_read_addr RELATIVE ;; my_bvs addr
  | 0x71 => op <- my_read_op INDIRECT_Y ;; my_adc (to_u8 op)
  | 0x75 => op <- my_read_op ZEROPAGE_X ;; my_adc (to_u8 op)
  | 0x76 => op <- my_read_op ZEROPAGE_X ;; my_ror op
  | 0x78 => my_sei
  | 0x79 => op <- my_read_op ABSOLUTE_Y ;; my_adc (to_u8 op)
  | 0x7D => op <- my_read_op ABSOLUTE_X ;; my_adc (to_u8 op)
  | 0x7E => op <- my_read_op ABSOLUTE_X ;; my_ror op
  | 0x81 => addr <- my_read_addr INDIRECT_X ;; my_sta addr
  | 0x84 => addr <- my_read_addr ZEROPAGE ;; my_sty addr
  | 0x85 => addr <- my_read_addr ZEROPAGE ;; my_sta addr
  | 0x86 => addr <- my_read_addr ZEROPAGE ;; my_stx addr
  | 0x88 => my_dey
  | 0x8A => my_txa
  | 0x8C => addr <- my_read_addr ABSOLUTE ;; my_sty addr
  | 0x8D => addr <- my_read_addr ABSOLUTE ;; my_sta addr
  | 0x8E => addr <- my_read_addr ABSOLUTE ;; my_stx addr
  | 0x90 => addr <- my_read_addr RELATIVE ;; my_bcc addr
  | 0x91 => addr <- my_read_addr INDIRECT_Y ;; my_sta addr
  | 0x94 => addr <- my_read_addr ZEROPAGE_X ;; my_sty addr
  | 0x95 => addr <- my_read_addr ZEROPAGE_X ;; my_sta addr
  | 0x96 => addr <- my_read_addr ZEROPAGE_Y ;; my_stx addr
  | 0x98 => my_tya
  | 0x99 => addr <- my_read_addr ABSOLUTE_Y ;; my_sta addr
  | 0x9A => my_txs
  | 0x9D => addr <- my_read_addr ABSOLUTE_X ;; my_sta addr
  | 0xA0 => op <- my_read_op IMMEDIATE ;; my_ldy (to_u8 op)
  | 0xA1 => op <- my_read_op INDIRECT_X ;; my_lda (to_u8 op)
  | 0xA2 => op <- my_read_op IMMEDIATE ;; my_ldx (to_u8 op)
  | 0xA4 => op <- my_read_op ZEROPAGE ;; my_ldy (to_u8 op)
  | 0xA5 => op <- my_read_op ZEROPAGE ;; my_lda (to_u8 op)
  | 0xA6 => op <- my_read_op ZEROPAGE ;; my_ldx (to_u8 op)
  | 0xA8 => my_tay
  | 0xA9 => op <- my_read_op IMMEDIATE ;; my_lda (to_u8 op)
  | 0xAA => my_tax
  | 0xAC => op <- my_read_op ABSOLUTE ;; my_ldy (to_u8 op)
  | 0xAD => op <- my_read_op ABSOLUTE ;; my_lda (to_u8 op)
  | 0xAE => op <- my_read_op ABSOLUTE ;; my_ldx (to_u8 op)
  | 0xB0 => addr <- my_read_addr RELATIVE ;; my_bcs addr
  | 0xB1 => op <- my_read_op INDIRECT_Y ;; my_lda (to_u8 op)
  | 0xB4 => op <- my_read_op ZEROPAGE_X ;; my_ldy (to_u8 op)
  | 0xB5 => op <- my_read_op ZEROPAGE_X ;; my_lda (to_u8 op)
  | 0xB6 => op <- my_read_op ZEROPAGE_Y ;; my_ldx (to_u8 op)
  | 0xB8 => my_clv
  | 0xB9 => op <- my_read_op ABSOLUTE_Y ;; my_lda (to_u8 op)
  | 0xBA => my_tsx
  | 0xBC => op <- my_read_op ABSOLUTE_X ;; my_ldy (to_u8 op)
  | 0xBD => op <- my_read_op ABSOLUTE_X ;; my_lda (to_u8 op)
  | 0xBE => op <- my_read_op ABSOLUTE_Y ;; my_ldx (to_u8 op)
  | 0xC0 => op <- my_read_op IMMEDIATE ;; my_cpy (to_u8 op)
  | 0xC1 => op <- my_read_op INDIRECT_X ;; my_cmp (to_u8 op)
  | 0xC4 => op <- my_read_op ZEROPAGE ;; my_cpy (to_u8 op)
  | 0xC5 => op <- my_read_op ZEROPAGE ;; my_cmp (to_u8 op)
  | 0xC6 => addr <- my_read_addr ZEROPAGE ;; my_dec addr
  | 0xC8 => my_iny
  | 0xC9 => op <- my_read_op IMMEDIATE ;; my_cmp (to_u8 op)
  | 0xCA => my_dex
  | 0xCC => op <- my_read_op ABSOLUTE ;; my_cpy (to_u8 op)
  | 0xCD => op <- my_read_op ABSOLUTE ;; my_cmp (to_u8 op)
  | 0xCE => addr <- my_read_addr ABSOLUTE ;; my_dec addr
  | 0xD0 => addr <- my_read_addr RELATIVE ;; my_bne addr
  | 0xD1 => op <- my_read_op INDIRECT_Y ;; my_cmp (to_u8 op)
  | 0xD5 => op <- my_read_op ZEROPAGE_X ;; my_cmp (to_u8 op)
  | 0xD6 => addr <- my_read_addr ZEROPAGE_X ;; my_dec addr
  | 0xD8 => my_cld
  | 0xD9 => op <- my_read_op ABSOLUTE_Y ;; my_cmp (to_u8 op)
  | 0xDD => op <- my_read_op ABSOLUTE_X ;; my_cmp (to_u8 op)
  | 0xDE => addr <- my_read_addr ABSOLUTE_X ;; my_dec addr
  | 0xE0 => op <- my_read_op IMMEDIATE ;; my_cpx (to_u8 op)
  | 0xE1 => op <- my_read_op INDIRECT_X ;; my_sbc (to_u8 op)
  | 0xE6 => addr <- my_read_addr ZEROPAGE ;; my_inc addr
  | 0xE4 => op <- my_read_op ZEROPAGE ;; my_cpx (to_u8 op)
  | 0xE5 => op <- my_read_op ZEROPAGE ;; my_sbc (to_u8 op)
  | 0xE8 => my_inx
  | 0xE9 => op <- my_read_op IMMEDIATE ;; my_sbc (to_u8 op)
  | 0xEA => my_nop
  | 0xEC => op <- my_read_op ABSOLUTE ;; my_cpx (to_u8 op)
  | 0xED => op <- my_read_op ABSOLUTE ;; my_sbc (to_u8 op)
  | 0xEE => addr <- my_read_addr ABSOLUTE ;; my_inc addr
  | 0xF0 => addr <- my_read_addr RELATIVE ;; my_beq addr
  | 0xF1 => op <- my_read_op INDIRECT_Y ;; my_sbc (to_u8 op)
  | 0xF5 => op <- my_read_op ZEROPAGE_X ;; my_sbc (to_u8 op)
  | 0xF6 => addr <- my_read_addr ZEROPAGE_X ;; my_inc addr
  | 0xF8 => my_sed
  | 0xF9 => op <- my_read_op ABSOLUTE_Y ;; my_sbc (to_u8 op)
  | 0xFD => op <- my_read_op ABSOLUTE_X ;; my_sbc (to_u8 op)
  | 0xFE => addr <- my_read_addr ABSOLUTE_X ;; my_inc addr
  | _ => assert_0 In_my6502_step
  end.

(** [void my6502_step(void)] *)
Definition my6502_step : M unit :=
  opcode <- fetch ;;
  dispatch opcode.

End Core.

(** ** Driving the core *)

(** [n] calls of [my6502_step]. *)
Fixpoint run (host : list bus_event -> Z -> Z) (n : nat) : M unit :=
  match n with
  | O => ret tt
  | S n' => my6502_step host ;; run host n'
  end.

(** The machine a routine leaves behind, whether it returned or aborted. *)
Definition final {A} (o : outcome A) : machine :=
  match o with
  | Returns _ m => m
  | Aborts _ m => m
  end.

(** The states the host can observe: the one after [my6502_reset], and the
    one after each [my6502_step] that returns. *)
Inductive reachable (host : list bus_event -> Z -> Z) : machine -> Prop :=
| reachable_reset (m0 : machine) (entry_pc : Z) :
    0 <= entry_pc < 65536 ->
    reachable host (final (my6502_reset entry_pc m0))
| reachable_step (m m' : machine) :
    reachable host m ->
    my6502_step host m = Returns tt m' ->
    reachable host m'.

(** The byte most recently written to [address], if any. *)
Fixpoint last_write (history : list bus_event) (address : Z) : option Z :=
  match history with
  | [] => None
  | BusWrite a v :: older =>
      if a =? address then Some v else last_write older address
  | BusRead _ _ :: older => last_write older address
  end.

(** The harness of [main.c]: a 64 KiB array behind the two callbacks.  A read
    answers the last byte written to the address, or else the loaded image. *)
Definition ram (image : Z -> Z) (history : list bus_event) (address : Z) : Z :=
  match last_write history address with
  | Some v => v
  | None => image address
  end.

(** A host whose reads give back what was written. *)
Definition returns_written_bytes (host : list bus_event -> Z -> Z) : Prop :=
  forall history address v,
    last_write history address = Some v -> host history address = v.

(** An image that is zero except for [bytes] loaded at [base]. *)
Definition load (base : Z) (bytes : list Z) (address : Z) : Z :=
  if (base <=? address) && (address <? base + Z.of_nat (length bytes))
  then nth (Z.to_nat (address - base)) bytes 0
  else 0.

(** The machine before the host has done anything. *)
Definition power_on : machine := mkMachine (mkRegs 0 0 0 0 0 0) [].

(** Reading single flags of a status byte. *)
Definition flag (bit sr : Z) : bool := truthy (Z.land sr bit).

(** The byte the host answers to the next read of [address]. *)
Definition answer (host : list bus_event -> Z -> Z) (m : machine) (address : Z) : Z :=
  to_u8 (host (bus m) address).

(** What the two pops of a return find: with the bus history [seen], the
    host answers [lo] at [lo_slot] and, after that read, [hi] at
    [hi_slot]. *)
Definition stack_answers (host : list bus_event -> Z -> Z) (seen : list bus_event)
           (lo_slot lo hi_slot hi : Z) : Prop :=
  to_u8 (host seen lo_slot) = lo
  /\ to_u8 (host (BusRead lo_slot lo :: seen) hi_slot) = hi.

(** The registers with another program counter. *)
Definition with_pc (pc : Z) (r : regfile) : regfile :=
  mkRegs pc (my_ac r) (my_x r) (my_y r) (my_sr r) (my_sp r).

(** The eight conditional branches. *)
Definition branch_opcodes : list Z :=
  [0x10; 0x30; 0x50; 0x70; 0x90; 0xB0; 0xD0; 0xF0].

(** The instruction set of the NMOS 6502, by mnemonic (the opcode table of
    the masswerk.at reference the sources point to): 151 opcodes. *)
Definition nmos6502_opcodes : list Z :=
  [ 0x69; 0x65; 0x75; 0x6D; 0x7D; 0x79; 0x61; 0x71  (* ADC *)
  ; 0x29; 0x25; 0x35; 0x2D; 0x3D; 0x39; 0x21; 0x31  (* AND *)
  ; 0x0A; 0x06; 0x16; 0x0E; 0x1E                    (* ASL *)
  ; 0x90; 0xB0; 0xF0                                (* BCC BCS BEQ *)
  ; 0x24; 0x2C                                      (* BIT *)
  ; 0x30; 0xD0; 0x10; 0x00; 0x50; 0x70              (* BMI BNE BPL BRK BVC BVS *)
  ; 0x18; 0xD8; 0x58; 0xB8                          (* CLC CLD CLI CLV *)
  ; 0xC9; 0xC5; 0xD5; 0xCD; 0xDD; 0xD9; 0xC1; 0xD1  (* CMP *)
  ; 0xE0; 0xE4; 0xEC                                (* CPX *)
  ; 0xC0; 0xC4; 0xCC                                (* CPY *)
  ; 0xC6; 0xD6; 0xCE; 0xDE                          (* DEC *)
  ; 0xCA; 0x88                                      (* DEX DEY *)
  ; 0x49; 0x45; 0x55; 0x4D; 0x5D; 0x59; 0x41; 0x51  (* EOR *)
  ; 0xE6; 0xF6; 0xEE; 0xFE                          (* INC *)
  ; 0xE8; 0xC8                                      (* INX INY *)
  ; 0x4C; 0x6C; 0x20                                (* JMP JSR *)
  ; 0xA9; 0xA5; 0xB5; 0xAD; 0xBD; 0xB9; 0xA1; 0xB1  (* LDA *)
  ; 0xA2; 0xA6; 0xB6; 0xAE; 0xBE                    (* LDX *)
  ; 0xA0; 0xA4; 0xB4; 0xAC; 0xBC                    (* LDY *)
  ; 0x4A; 0x46; 0x56; 0x4E; 0x5E                    (* LSR *)
  ; 0xEA                                            (* NOP *)
  ; 0x09; 0x05; 0x15; 0x0D; 0x1D; 0x19; 0x01; 0x11  (* ORA *)
  ; 0x48; 0x08; 0x68; 0x28                          (* PHA PHP PLA PLP *)
  ; 0x2A; 0x26; 0x36; 0x2E; 0x3E                    (* ROL *)
  ; 0x6A; 0x66; 0x76; 0x6E; 0x7E                    (* ROR *)
  ; 0x40; 0x60                                      (* RTI RTS *)
  ; 0xE9; 0xE5; 0xF5; 0xED; 0xFD; 0xF9; 0xE1; 0xF1  (* SBC *)
  ; 0x38; 0xF8; 0x78                                (* SEC SED SEI *)
  ; 0x85; 0x95; 0x8D; 0x9D; 0x99; 0x81; 0x91        (* STA *)
  ; 0x86; 0x96; 0x8E                                (* STX *)
  ; 0x84; 0x94; 0x8C                                (* STY *)
  ; 0xAA; 0xA8; 0xBA; 0x8A; 0x9A; 0x98              (* TAX TAY TSX TXA TXS TYA *)
  ].

Definition nmos6502_defined (opcode : Z) : bool :=
  existsb (Z.eqb opcode) nmos6502_opcodes.

(** What a failed step reports: the assertion site.  The report would carry
    the opcode byte and the program counter if both could be read off it. *)
Definition failure_carries_opcode_and_pc : Prop :=
  exists decode : assert_site -> Z * Z,
    forall host m site m',
      my6502_step host m = Aborts site m' ->
      decode site = (answer host m (my_pc (regs m)), my_pc (regs m)).

(** A status byte with one flag set or cleared, as [SR_SET] and [SR_CLR]
    leave it. *)
Definition sr_with (bit : Z) (on : bool) (sr : Z) : Z :=
  if on then to_u8 (Z.lor sr bit) else to_u8 (Z.land sr (Z.lnot bit)).

(** All byte values. *)
Definition all_bytes : list Z := map Z.of_nat (seq 0 256).

(** The registers with another status byte. *)
Definition with_sr (sr : Z) (r : regfile) : regfile :=
  mkRegs (my_pc r) (my_ac r) (my_x r) (my_y r) sr (my_sp r).

(** Two start states for the harness: an image with the single byte
    [opcode] at [pc], and the registers as [my6502_reset pc] leaves them. *)
Definition one_byte_image (pc opcode : Z) : list bus_event -> Z -> Z :=
  ram (load pc [opcode]).
Definition after_reset (pc : Z) : machine := final (my6502_reset pc power_on).

(** Scenario C of the documentation: JSR $0405 at 0x0400, RTS at 0x0405. *)
Definition jsr_rts_image : list bus_event -> Z -> Z :=
  ram (load 0x0400 [0x20; 0x05; 0x04; 0x00; 0x00; 0x60]).

(** JSR $0405 at 0x0400, and at 0x0405 a NOP before the RTS. *)
Definition jsr_nop_rts_image : list bus_event -> Z -> Z :=
  ram (load 0x0400 [0x20; 0x05; 0x04; 0x00; 0x00; 0xEA; 0x60]).

(** A program that stacks 0x12, 0x34 and 0xC3 with LDA/PHA and then
    executes RTI at 0x0409: the status byte on the stack is 0xC3 (bits 4 and
    5 clear), the return address 0x1234. *)
Definition rti_image : list bus_event -> Z -> Z :=
  ram (load 0x0400 [0xA9; 0x12; 0x48; 0xA9; 0x34; 0x48; 0xA9; 0xC3; 0x48; 0x40]).
Definition before_rti : machine := final (run rti_image 6 (after_reset 0x0400)).

(** A program that stacks 0x04, 0x0A and 0x00, executes RTI at 0x0409 and so
    continues at 0x040A with PHP and then PLP. *)
Definition php_image : list bus_event -> Z -> Z :=
  ram (load 0x0400
         [0xA9; 0x04; 0x48; 0xA9; 0x0A; 0x48; 0xA9; 0x00; 0x48; 0x40; 0x08; 0x28]).
Definition before_php : machine := final (run php_image 7 (after_reset 0x0400)).

(** Bit 5 of the status register reads 1. *)
Definition unused_set (m : machine) : Prop :=
  Z.testbit (my_sr (regs m)) 5 = true.

(** A routine that leaves bit 5 set when it finds it set, whether it returns
    or aborts. *)
Definition keeps_unused {A} (c : M A) : Prop :=
  forall m, unused_set m -> unused_set (final (c m)).

(** ** Vocabulary of the further properties *)

(** The machine right after the opcode fetch of a step. *)
Definition fetched (m : machine) (opcode : Z) : machine :=
  mkMachine (with_pc (to_u16 (my_pc (regs m) + 1)) (regs m))
            (BusRead (my_pc (regs m)) opcode :: bus m).

(** A routine that returns from every machine: it meets no assertion. *)
Definition always_returns {A} (c : M A) : Prop :=
  forall m, exists a m', c m = Returns a m'.

(** The condition each branch opcode tests, as [my_bpl] ... [my_beq] and the
    switch of [my6502_step] have it. *)
Definition branch_taken (opcode sr : Z) : bool :=
  match opcode with
  | 0x10 => negb (flag SR_FLAG_NEGATIVE sr)
  | 0x30 => flag SR_FLAG_NEGATIVE sr
  | 0x50 => negb (flag SR_FLAG_OVERFLOW sr)
  | 0x70 => flag SR_FLAG_OVERFLOW sr
  | 0x90 => negb (flag SR_FLAG_CARRY sr)
  | 0xB0 => flag SR_FLAG_CARRY sr
  | 0xD0 => negb (flag SR_FLAG_ZERO sr)
  | 0xF0 => flag SR_FLAG_ZERO sr
  | _ => false
  end.

(** The seven flag instructions: opcode, bit number, value given to the bit
    (CLC, SEC, CLI, SEI, CLV, CLD, SED). *)
Definition flag_instructions : list (Z * (Z * bool)) :=
  [ (0x18, (0, false)); (0x38, (0, true)); (0x58, (2, false)); (0x78, (2, true));
    (0xB8, (6, false)); (0xD8, (3, false)); (0xF8, (3, true)) ].

(** The three compare routines and the register each one compares. *)
Definition compare_instructions : list ((Z -> M unit) * (regfile -> Z)) :=
  [ (my_cmp, my_ac); (my_cpx, my_x); (my_cpy, my_y) ].

(** The addressing modes that resolve to a memory operand. *)
Definition memory_modes : list my_addr :=
  [ ABSOLUTE; ABSOLUTE_X; ABSOLUTE_Y; INDIRECT_X; INDIRECT_Y;
    ZEROPAGE; ZEROPAGE_X; ZEROPAGE_Y ].

(** The registers with another accumulator. *)
Definition with_ac (ac : Z) (r : regfile) : regfile :=
  mkRegs (my_pc r) ac (my_x r) (my_y r) (my_sr r) (my_sp r).

(** What a shift or rotate of the accumulator leaves: the new byte in AC,
    the bit shifted out in C, N and Z from the new byte. *)
Definition shifted (value' out : Z) (m : machine) : outcome unit :=
  Returns tt
    (mkMachine
       (with_ac value'
          (with_sr (sr_with SR_FLAG_CARRY (truthy out)
                      (sr_with SR_FLAG_ZERO (value' =? 0)
                         (sr_with SR_FLAG_NEGATIVE (Z.testbit value' 7)
                            (my_sr (regs m)))))
                   (regs m)))
       (bus m)).

(** Rotating a byte left through the carry and back right, and the other way
    round, on one byte and one carry value: the byte and the carry return. *)
Definition rol_ror_check (c : bool) (z : Z) : bool :=
  let z1 := to_u8 (Z.shiftl z 1 + (if c then 1 else 0)) in
  (to_u8 (Z.shiftr z1 1 + (if truthy (to_u8 (Z.land z 0x80)) then 0x80 else 0x00)) =? z)
  && eqb (truthy (to_u8 (Z.land z1 0x01))) c.

Definition ror_rol_check (c : bool) (z : Z) : bool :=
  let z1 := to_u8 (Z.shiftr z 1 + (if c then 0x80 else 0x00)) in
  (to_u8 (Z.shiftl z1 1 + (if truthy (to_u8 (Z.land z 0x01)) then 1 else 0)) =? z)
  && eqb (truthy (to_u8 (Z.land z1 0x80))) c.

(** The increment and decrement routines of the index registers, with the
    register each pair works on. *)
Definition index_steps : list (M unit * M unit * (regfile -> Z)) :=
  [ (my_inx, my_dex, my_x); (my_iny, my_dey, my_y) ].

(** The immediate loads: opcode and register loaded (LDA, LDX, LDY). *)
Definition immediate_loads : list (Z * (regfile -> Z)) :=
  [ (0xA9, my_ac); (0xA2, my_x); (0xA0, my_y) ].

(** The stores: opcode, addressing mode and register stored. *)
Definition store_instructions : list (Z * (my_addr * (regfile -> Z))) :=
  [ (0x81, (INDIRECT_X, my_ac)); (0x84, (ZEROPAGE, my_y)); (0x85, (ZEROPAGE, my_ac));
    (0x86, (ZEROPAGE, my_x)); (0x8C, (ABSOLUTE, my_y)); (0x8D, (ABSOLUTE, my_ac));
    (0x8E, (ABSOLUTE, my_x)); (0x91, (INDIRECT_Y, my_ac)); (0x94, (ZEROPAGE_X, my_y));
    (0x95, (ZEROPAGE_X, my_ac)); (0x96, (ZEROPAGE_Y, my_x)); (0x99, (ABSOLUTE_Y, my_ac));
    (0x9D, (ABSOLUTE_X, my_ac)) ].

(** A bus access that is a read. *)
Definition is_read (e : bus_event) : Prop :=
  match e with
  | BusRead _ _ => True
  | BusWrite _ _ => False
  end.

(** A routine that only reads the bus: what it appends to the history are
    reads, whether it returns or aborts. *)
Definition reads_only {A} (c : M A) : Prop :=
  forall m, exists reads,
    bus (final (c m)) = reads ++ bus m /\ Forall is_read reads.

(** The opcodes whose handlers call [my6502_write]: the stores, INC and DEC,
    the shifts and rotates of memory, PHA, PHP, JSR and BRK. *)
Definition writing_opcodes : list Z :=
  [ 0x81; 0x84; 0x85; 0x86; 0x8C; 0x8D; 0x8E; 0x91; 0x94; 0x95; 0x96; 0x99; 0x9D
  ; 0xE6; 0xF6; 0xEE; 0xFE; 0xC6; 0xD6; 0xCE; 0xDE
  ; 0x06; 0x16; 0x0E; 0x1E; 0x46; 0x56; 0x4E; 0x5E
  ; 0x26; 0x36; 0x2E; 0x3E; 0x66; 0x76; 0x6E; 0x7E
  ; 0x48; 0x08; 0x20; 0x00 ].

Definition writes_memory (opcode : Z) : bool :=
  existsb (Z.eqb opcode) writing_opcodes.

(** The registers hold values of their C types. *)
Definition regs_ok (r : regfile) : Prop :=
  0 <= my_pc r < 65536 /\ 0 <= my_ac r < 256 /\ 0 <= my_x r < 256 /\
  0 <= my_y r < 256 /\ 0 <= my_sr r < 256 /\ 0 <= my_sp r < 256.

Definition is_u8 (v : Z) : Prop := 0 <= v < 256.
Definition is_u16 (v : Z) : Prop := 0 <= v < 65536.
Definition anything {A} (a : A) : Prop := True.

(** A bus access with a 16-bit address and an 8-bit value. *)
Definition event_ok (e : bus_event) : Prop :=
  match e with
  | BusRead a v => is_u16 a /\ is_u8 v
  | BusWrite a v => is_u16 a /\ is_u8 v
  end.

(** The registers are within their widths and so is every bus access made
    so far. *)
Definition machine_ok (m : machine) : Prop :=
  regs_ok (regs m) /\ Forall event_ok (bus m).

(** A routine that keeps the machine within its widths, and whose result,
    when it returns, satisfies [Q]. *)
Definition keeps_ok {A} (Q : A -> Prop) (c : M A) : Prop :=
  forall m, machine_ok m ->
    match c m with
    | Returns a m' => machine_ok m' /\ Q a
    | Aborts _ m' => machine_ok m'
    end.

(** Register [reg] is back to what it was in [m], Z and N describe it, and
    PC, SP, the other registers and the bus are those of [m]. *)
Definition restored (reg : regfile -> Z) (m m2 : machine) : Prop :=
  reg (regs m2) = reg (regs m)
  /\ flag SR_FLAG_ZERO (my_sr (regs m2)) = (reg (regs m) =? 0)
  /\ flag SR_FLAG_NEGATIVE (my_sr (regs m2)) = Z.testbit (reg (regs m)) 7
  /\ bus m2 = bus m
  /\ my_pc (regs m2) = my_pc (regs m)
  /\ my_sp (regs m2) = my_sp (regs m)
  /\ forall other, In other [my_ac; my_x; my_y] -> other <> reg ->
       other (regs m2) = other (regs m).

(** An image with [bytes] placed at [base] over the image [below]. *)
Definition place (base : Z) (bytes : list Z) (below : Z -> Z) (address : Z) : Z :=
  if (base <=? address) && (address <? base + Z.of_nat (length bytes))
  then nth (Z.to_nat (address - base)) bytes 0
  else below address.

(** The register transfers that update N and Z: routine, source and
    destination (TAX, TAY, TSX, TXA, TYA). *)
Definition flagged_transfers : list (M unit * ((regfile -> Z) * (regfile -> Z))) :=
  [ (my_tax, (my_ac, my_x)); (my_tay, (my_ac, my_y)); (my_tsx, (my_sp, my_x));
    (my_txa, (my_x, my_ac)); (my_tya, (my_y, my_ac)) ].

(** The logical instructions with the operation each applies to AC and the
    operand (AND, ORA, EOR). *)
Definition logic_instructions : list ((Z -> M unit) * (Z -> Z -> Z)) :=
  [ (my_and, Z.land); (my_ora, Z.lor); (my_eor, Z.lxor) ].

(** The registers with another stack pointer. *)
Definition with_sp (sp : Z) (r : regfile) : regfile :=
  mkRegs (my_pc r) (my_ac r) (my_x r) (my_y r) (my_sr r) sp.

(** * Properties of the core *)

(** ** Fixed-width arithmetic *)

Lemma to_u8_range (v : Z) : 0 <= to_u8 v < 256.
Proof. unfold to_u8. apply Z.mod_pos_bound. lia. Qed.

Lemma to_u8_small (v : Z) : 0 <= v < 256 -> to_u8 v = v.
Proof. unfold to_u8. intros H. apply Z.mod_small. exact H. Qed.

Lemma to_u16_range (v : Z) : 0 <= to_u16 v < 65536.
Proof. unfold to_u16. apply Z.mod_pos_bound. lia. Qed.

Lemma to_u16_small (v : Z) : 0 <= v < 65536 -> to_u16 v = v.
Proof. unfold to_u16. intros H. apply Z.mod_small. exact H. Qed.

Ltac wrap_lia := unfold to_u8, to_u16; Z.div_mod_to_equations; lia.

Lemma all_bytes_complete (f : Z -> bool) :
  forallb f all_bytes = true -> forall z, 0 <= z < 256 -> f z = true.
Proof.
  intros Hall z Hz.
  rewrite forallb_forall in Hall. apply Hall.
  unfold all_bytes. rewrite <- (Z2Nat.id z) by lia.
  apply in_map, in_seq. lia.
Qed.

Lemma byte_lor_small (sr bit : Z) :
  0 <= sr < 256 -> 0 <= bit < 256 -> to_u8 (Z.lor sr bit) = Z.lor sr bit.
Proof.
  intros Hsr Hbit. apply Z.eqb_eq.
  apply (all_bytes_complete (fun b => to_u8 (Z.lor sr b) =? Z.lor sr b)); [ | exact Hbit].
  revert sr Hsr.
  assert (H : forallb (fun s => forallb (fun b => to_u8 (Z.lor s b) =? Z.lor s b) all_bytes)
                all_bytes = true) by (vm_compute; reflexivity).
  intros sr Hsr.
  apply (all_bytes_complete _ H sr Hsr).
Qed.

Lemma split_bytes (v : Z) :
  Z.lor (Z.land v 0xFF) (Z.shiftl (Z.shiftr v 8) 8) = v.
Proof.
  apply Z.bits_inj'. intros n Hn.
  change 0xFF with (Z.ones 8).
  rewrite Z.lor_spec, Z.land_spec.
  destruct (Z.ltb_spec n 8).
  - rewrite Z.ones_spec_low, Z.shiftl_spec_low by lia.
    now rewrite andb_true_r, orb_false_r.
  - rewrite Z.ones_spec_high, Z.shiftl_spec, Z.shiftr_spec by lia.
    rewrite andb_false_r. simpl. f_equal. lia.
Qed.

Lemma to_u16_word (u v : Z) :
  to_u16 (Z.lor (to_u8 u) (Z.shiftl (to_u8 v) 8)) =
  Z.lor (to_u8 u) (Z.shiftl (to_u8 v) 8).
Proof.
  unfold to_u16, to_u8. change 65536 with (2 ^ 16). change 256 with (2 ^ 8).
  apply Z.bits_inj'. intros n Hn.
  destruct (Z.ltb_spec n 16).
  - now rewrite Z.mod_pow2_bits_low by lia.
  - rewrite Z.mod_pow2_bits_high, Z.lor_spec, Z.shiftl_spec by lia.
    now rewrite !Z.mod_pow2_bits_high by lia.
Qed.

(** ** Single bits and status flags *)

(** Masking with a single bit tests that bit. *)
Lemma land_pow2 (x k : Z) :
  0 <= k -> Z.land x (2 ^ k) = if Z.testbit x k then 2 ^ k else 0.
Proof.
  intros Hk. apply Z.bits_inj'. intros n Hn.
  rewrite Z.land_spec, Z.pow2_bits_eqb by lia.
  destruct (Z.eqb_spec k n) as [->|Hne].
  - destruct (Z.testbit x n) eqn:E; simpl.
    + now rewrite Z.pow2_bits_true.
    + now rewrite Z.bits_0.
  - rewrite andb_false_r.
    destruct (Z.testbit x k).
    + rewrite Z.pow2_bits_false; auto.
    + now rewrite Z.bits_0.
Qed.

Lemma truthy_land_pow2 (x k : Z) :
  0 <= k -> truthy (Z.land x (2 ^ k)) = Z.testbit x k.
Proof.
  intros Hk. rewrite land_pow2 by exact Hk. unfold truthy.
  destruct (Z.testbit x k).
  - assert (0 < 2 ^ k) by (apply Z.pow_pos_nonneg; lia).
    destruct (Z.eqb_spec (2 ^ k) 0); [lia | reflexivity].
  - reflexivity.
Qed.

Lemma flag_testbit (k sr : Z) :
  0 <= k -> flag (Z.shiftl 1 k) sr = Z.testbit sr k.
Proof.
  intros Hk. unfold flag. rewrite Z.shiftl_1_l. now apply truthy_land_pow2.
Qed.

Lemma to_u8_testbit (v k : Z) :
  0 <= k < 8 -> Z.testbit (to_u8 v) k = Z.testbit v k.
Proof.
  intros Hk. unfold to_u8. change 256 with (2 ^ 8).
  apply Z.mod_pow2_bits_low. lia.
Qed.

(** Setting or clearing flag [j] fixes bit [j] and leaves the other seven. *)
Lemma sr_with_testbit (j k : Z) (on : bool) (sr : Z) :
  0 <= j < 8 -> 0 <= k < 8 ->
  Z.testbit (sr_with (Z.shiftl 1 j) on sr) k =
  if k =? j then on else Z.testbit sr k.
Proof.
  intros Hj Hk. unfold sr_with. rewrite Z.shiftl_1_l.
  destruct on; rewrite to_u8_testbit by exact Hk.
  - rewrite Z.lor_spec, Z.pow2_bits_eqb by lia.
    rewrite (Z.eqb_sym j k). destruct (k =? j); [apply orb_true_r | apply orb_false_r].
  - rewrite Z.land_spec, Z.lnot_spec, Z.pow2_bits_eqb by lia.
    rewrite (Z.eqb_sym j k). destruct (k =? j); [apply andb_false_r | apply andb_true_r].
Qed.

(** Reading a flag back after a sequence of flag updates. *)
Ltac read_flags :=
  unfold SR_FLAG_NEGATIVE, SR_FLAG_OVERFLOW, SR_FLAG_UNUSED, SR_FLAG_BREAK,
         SR_FLAG_DECIMAL, SR_FLAG_INTERRUPT, SR_FLAG_ZERO, SR_FLAG_CARRY;
  rewrite ?flag_testbit by lia;
  rewrite ?sr_with_testbit by lia;
  cbn [Z.eqb Pos.eqb].

(** Running a routine: unfold the monad and the register plumbing, leaving
    the integer arithmetic alone. *)
Ltac cpu_step :=
  cbv [my6502_step fetch bind ret get modify assert_0
       set_pc set_ac set_x set_y set_sr set_sp
       SR_SET SR_CLR SR_IS_SET my6502_read my6502_write my_push my_pop
       my_read_addr my_read_addr_from_pc my_read_addr_from_mem
       regs bus my_pc my_ac my_x my_y my_sr my_sp final with_pc answer].

Lemma SR_SET_or_CLR (on : bool) (bit : Z) (m : machine) :
  (if on then SR_SET bit else SR_CLR bit) m =
  Returns tt (mkMachine (with_sr (sr_with bit on (my_sr (regs m))) (regs m)) (bus m)).
Proof. destruct on; reflexivity. Qed.

Lemma my_update_sr_NZ (value : Z) (m : machine) :
  my_update_sr value (Z.lor SR_FLAG_NEGATIVE SR_FLAG_ZERO) m =
  Returns tt
    (mkMachine
       (with_sr (sr_with SR_FLAG_ZERO (value =? 0)
                   (sr_with SR_FLAG_NEGATIVE (Z.testbit value 7) (my_sr (regs m))))
                (regs m))
       (bus m)).
Proof.
  unfold my_update_sr, bind.
  change (truthy (Z.land (Z.lor SR_FLAG_NEGATIVE SR_FLAG_ZERO) SR_FLAG_NEGATIVE)) with true.
  change (truthy (Z.land (Z.lor SR_FLAG_NEGATIVE SR_FLAG_ZERO) SR_FLAG_ZERO)) with true.
  cbv iota. rewrite !SR_SET_or_CLR.
  change 0x80 with (2 ^ 7). rewrite truthy_land_pow2 by lia.
  unfold truthy. rewrite negb_involutive.
  destruct m as [[pc ac x y sr sp] h]. reflexivity.
Qed.

Lemma my_update_sr_with_carry_NZ (value carry : Z) (m : machine) :
  my_update_sr_with_carry value (Z.lor SR_FLAG_NEGATIVE SR_FLAG_ZERO) carry m =
  Returns tt
    (mkMachine
       (with_sr (sr_with SR_FLAG_CARRY (truthy carry)
                   (sr_with SR_FLAG_ZERO (value =? 0)
                      (sr_with SR_FLAG_NEGATIVE (Z.testbit value 7) (my_sr (regs m)))))
                (regs m))
       (bus m)).
Proof.
  unfold my_update_sr_with_carry, bind.
  rewrite my_update_sr_NZ, SR_SET_or_CLR.
  destruct m as [[pc ac x y sr sp] h]. reflexivity.
Qed.

(** ** Reset *)

(** C10: [my6502_reset] returns with PC = entry_pc, AC = X = Y = 0,
    SP = 0xFD and SR = 0x20, whatever the registers held before, and makes
    no bus access: the history of reads and writes is the one it found, so
    every address still holds the byte last written to it. *)
Theorem reset_is_pure (m1 m2 : machine) (entry_pc : Z) :
  my6502_reset entry_pc m1 =
    Returns tt (mkMachine (mkRegs entry_pc 0 0 0 0x20 0xFD) (bus m1))
  /\ regs (final (my6502_reset entry_pc m1)) =
     regs (final (my6502_reset entry_pc m2))
  /\ forall address,
       last_write (bus (final (my6502_reset entry_pc m1))) address =
       last_write (bus m1) address.
Proof.
  assert (Hrun : my6502_reset entry_pc m1 =
                 Returns tt (mkMachine (mkRegs entry_pc 0 0 0 0x20 0xFD) (bus m1)))
    by reflexivity.
  split; [exact Hrun | split].
  - reflexivity.
  - intros address. rewrite Hrun. reflexivity.
Qed.

(** ** Addressing *)

(** C8: with the operand byte [base] at PC and the index register holding
    [idx], zero-page-indexed addressing yields (base + idx) & 0xFF, an
    address of page 0, for ZEROPAGE_X (index X) and ZEROPAGE_Y (index Y). *)
Theorem zeropage_indexed_wraps host (m : machine) (base idx : Z) :
  answer host m (my_pc (regs m)) = base ->
  (my_x (regs m) = idx ->
   exists m', my_read_addr host ZEROPAGE_X m = Returns (Z.land (base + idx) 0xFF) m')
  /\ (my_y (regs m) = idx ->
   exists m', my_read_addr host ZEROPAGE_Y m = Returns (Z.land (base + idx) 0xFF) m')
  /\ 0 <= Z.land (base + idx) 0xFF < 256.
Proof.
  intros Hbase.
  assert (Hr : 0 <= Z.land (base + idx) 0xFF < 256).
  { change 0xFF with (Z.ones 8). rewrite Z.land_ones by lia.
    apply Z.mod_pos_bound. reflexivity. }
  destruct m as [[pc ac x y sr sp] h]. unfold answer in Hbase. simpl in *.
  repeat split; try apply Hr; intros Hidx; cpu_step; eexists;
    rewrite Hbase, Hidx, to_u16_small by lia; reflexivity.
Qed.

(** Scenario F: X = 0xFF and LDA $81,X address 0x80. *)
Lemma zeropage_indexed_wraps_witness :
  let m := mkMachine (mkRegs 0x0401 0 0xFF 0xFF 0x20 0xFD) [] in
  answer (one_byte_image 0x0401 0x81) m 0x0401 = 0x81
  /\ (exists m', my_read_addr (one_byte_image 0x0401 0x81) ZEROPAGE_X m =
                   Returns 0x80 m')
  /\ (exists m', my_read_addr (one_byte_image 0x0401 0x81) ZEROPAGE_Y m =
                   Returns 0x80 m').
Proof.
  intros m.
  destruct (zeropage_indexed_wraps (one_byte_image 0x0401 0x81) m 0x81 0xFF eq_refl)
    as [HX [HY _]].
  split; [reflexivity | split; [exact (HX eq_refl) | exact (HY eq_refl)]].
Defined.

(** ** Dispatch *)

Lemma dispatch_undefined host (opcode : Z) :
  0 <= opcode < 256 ->
  nmos6502_defined opcode = false ->
  dispatch host opcode = assert_0 In_my6502_step.
Proof.
  intros Hr Hd.
  destruct opcode as [|p|p]; [discriminate Hd | | lia].
  do 8 (destruct p as [p|p|];
        [ | | first [ reflexivity | vm_compute in Hd; discriminate Hd ] ]).
  all: lia.
Qed.

(** C7 as stated fails: the failure of a step does not tell which opcode
    was met, nor where.  An undefined opcode 0x02 at 0x0400 and an undefined
    opcode 0xFF at 0x1234 fail alike, so no opcode byte and no PC can be
    read off the failure. *)
Lemma failure_carries_neither : ~ failure_carries_opcode_and_pc.
Proof.
  intros [decode Hdecode].
  pose proof (Hdecode (one_byte_image 0x0400 0x02) (after_reset 0x0400)
                In_my6502_step _ eq_refl) as H1.
  pose proof (Hdecode (one_byte_image 0x1234 0xFF) (after_reset 0x1234)
                In_my6502_step _ eq_refl) as H2.
  rewrite H1 in H2. vm_compute in H2. discriminate H2.
Qed.

(** C7, as the code has it: a step whose opcode byte is outside the NMOS
    6502 instruction set fails the assertion of [my6502_step] and aborts.
    At that point PC has moved past the opcode byte, AC, X, Y, SR and SP
    are as before the step, and the opcode fetch is the only bus access.
    The failure names the assertion site only, and it is final: no later
    step of a run is executed. *)
Theorem illegal_opcode_aborts host (m : machine) (opcode : Z) :
  answer host m (my_pc (regs m)) = opcode ->
  nmos6502_defined opcode = false ->
  let stopped :=
    mkMachine (with_pc (to_u16 (my_pc (regs m) + 1)) (regs m))
              (BusRead (my_pc (regs m)) opcode :: bus m) in
  my6502_step host m = Aborts In_my6502_step stopped
  /\ forall n, run host (S n) m = Aborts In_my6502_step stopped.
Proof.
  intros Hop Hd stopped.
  assert (Hstep : my6502_step host m = Aborts In_my6502_step stopped).
  { assert (Hr : 0 <= opcode < 256) by (rewrite <- Hop; apply to_u8_range).
    subst stopped. destruct m as [[pc ac x y sr sp] h].
    unfold answer in Hop. simpl in Hop.
    unfold my6502_step, fetch, bind, get, set_pc, modify, my6502_read. simpl.
    rewrite Hop, (dispatch_undefined host opcode Hr Hd). reflexivity. }
  split; [exact Hstep | ].
  intros n. cbn [run]. unfold bind. rewrite Hstep. reflexivity.
Qed.

(** An undefined opcode 0x02 met right after reset at 0x0400; three steps
    are asked for, the first one aborts. *)
Lemma illegal_opcode_aborts_witness :
  answer (one_byte_image 0x0400 0x02) (after_reset 0x0400) 0x0400 = 0x02
  /\ nmos6502_defined 0x02 = false
  /\ my6502_step (one_byte_image 0x0400 0x02) (after_reset 0x0400) =
       Aborts In_my6502_step
         (mkMachine (mkRegs 0x0401 0 0 0 0x20 0xFD) [BusRead 0x0400 0x02])
  /\ run (one_byte_image 0x0400 0x02) 3 (after_reset 0x0400) =
       Aborts In_my6502_step
         (mkMachine (mkRegs 0x0401 0 0 0 0x20 0xFD) [BusRead 0x0400 0x02]).
Proof.
  destruct (illegal_opcode_aborts (one_byte_image 0x0400 0x02) (after_reset 0x0400)
              0x02 eq_refl eq_refl) as [Hstep Hrun].
  split; [reflexivity | split; [reflexivity | split; [exact Hstep | exact (Hrun 2%nat)]]].
Defined.

(** ** Branches *)

(** C9: a step on BPL, BMI, BVC, BVS, BCC, BCS, BNE or BEQ reads the opcode
    and then the offset byte, and nothing else; it returns with AC, X, Y,
    SP and SR as they were, the branch taken or not; PC is either the
    address after the offset byte or that address plus the signed offset. *)
Theorem branch_only_moves_pc host (m : machine) (opcode : Z) :
  answer host m (my_pc (regs m)) = opcode ->
  In opcode branch_opcodes ->
  exists pc' offset,
    my6502_step host m =
      Returns tt
        (mkMachine (with_pc pc' (regs m))
                   (BusRead (to_u16 (my_pc (regs m) + 1)) offset
                      :: BusRead (my_pc (regs m)) opcode :: bus m))
    /\ let next := to_u16 (to_u16 (my_pc (regs m) + 1) + 1) in
       pc' = next \/ pc' = to_u16 (next + to_i8 offset).
Proof.
  intros Hop Hin.
  destruct m as [[pc ac x y sr sp] h]. unfold answer in Hop. simpl in Hop.
  unfold my6502_step, fetch, bind, get, set_pc, modify, my6502_read. simpl.
  rewrite Hop.
  set (offset := to_u8 (host (BusRead pc opcode :: h) (to_u16 (pc + 1)))).
  unfold branch_opcodes in Hin. simpl in Hin.
  repeat (destruct Hin as [<- | Hin]); try contradiction;
    cbv [dispatch my_bpl my_bmi my_bvc my_bvs my_bcc my_bcs my_bne my_beq
         branch_if]; cpu_step; fold offset;
    match goal with
    | |- context [truthy ?v] => destruct (truthy v)
    end; simpl; eexists; exists offset; split;
      first [ reflexivity | now left | now right ].
Qed.

(** Scenario A, second step: BEQ +2 at 0x0402 with Z set is taken. *)
Lemma branch_only_moves_pc_witness :
  let host := ram (load 0x0400 [0xA9; 0x00; 0xF0; 0x02; 0xA9; 0xFF]) in
  let m := mkMachine (mkRegs 0x0402 0 0 0 0x22 0xFD) [] in
  answer host m 0x0402 = 0xF0
  /\ In 0xF0 branch_opcodes
  /\ my6502_step host m =
       Returns tt (mkMachine (mkRegs 0x0406 0 0 0 0x22 0xFD)
                     [BusRead 0x0403 0x02; BusRead 0x0402 0xF0]).
Proof.
  intros host m.
  assert (Hin : In 0xF0 branch_opcodes) by (do 7 right; left; reflexivity).
  split; [reflexivity | split; [exact Hin | ]].
  destruct (branch_only_moves_pc host m 0xF0 eq_refl Hin) as [pc' [offset [H _]]].
  rewrite H. vm_compute in H. injection H as Hpc Hoffset.
  rewrite <- Hpc, <- Hoffset. reflexivity.
Defined.

(** ** Arithmetic *)

(** The sign test of [my_adc] against the mask formula. *)
Lemma adc_overflow_test (a b r : Z) :
  (Z.land a 0x80 =? Z.land b 0x80) && negb (Z.land r 0x80 =? Z.land b 0x80) =
  negb (Z.land (Z.land (Z.lxor a r) (Z.lxor b r)) 0x80 =? 0).
Proof.
  change 0x80 with (2 ^ 7).
  rewrite !land_pow2 by lia.
  rewrite Z.land_spec, !Z.lxor_spec.
  destruct (Z.testbit a 7), (Z.testbit b 7), (Z.testbit r 7); reflexivity.
Qed.

Lemma my_adc_result (m : machine) (b : Z) :
  0 <= my_ac (regs m) < 256 -> 0 <= b < 256 ->
  let a := my_ac (regs m) in
  let sum := a + b + (if flag SR_FLAG_CARRY (my_sr (regs m)) then 1 else 0) in
  my_adc b m =
  Returns tt
    (mkMachine
       (mkRegs (my_pc (regs m)) (to_u8 sum) (my_x (regs m)) (my_y (regs m))
          (sr_with SR_FLAG_CARRY (sum >=? 0x100)
             (sr_with SR_FLAG_ZERO (to_u8 sum =? 0)
                (sr_with SR_FLAG_NEGATIVE (Z.testbit (to_u8 sum) 7)
                   (sr_with SR_FLAG_OVERFLOW
                      ((Z.land a 0x80 =? Z.land b 0x80)
                       && negb (Z.land sum 0x80 =? Z.land b 0x80))
                      (my_sr (regs m))))))
          (my_sp (regs m)))
       (bus m)).
Proof.
  destruct m as [[pc a x y sr sp] h]. simpl. intros Ha Hb.
  unfold my_adc, bind, get, SR_IS_SET, ret. simpl.
  fold (flag SR_FLAG_CARRY sr).
  assert (Hsum : (if flag SR_FLAG_CARRY sr then to_u16 (to_u16 (a + b) + 1)
                  else to_u16 (a + b)) =
                 a + b + (if flag SR_FLAG_CARRY sr then 1 else 0)).
  { rewrite (to_u16_small (a + b)) by lia.
    destruct (flag SR_FLAG_CARRY sr); [apply to_u16_small | rewrite Z.add_0_r]; lia. }
  rewrite Hsum. clear Hsum.
  set (sum := a + b + (if flag SR_FLAG_CARRY sr then 1 else 0)).
  rewrite SR_SET_or_CLR. unfold set_ac, modify. simpl.
  rewrite my_update_sr_with_carry_NZ. simpl.
  unfold with_sr. simpl.
  destruct (sum >=? 0x100); reflexivity.
Qed.

(** C3: with accumulator [a], operand [b] and carry-in [c], ADC leaves
    AC = (a + b + c) & 0xFF, C = (a + b + c >= 256), Z = (AC == 0),
    N = bit 7 of AC and V = (((a ^ AC) & (b ^ AC) & 0x80) != 0). *)
Theorem adc_sum_and_flags (m : machine) (b : Z) :
  0 <= my_ac (regs m) < 256 ->
  0 <= b < 256 ->
  let a := my_ac (regs m) in
  let c := if flag SR_FLAG_CARRY (my_sr (regs m)) then 1 else 0 in
  exists m',
    my_adc b m = Returns tt m' /\
    let AC := my_ac (regs m') in
    let SR := my_sr (regs m') in
    AC = Z.land (a + b + c) 0xFF /\
    flag SR_FLAG_CARRY SR = (a + b + c >=? 256) /\
    flag SR_FLAG_ZERO SR = (AC =? 0) /\
    flag SR_FLAG_NEGATIVE SR = Z.testbit AC 7 /\
    flag SR_FLAG_OVERFLOW SR =
      negb (Z.land (Z.land (Z.lxor a AC) (Z.lxor b AC)) 0x80 =? 0).
Proof.
  intros Ha Hb a c. eexists. split; [apply my_adc_result; assumption | ].
  fold a. fold c. cbn [regs my_ac my_sr].
  set (sum := a + b + c).
  repeat split.
  - change 0xFF with (Z.ones 8). rewrite Z.land_ones by lia. reflexivity.
  - read_flags. reflexivity.
  - read_flags. reflexivity.
  - read_flags. reflexivity.
  - read_flags. rewrite <- adc_overflow_test.
    change 0x80 with (2 ^ 7). rewrite !land_pow2 by lia.
    rewrite to_u8_testbit by lia. reflexivity.
Qed.

(** Scenario D: AC = 0x50, ADC #$50, carry clear: AC = 0xA0, N = 1, V = 1,
    C = 0, Z = 0. *)
Lemma adc_sum_and_flags_witness :
  let m := mkMachine (mkRegs 0x0402 0x50 0 0 0x20 0xFD) [] in
  0 <= my_ac (regs m) < 256 /\ 0 <= 0x50 < 256 /\
  exists m',
    my_adc 0x50 m = Returns tt m' /\
    my_ac (regs m') = 0xA0 /\
    flag SR_FLAG_CARRY (my_sr (regs m')) = false /\
    flag SR_FLAG_ZERO (my_sr (regs m')) = false /\
    flag SR_FLAG_NEGATIVE (my_sr (regs m')) = true /\
    flag SR_FLAG_OVERFLOW (my_sr (regs m')) = true.
Proof.
  intros m.
  assert (Ha : 0 <= my_ac (regs m) < 256) by (simpl; lia).
  assert (Hb : 0 <= 0x50 < 256) by lia.
  split; [exact Ha | split; [exact Hb | ]].
  destruct (adc_sum_and_flags m 0x50 Ha Hb) as [m' [Hrun [HA [HC [HZ [HN HV]]]]]].
  exists m'. cbv zeta in HA, HC, HZ, HN, HV.
  split; [exact Hrun | ].
  split; [exact HA | ].
  rewrite HA in HZ, HN, HV.
  split; [exact HC | split; [exact HZ | split; [exact HN | exact HV]]].
Defined.

(** C4: SBC with operand [b] is ADC with operand NOT [b]: the same
    accumulator, the same N, V, Z and C, the same machine altogether. *)
Theorem sbc_is_adc_of_complement (m : machine) (b : Z) :
  0 <= b < 256 ->
  my_sbc b m = my_adc (Z.lxor b 0xFF) m.
Proof.
  intros Hb. unfold my_sbc. f_equal.
  assert (H : (to_u8 (Z.lnot b) =? Z.lxor b 0xFF) = true).
  { apply (all_bytes_complete (fun z => to_u8 (Z.lnot z) =? Z.lxor z 0xFF));
      [vm_compute; reflexivity | exact Hb]. }
  apply Z.eqb_eq. exact H.
Qed.

Lemma sbc_is_adc_of_complement_witness :
  0 <= 0x10 < 256 /\
  my_sbc 0x10 (mkMachine (mkRegs 0x0402 0x50 0 0 0x21 0xFD) []) =
  my_adc 0xEF (mkMachine (mkRegs 0x0402 0x50 0 0 0x21 0xFD) []).
Proof.
  assert (Hb : 0 <= 0x10 < 256) by lia.
  split; [exact Hb | ].
  exact (sbc_is_adc_of_complement (mkMachine (mkRegs 0x0402 0x50 0 0 0x21 0xFD) []) 0x10 Hb).
Defined.

(** ** Subroutines *)

Lemma ram_returns_written_bytes (image : Z -> Z) : returns_written_bytes (ram image).
Proof. intros history address v H. unfold ram. now rewrite H. Qed.

(** C5: the JSR at [p] reads its three bytes, writes the high byte of p+2 at
    0x0100+SP and then the low byte of p+2 one below, and leaves SP - 2.
    From any later machine whose SP is that SP - 2, an RTS whose two pops are
    answered with the pushed bytes leaves PC = p+3 and SP as it was before
    the JSR, whatever was executed in between.  The pops are so answered by
    every host that gives back written bytes, as long as the two bytes are
    the last ones written to their slots. *)
Theorem jsr_then_rts host (m : machine) (p : Z) :
  0 <= p < 65536 ->
  0 <= my_sp (regs m) < 256 ->
  my_pc (regs m) = p ->
  answer host m p = 0x20 ->
  let return_address := to_u16 (p + 2) in
  let sp := my_sp (regs m) in
  let hi_slot := STACK_OFFSET + sp in
  let lo_slot := STACK_OFFSET + to_u8 (sp - 1) in
  let pushed_hi := Z.shiftr return_address 8 in
  let pushed_lo := Z.land return_address 0xFF in
  (exists m1 lo hi,
     my6502_step host m = Returns tt m1
     /\ bus m1 = BusWrite lo_slot pushed_lo :: BusWrite hi_slot pushed_hi
              :: BusRead (to_u16 (p + 2)) hi :: BusRead (to_u16 (p + 1)) lo
              :: BusRead p 0x20 :: bus m
     /\ my_pc (regs m1) = Z.lor lo (Z.shiftl hi 8)
     /\ my_sp (regs m1) = to_u8 (sp - 2)
     /\ last_write (bus m1) lo_slot = Some pushed_lo
     /\ last_write (bus m1) hi_slot = Some pushed_hi)
  /\ (forall m' : machine,
        my_sp (regs m') = to_u8 (sp - 2) ->
        let q := my_pc (regs m') in
        answer host m' q = 0x60 ->
        stack_answers host (BusRead q 0x60 :: bus m')
                      lo_slot pushed_lo hi_slot pushed_hi ->
        exists m2,
          my6502_step host m' = Returns tt m2
          /\ my_pc (regs m2) = to_u16 (p + 3)
          /\ my_sp (regs m2) = sp
          /\ bus m2 = BusRead hi_slot pushed_hi :: BusRead lo_slot pushed_lo
                   :: BusRead q 0x60 :: bus m')
  /\ (returns_written_bytes host ->
      forall seen,
        last_write seen lo_slot = Some pushed_lo ->
        last_write seen hi_slot = Some pushed_hi ->
        stack_answers host seen lo_slot pushed_lo hi_slot pushed_hi).
Proof.
  intros Hp Hsp Hpc Hop ret_addr sp0 hi_slot lo_slot pushed_hi pushed_lo.
  assert (Hra : 0 <= ret_addr < 65536) by apply to_u16_range.
  assert (Hlo : to_u8 ret_addr = pushed_lo).
  { subst pushed_lo. change 0xFF with (Z.ones 8). now rewrite Z.land_ones by lia. }
  assert (Hhi : to_u8 pushed_hi = pushed_hi).
  { apply to_u8_small. subst pushed_hi. rewrite Z.shiftr_div_pow2 by lia.
    change (2 ^ 8) with 256. Z.div_mod_to_equations. lia. }
  assert (Hlo8 : to_u8 pushed_lo = pushed_lo).
  { rewrite <- Hlo. apply to_u8_small, to_u8_range. }
  assert (Ha1 : to_u16 lo_slot = lo_slot).
  { apply to_u16_small. subst lo_slot. pose proof (to_u8_range (sp0 - 1)).
    unfold STACK_OFFSET. lia. }
  assert (Ha2 : to_u16 hi_slot = hi_slot).
  { apply to_u16_small. subst hi_slot sp0. unfold STACK_OFFSET. lia. }
  assert (Hne : (lo_slot =? hi_slot) = false).
  { apply Z.eqb_neq. subst lo_slot hi_slot sp0. wrap_lia. }
  split; [ | split].
  - destruct m as [[pc ac x y sr sp] h].
    cbn [regs bus my_pc my_sp] in *. subst pc sp0.
    unfold answer in Hop. cbn [bus] in Hop.
    assert (Hret : to_u16 (to_u16 (to_u16 (to_u16 (p + 1) + 1) + 1) - 1) = ret_addr)
      by (subst ret_addr; wrap_lia).
    eexists. eexists. eexists.
    split.
    { cpu_step. rewrite Hop. cbv [dispatch my_jsr]. cpu_step. reflexivity. }
    cbn [regs bus my_pc my_sp]. rewrite !Hret.
    fold pushed_hi. rewrite Hlo, Hhi. fold hi_slot lo_slot.
    rewrite Ha1, Ha2.
    assert (Hp2 : to_u16 (to_u16 (p + 1) + 1) = to_u16 (p + 2)) by wrap_lia.
    rewrite Hp2, !to_u16_word.
    split; [reflexivity | ].
    split; [reflexivity | ].
    split; [wrap_lia | ].
    cbn [last_write]. rewrite Z.eqb_refl, Hne, Z.eqb_refl. split; reflexivity.
  - intros m' Hsp' q Hrts [Hfind_lo Hfind_hi].
    destruct m' as [[pc' ac' x' y' sr' sp'] h'].
    cbn [regs bus my_pc my_sp] in *. subst q sp'.
    unfold answer in Hrts. cbn [bus] in Hrts.
    assert (Hs1 : to_u8 (to_u8 (sp0 - 2) + 1) = to_u8 (sp0 - 1)) by wrap_lia.
    assert (Hs2 : to_u8 (to_u8 (sp0 - 1) + 1) = sp0) by (subst sp0; wrap_lia).
    eexists. split.
    { cpu_step. rewrite Hrts. cbv [dispatch my_rts]. cpu_step. reflexivity. }
    cbn [regs bus my_pc my_sp].
    rewrite !Hs1, !Hs2. fold lo_slot hi_slot. rewrite !Ha1, !Ha2.
    rewrite !Hfind_lo, !Hfind_hi.
    assert (Hword : to_u16 (Z.lor pushed_lo (Z.shiftl pushed_hi 8)) = ret_addr).
    { subst pushed_lo pushed_hi. rewrite split_bytes.
      apply to_u16_small. exact Hra. }
    rewrite Hword.
    split; [subst ret_addr; wrap_lia | ].
    split; reflexivity.
  - intros Hhost seen Hl Hh. split.
    + rewrite (Hhost seen lo_slot pushed_lo Hl). exact Hlo8.
    + rewrite (Hhost (BusRead lo_slot pushed_lo :: seen) hi_slot pushed_hi)
        by (cbn [last_write]; exact Hh).
      exact Hhi.
Qed.

(** JSR $0405 at 0x0400, then NOP at 0x0405 and RTS at 0x0406; the RTS
    returns to 0x0403 with SP back at 0xFD. *)
Lemma jsr_then_rts_witness :
  let m := after_reset 0x0400 in
  0 <= 0x0400 < 65536
  /\ 0 <= my_sp (regs m) < 256
  /\ my_pc (regs m) = 0x0400
  /\ answer jsr_nop_rts_image m 0x0400 = 0x20
  /\ exists m1 m' m2,
       my6502_step jsr_nop_rts_image m = Returns tt m1
       /\ bus m1 = [BusWrite 0x01FC 0x02; BusWrite 0x01FD 0x04;
                    BusRead 0x0402 0x04; BusRead 0x0401 0x05; BusRead 0x0400 0x20]
       /\ my_pc (regs m1) = 0x0405
       /\ my_sp (regs m1) = 0xFB
       /\ my6502_step jsr_nop_rts_image m1 = Returns tt m'
       /\ my_pc (regs m') = 0x0406
       /\ my6502_step jsr_nop_rts_image m' = Returns tt m2
       /\ my_pc (regs m2) = 0x0403
       /\ my_sp (regs m2) = 0xFD.
Proof.
  intros m.
  assert (Hp : 0 <= 0x0400 < 65536) by lia.
  assert (Hsp : 0 <= my_sp (regs m) < 256) by (change (0 <= 0xFD < 256); lia).
  repeat (split; [first [assumption | reflexivity] | ]).
  destruct (jsr_then_rts jsr_nop_rts_image m 0x0400 Hp Hsp eq_refl eq_refl)
    as [[m1 [lo [hi [Hjsr [Hbus [Hpc [Hsp1 _]]]]]]] [Hrts Hram]].
  pose proof Hjsr as Hjsr0.
  vm_compute in Hjsr. injection Hjsr as Hm1. subst m1.
  set (m1 := mkMachine (mkRegs 0x0405 0 0 0 0x20 0xFB)
            [BusWrite 0x01FC 0x02; BusWrite 0x01FD 0x04;
             BusRead 0x0402 0x04; BusRead 0x0401 0x05; BusRead 0x0400 0x20]) in *.
  set (m' := mkMachine (mkRegs 0x0406 0 0 0 0x20 0xFB)
            (BusRead 0x0405 0xEA :: bus m1)).
  assert (Hfinds : stack_answers jsr_nop_rts_image
                     (BusRead (my_pc (regs m')) 0x60 :: bus m')
                     0x01FC 0x02 0x01FD 0x04).
  { apply (Hram (ram_returns_written_bytes _)); reflexivity. }
  destruct (Hrts m' eq_refl eq_refl Hfinds) as [m2 [Hstep [Hpc2 [Hsp2 _]]]].
  exists m1, m', m2.
  split; [exact Hjsr0 | ].
  split; [reflexivity | ].
  split; [reflexivity | ].
  split; [reflexivity | ].
  split; [vm_compute; reflexivity | ].
  split; [reflexivity | ].
  split; [exact Hstep | ].
  split; [exact Hpc2 | exact Hsp2].
Defined.

(** ** The unused bit *)

Lemma reachable_run host (n : nat) (m m' : machine) :
  reachable host m -> run host n m = Returns tt m' -> reachable host m'.
Proof.
  revert m. induction n as [|n IH]; intros m Hm Hrun.
  - injection Hrun as <-. exact Hm.
  - cbn [run] in Hrun. unfold bind in Hrun.
    destruct (my6502_step host m) as [[] m1|site m1] eqn:Hstep; [ | discriminate Hrun].
    apply (IH m1); [ | exact Hrun].
    apply (reachable_step host m m1 Hm Hstep).
Qed.

Lemma reachable_after_reset host (pc : Z) :
  0 <= pc < 65536 -> reachable host (after_reset pc).
Proof. intros Hpc. apply (reachable_reset host power_on pc Hpc). Qed.

(** C1 fails on the code.  Started at 0x0400 on an RTI over an all-zero
    stack page, one step returns with SR = 0x10: RTI pulls 0x00 and ORs in
    the break flag only, so bit 5 of SR reads 0 in a reachable state. *)
Theorem rti_clears_unused_bit :
  exists m,
    reachable (one_byte_image 0x0400 0x40) m
    /\ my6502_step (one_byte_image 0x0400 0x40) (after_reset 0x0400) = Returns tt m
    /\ my_sr (regs m) = 0x10
    /\ flag SR_FLAG_UNUSED (my_sr (regs m)) = false.
Proof.
  eexists. split; [ | split; [vm_compute; reflexivity | split; reflexivity]].
  apply (reachable_step _ (after_reset 0x0400)).
  - apply reachable_after_reset. lia.
  - vm_compute. reflexivity.
Qed.

(** C2 fails on the code in one respect.  With 0xC3, 0x34, 0x12 on the
    stack (top first), the step on RTI pulls the three bytes in that order
    and leaves PC = 0x1234 with no adjustment and SP = 0xFD; SR is
    0xC3 | 0x10 = 0xD3: the break flag is forced, bit 5 is not. *)
Theorem rti_forces_break_only :
  reachable rti_image before_rti
  /\ my6502_step rti_image before_rti =
       Returns tt
         (mkMachine (mkRegs 0x1234 0xC3 0 0 0xD3 0xFD)
            (BusRead 0x01FD 0x12 :: BusRead 0x01FC 0x34 :: BusRead 0x01FB 0xC3
               :: BusRead 0x0409 0x40 :: bus before_rti))
  /\ flag SR_FLAG_BREAK 0xD3 = true
  /\ flag SR_FLAG_UNUSED 0xD3 = false.
Proof.
  split; [ | split; [vm_compute; reflexivity | split; reflexivity]].
  apply (reachable_run rti_image 6 (after_reset 0x0400)).
  - apply reachable_after_reset. lia.
  - vm_compute. reflexivity.
Qed.

(** ** The pushed status byte *)

(** C6 fails on the code in its first half.  After an RTI that pulled the
    status byte 0x00 the register holds SR = 0x10; the step on PHP then
    writes SR | 0x10 = 0x10 to 0x01FD, a byte whose bit 5 is clear. *)
Theorem php_pushes_unused_bit_clear :
  reachable php_image before_php
  /\ my_sr (regs before_php) = 0x10
  /\ my6502_step php_image before_php =
       Returns tt
         (mkMachine (mkRegs 0x040B 0 0 0 0x10 0xFC)
            (BusWrite 0x01FD 0x10 :: BusRead 0x040A 0x08 :: bus before_php))
  /\ flag SR_FLAG_UNUSED 0x10 = false.
Proof.
  split; [ | split; [reflexivity | split; [vm_compute; reflexivity | reflexivity]]].
  apply (reachable_run php_image 7 (after_reset 0x0400)).
  - apply reachable_after_reset. lia.
  - vm_compute. reflexivity.
Qed.

(** What does hold of PHP followed by PLP: the pushed byte is SR with the
    break flag set, and the pulled register is SR with the break flag and
    bit 5 set, the other six flags and SP being restored. *)
Lemma php_then_plp host (m : machine) :
  returns_written_bytes host ->
  0 <= my_sr (regs m) < 256 ->
  0 <= my_sp (regs m) < 256 ->
  answer host m (my_pc (regs m)) = 0x08 ->
  let sr := my_sr (regs m) in
  let sp := my_sp (regs m) in
  exists m1,
    my6502_step host m = Returns tt m1 /\
    bus m1 = BusWrite (STACK_OFFSET + sp) (Z.lor sr SR_FLAG_BREAK)
          :: BusRead (my_pc (regs m)) 0x08 :: bus m /\
    my_sr (regs m1) = sr /\
    (answer host m1 (my_pc (regs m1)) = 0x28 ->
     exists m2,
       my6502_step host m1 = Returns tt m2 /\
       my_sr (regs m2) = Z.lor sr (Z.lor SR_FLAG_BREAK SR_FLAG_UNUSED) /\
       my_sp (regs m2) = sp).
Proof.
  intros Hhost Hsr Hsp Hop sr0 sp0.
  destruct m as [[pc ac x y sr sp] h].
  cbn [regs bus my_pc my_sr my_sp] in *. subst sr0 sp0.
  unfold answer in Hop. cbn [bus] in Hop.
  assert (Ha : to_u16 (STACK_OFFSET + sp) = STACK_OFFSET + sp).
  { apply to_u16_small. unfold STACK_OFFSET. lia. }
  assert (Hb : to_u8 (Z.lor sr SR_FLAG_BREAK) = Z.lor sr SR_FLAG_BREAK).
  { apply byte_lor_small; [exact Hsr | vm_compute; split; [discriminate | reflexivity]]. }
  eexists. split.
  { cpu_step. rewrite Hop. cbv [dispatch my_php]. cpu_step. reflexivity. }
  cbn [regs bus my_pc my_sr my_sp]. rewrite Ha, Hb.
  split; [reflexivity | split; [reflexivity | ]].
  intros Hplp. unfold answer in Hplp. cbn [bus] in Hplp.
  eexists. split.
  { cpu_step. rewrite Hplp. cbv [dispatch my_plp]. cpu_step. reflexivity. }
  cbn [regs my_sr my_sp].
  assert (Hs : to_u8 (to_u8 (sp - 1) + 1) = sp) by wrap_lia.
  rewrite !Hs, Ha.
  match goal with
  | |- context [host (BusRead ?t ?o :: BusWrite ?a ?v :: ?rest) ?a] =>
      rewrite (Hhost (BusRead t o :: BusWrite a v :: rest) a v)
        by (cbn [last_write]; now rewrite Z.eqb_refl)
  end.
  rewrite Hb.
  split; [ | reflexivity].
  rewrite <- Z.lor_assoc. apply byte_lor_small; [exact Hsr | vm_compute; split; [discriminate | reflexivity]].
Qed.

(** ** Which instructions keep bit 5 *)

Section Keeps.
Variable host : list bus_event -> Z -> Z.

Lemma keeps_ret {A} (a : A) : keeps_unused (ret a).
Proof. intros m H. exact H. Qed.

Lemma keeps_assert_0 {A} (site : assert_site) : keeps_unused (@assert_0 A site).
Proof. intros m H. exact H. Qed.

Lemma keeps_bind {A B} (c : M A) (k : A -> M B) :
  keeps_unused c -> (forall a, keeps_unused (k a)) -> keeps_unused (bind c k).
Proof.
  intros Hc Hk m H. unfold bind. specialize (Hc m H).
  destruct (c m) as [a m1|site m1]; cbn [final] in *.
  - apply Hk. exact Hc.
  - exact Hc.
Qed.

Lemma keeps_if {A} (b : bool) (c1 c2 : M A) :
  keeps_unused c1 -> keeps_unused c2 -> keeps_unused (if b then c1 else c2).
Proof. destruct b; auto. Qed.

Lemma keeps_get {A} (field : regfile -> A) : keeps_unused (get field).
Proof. intros m H. exact H. Qed.

Lemma keeps_set_pc v : keeps_unused (set_pc v).
Proof. intros m H. exact H. Qed.
Lemma keeps_set_ac v : keeps_unused (set_ac v).
Proof. intros m H. exact H. Qed.
Lemma keeps_set_x v : keeps_unused (set_x v).
Proof. intros m H. exact H. Qed.
Lemma keeps_set_y v : keeps_unused (set_y v).
Proof. intros m H. exact H. Qed.
Lemma keeps_set_sp v : keeps_unused (set_sp v).
Proof. intros m H. exact H. Qed.

Lemma keeps_read a : keeps_unused (my6502_read host a).
Proof. intros m H. exact H. Qed.
Lemma keeps_write a v : keeps_unused (my6502_write a v).
Proof. intros m H. exact H. Qed.

Lemma keeps_SR_SET bit : keeps_unused (SR_SET bit).
Proof.
  intros [[pc ac x y sr sp] h] H. unfold unused_set in *.
  cbv [SR_SET SR_CLR bind get set_sr modify ret final regs my_sr] in *.
  rewrite to_u8_testbit, Z.lor_spec, H by lia. reflexivity.
Qed.

Lemma keeps_SR_CLR bit : Z.testbit bit 5 = false -> keeps_unused (SR_CLR bit).
Proof.
  intros Hbit [[pc ac x y sr sp] h] H. unfold unused_set in *.
  cbv [SR_SET SR_CLR bind get set_sr modify ret final regs my_sr] in *.
  rewrite to_u8_testbit, Z.land_spec, Z.lnot_spec, H, Hbit by lia. reflexivity.
Qed.

Lemma keeps_set_sr_unused v : keeps_unused (set_sr (to_u8 (Z.lor v SR_FLAG_UNUSED))).
Proof.
  intros [[pc ac x y sr sp] h] H. unfold unused_set in *.
  cbv [SR_SET SR_CLR bind get set_sr modify ret final regs my_sr] in *.
  rewrite to_u8_testbit, Z.lor_spec by lia. apply orb_true_r.
Qed.

Ltac keeps :=
  cbv [dispatch my_read_op my_read_addr my_read_addr_from_pc my_read_addr_from_mem
       my_write_op fetch my_push my_pop SR_IS_SET my_update_sr my_update_sr_with_carry
       branch_if compare_with
       my_adc my_and my_asl my_bcs my_bit my_bne my_bcc my_beq my_bmi my_bpl my_brk
       my_bvc my_bvs my_clc my_cld my_cli my_clv my_cmp my_cpx my_cpy my_dec my_dex
       my_dey my_eor my_jmp my_jsr my_inc my_inx my_iny my_lda my_ldx my_ldy my_lsr
       my_nop my_ora my_rol my_ror my_rts my_pha my_php my_pla my_plp my_sbc my_sec
       my_sed my_sei my_sta my_stx my_sty my_tax my_tay my_tsx my_txa my_txs my_tya];
  repeat
    lazymatch goal with
    | |- keeps_unused (bind _ _) => apply keeps_bind; [ | intro ]
    | |- keeps_unused (if _ then _ else _) => apply keeps_if
    | |- keeps_unused (ret _) => apply keeps_ret
    | |- keeps_unused (assert_0 _) => apply keeps_assert_0
    | |- keeps_unused (get _) => apply keeps_get
    | |- keeps_unused (set_pc _) => apply keeps_set_pc
    | |- keeps_unused (set_ac _) => apply keeps_set_ac
    | |- keeps_unused (set_x _) => apply keeps_set_x
    | |- keeps_unused (set_y _) => apply keeps_set_y
    | |- keeps_unused (set_sp _) => apply keeps_set_sp
    | |- keeps_unused (my6502_read _ _) => apply keeps_read
    | |- keeps_unused (my6502_write _ _) => apply keeps_write
    | |- keeps_unused (SR_SET _) => apply keeps_SR_SET
    | |- keeps_unused (SR_CLR _) => apply keeps_SR_CLR; reflexivity
    | |- keeps_unused (set_sr (to_u8 (Z.lor _ SR_FLAG_UNUSED))) =>
        apply keeps_set_sr_unused
    end.

Lemma dispatch_keeps_unused (opcode : Z) :
  opcode <> 0x40 -> keeps_unused (dispatch host opcode).
Proof.
  intros Hne.
  destruct opcode as [|p|p]; [keeps | | keeps].
  do 8 (destruct p as [p|p|]; [ | | first [ contradiction Hne; reflexivity | solve [keeps] ] ]).
  all: solve [keeps].
Qed.

(** Every step but the one on RTI leaves bit 5 of SR set when it finds it
    set. *)
Lemma step_keeps_unused_bit (m : machine) :
  unused_set m ->
  answer host m (my_pc (regs m)) <> 0x40 ->
  unused_set (final (my6502_step host m)).
Proof.
  intros Hm Hop.
  destruct m as [[pc ac x y sr sp] h].
  unfold answer in Hop. cbn [regs bus my_pc] in Hop.
  unfold my6502_step, fetch, bind, get, set_pc, modify, my6502_read.
  cbn [regs bus my_pc my_ac my_x my_y my_sr my_sp].
  apply (dispatch_keeps_unused _ Hop). exact Hm.
Qed.

End Keeps.

(** ** Scenarios of the documentation *)

(** Scenario A: LDA #$00 sets Z and BEQ +2 is taken. *)
Example scenario_load_then_branch :
  regs (final (run (ram (load 0x0400 [0xA9; 0x00; 0xF0; 0x02; 0xA9; 0xFF])) 2
                 (after_reset 0x0400))) =
  mkRegs 0x0406 0x00 0 0 0x22 0xFD.
Proof. vm_compute. reflexivity. Qed.

(** Scenario E: CMP #$10 with AC = 0x10 sets Z and C, BEQ skips the two
    NOPs and LDA #$01 follows. *)
Example scenario_compare_and_branch :
  regs (final (run (ram (load 0x0400
                           [0xA9; 0x10; 0xC9; 0x10; 0xF0; 0x02; 0xEA; 0xEA; 0xA9; 0x01]))
                 4 (after_reset 0x0400))) =
  mkRegs 0x040A 0x01 0 0 0x21 0xFD.
Proof. vm_compute. reflexivity. Qed.

(** NOP moves PC by one and touches nothing else. *)
Example scenario_nop :
  my6502_step (one_byte_image 0x0400 0xEA) (after_reset 0x0400) =
  Returns tt (mkMachine (mkRegs 0x0401 0 0 0 0x20 0xFD) [BusRead 0x0400 0xEA]).
Proof. vm_compute. reflexivity. Qed.

(** * Further properties of the core *)

(** ** Steps as fetch and dispatch *)

Lemma step_is_dispatch host (m : machine) (opcode : Z) :
  answer host m (my_pc (regs m)) = opcode ->
  my6502_step host m = dispatch host opcode (fetched m opcode).
Proof.
  intros Hop. destruct m as [[pc ac x y sr sp] h].
  unfold answer in Hop. cbn [regs bus my_pc] in Hop.
  unfold my6502_step, fetch, bind, get, set_pc, modify, my6502_read, fetched, with_pc.
  cbn [regs bus my_pc my_ac my_x my_y my_sr my_sp].
  rewrite Hop. reflexivity.
Qed.

(** ** Which steps return *)

Section Returns.
Variable host : list bus_event -> Z -> Z.

Lemma returns_ret {A} (a : A) : always_returns (ret a).
Proof. intros m. now exists a, m. Qed.

Lemma returns_bind {A B} (c : M A) (k : A -> M B) :
  always_returns c -> (forall a, always_returns (k a)) -> always_returns (bind c k).
Proof.
  intros Hc Hk m. unfold bind.
  destruct (Hc m) as [a [m1 ->]]. apply Hk.
Qed.

Lemma returns_if {A} (b : bool) (c1 c2 : M A) :
  always_returns c1 -> always_returns c2 -> always_returns (if b then c1 else c2).
Proof. destruct b; auto. Qed.

Lemma returns_get {A} (field : regfile -> A) : always_returns (get field).
Proof. intros m. eexists. eexists. reflexivity. Qed.

Lemma returns_modify f : always_returns (modify f).
Proof. intros m. eexists. eexists. reflexivity. Qed.

Lemma returns_read a : always_returns (my6502_read host a).
Proof. intros m. eexists. eexists. reflexivity. Qed.

Lemma returns_write a v : always_returns (my6502_write a v).
Proof. intros m. eexists. eexists. reflexivity. Qed.

Ltac returns :=
  cbv [dispatch my_read_op my_read_addr my_read_addr_from_pc my_read_addr_from_mem
       my_write_op fetch my_push my_pop SR_IS_SET SR_SET SR_CLR
       my_update_sr my_update_sr_with_carry branch_if compare_with
       set_pc set_ac set_x set_y set_sr set_sp
       my_adc my_and my_asl my_bcs my_bit my_bne my_bcc my_beq my_bmi my_bpl my_brk
       my_bvc my_bvs my_clc my_cld my_cli my_clv my_cmp my_cpx my_cpy my_dec my_dex
       my_dey my_eor my_jmp my_jsr my_inc my_inx my_iny my_lda my_ldx my_ldy my_lsr
       my_nop my_ora my_rol my_ror my_rti my_rts my_pha my_php my_pla my_plp my_sbc
       my_sec my_sed my_sei my_sta my_stx my_sty my_tax my_tay my_tsx my_txa my_txs
       my_tya];
  repeat
    lazymatch goal with
    | |- always_returns (bind _ _) => apply returns_bind; [ | intro ]
    | |- always_returns (if _ then _ else _) => apply returns_if
    | |- always_returns (ret _) => apply returns_ret
    | |- always_returns (get _) => apply returns_get
    | |- always_returns (modify _) => apply returns_modify
    | |- always_returns (my6502_read _ _) => apply returns_read
    | |- always_returns (my6502_write _ _) => apply returns_write
    end.

Lemma dispatch_defined_returns (opcode : Z) :
  nmos6502_defined opcode = true -> always_returns (dispatch host opcode).
Proof.
  intros Hd.
  destruct opcode as [|p|p]; [solve [returns] | | discriminate Hd].
  do 8 (destruct p as [p|p|];
        [ | | first [ solve [returns] | vm_compute in Hd; discriminate Hd ] ]).
  all: vm_compute in Hd; discriminate Hd.
Qed.

End Returns.

(** X1: a step returns exactly when the opcode byte it fetches is one of the
    151 defined opcodes; no defined opcode reaches the assertions of
    [my_read_addr] and [my_read_op]. *)
Theorem step_returns_iff_defined host (m : machine) :
  (exists m', my6502_step host m = Returns tt m')
  <-> nmos6502_defined (answer host m (my_pc (regs m))) = true.
Proof.
  rewrite (step_is_dispatch host m _ eq_refl).
  set (opcode := answer host m (my_pc (regs m))).
  split.
  - intros [m' Hrun].
    destruct (nmos6502_defined opcode) eqn:Hd; [reflexivity | ].
    rewrite (dispatch_undefined host opcode) in Hrun;
      [discriminate Hrun | apply to_u8_range | exact Hd].
  - intros Hd.
    destruct (dispatch_defined_returns host opcode Hd (fetched m opcode)) as [[] [m' Hrun]].
    now exists m'.
Qed.

(** ** Branch conditions *)

(** X2: the branch of a step on BPL, BMI, BVC, BVS, BCC, BCS, BNE or BEQ is
    taken exactly when its flag has the tested value; PC is then the address
    after the offset byte plus the offset read as a signed byte, modulo
    65536, and otherwise the address after the offset byte. *)
Theorem branch_taken_iff_flag host (m : machine) (opcode : Z) :
  answer host m (my_pc (regs m)) = opcode ->
  In opcode branch_opcodes ->
  let offset := answer host (fetched m opcode) (to_u16 (my_pc (regs m) + 1)) in
  let next := to_u16 (to_u16 (my_pc (regs m) + 1) + 1) in
  exists m',
    my6502_step host m = Returns tt m' /\
    my_pc (regs m') =
      (if branch_taken opcode (my_sr (regs m))
       then to_u16 (next + (if offset <? 128 then offset else offset - 256))
       else next).
Proof.
  intros Hop Hin offset next.
  rewrite (step_is_dispatch host m opcode Hop).
  assert (Hi8 : to_i8 offset = if offset <? 128 then offset else offset - 256).
  { unfold to_i8. fold (to_u8 offset).
    rewrite (to_u8_small offset) by apply to_u8_range. reflexivity. }
  rewrite <- Hi8. subst offset next.
  destruct m as [[pc ac x y sr sp] h].
  unfold fetched, with_pc, answer. cbn [regs bus my_pc my_ac my_x my_y my_sr my_sp].
  unfold branch_opcodes in Hin.
  repeat (destruct Hin as [<- | Hin]); try contradiction;
    cbv [dispatch my_bpl my_bmi my_bvc my_bvs my_bcc my_bcs my_bne my_beq
         branch_if branch_taken flag]; cpu_step;
    match goal with
    | |- context [truthy ?v] => destruct (truthy v)
    end; cbn [negb]; eexists; split; reflexivity.
Qed.

(** BNE -5 at 0x0400 with Z clear goes back to 0x03FD. *)
Lemma branch_taken_iff_flag_witness :
  let host := ram (load 0x0400 [0xD0; 0xFB]) in
  answer host (after_reset 0x0400) 0x0400 = 0xD0
  /\ In 0xD0 branch_opcodes
  /\ exists m', my6502_step host (after_reset 0x0400) = Returns tt m'
                /\ my_pc (regs m') = 0x03FD.
Proof.
  intros host.
  assert (Hin : In 0xD0 branch_opcodes) by (do 6 right; left; reflexivity).
  split; [reflexivity | split; [exact Hin | ]].
  destruct (branch_taken_iff_flag host (after_reset 0x0400) 0xD0 eq_refl Hin)
    as [m' [Hstep Hpc]].
  exists m'. split; [exact Hstep | exact Hpc].
Defined.

(** ** Flag instructions *)

(** X3: CLC, SEC, CLI, SEI, CLV, CLD and SED give one bit of SR its value and
    leave the other seven; the step reads the opcode only and changes no
    other register than PC. *)
Theorem flag_instruction_sets_one_bit host (m : machine) (opcode k : Z) (on : bool) :
  answer host m (my_pc (regs m)) = opcode ->
  In (opcode, (k, on)) flag_instructions ->
  exists sr',
    my6502_step host m =
      Returns tt (mkMachine (with_sr sr' (regs (fetched m opcode)))
                            (bus (fetched m opcode)))
    /\ 0 <= sr' < 256
    /\ forall j, 0 <= j < 8 ->
         Z.testbit sr' j = if j =? k then on else Z.testbit (my_sr (regs m)) j.
Proof.
  intros Hop Hin.
  rewrite (step_is_dispatch host m opcode Hop).
  exists (sr_with (Z.shiftl 1 k) on (my_sr (regs m))).
  unfold flag_instructions in Hin.
  repeat (destruct Hin as [Heq | Hin]; [injection Heq as <- <- <- | ]);
    try contradiction;
    (split; [destruct m as [[pc ac x y sr sp] h]; reflexivity | ]);
    (split; [unfold sr_with; apply to_u8_range | ]);
    intros j Hj; apply sr_with_testbit; lia.
Qed.

(** SEC at 0x0400 sets bit 0 and keeps bit 5. *)
Lemma flag_instruction_sets_one_bit_witness :
  let host := one_byte_image 0x0400 0x38 in
  answer host (after_reset 0x0400) 0x0400 = 0x38
  /\ In (0x38, (0, true)) flag_instructions
  /\ exists sr',
       my6502_step host (after_reset 0x0400) =
         Returns tt (mkMachine (mkRegs 0x0401 0 0 0 sr' 0xFD) [BusRead 0x0400 0x38])
       /\ Z.testbit sr' 0 = true /\ Z.testbit sr' 5 = true.
Proof.
  intros host.
  assert (Hin : In (0x38, (0, true)) flag_instructions) by (right; left; reflexivity).
  split; [reflexivity | split; [exact Hin | ]].
  destruct (flag_instruction_sets_one_bit host (after_reset 0x0400) 0x38 0 true
              eq_refl Hin) as [sr' [Hstep [_ Hbits]]].
  exists sr'. split; [exact Hstep | ].
  split; [exact (Hbits 0 ltac:(lia)) | exact (Hbits 5 ltac:(lia))].
Defined.

(** ** Compare, bit test, subtract *)

Lemma byte_difference_zero (r v : Z) :
  0 <= r < 256 -> 0 <= v < 256 -> (to_u8 (r - v) =? 0) = (r =? v).
Proof.
  intros Hr Hv.
  destruct (Z.eqb_spec r v) as [->|Hne].
  - rewrite Z.sub_diag. reflexivity.
  - apply Z.eqb_neq. wrap_lia.
Qed.

(** X4: CMP, CPX and CPY of a register byte [r] with [v] set C = (r >= v),
    Z = (r == v) and N = bit 7 of (r - v) mod 256, leave bits 2 to 6 of SR,
    change no register and make no bus access. *)
Theorem compare_sets_nzc (m : machine) (v : Z) (cmp : Z -> M unit) (reg : regfile -> Z) :
  In (cmp, reg) compare_instructions ->
  0 <= reg (regs m) < 256 ->
  0 <= v < 256 ->
  let r := reg (regs m) in
  exists sr',
    cmp v m = Returns tt (mkMachine (with_sr sr' (regs m)) (bus m))
    /\ flag SR_FLAG_CARRY sr' = (v <=? r)
    /\ flag SR_FLAG_ZERO sr' = (r =? v)
    /\ flag SR_FLAG_NEGATIVE sr' = Z.testbit (to_u8 (r - v)) 7
    /\ forall j, 2 <= j < 7 -> Z.testbit sr' j = Z.testbit (my_sr (regs m)) j.
Proof.
  intros Hin Hr Hv r.
  assert (Hrun : cmp v m =
    Returns tt (mkMachine
      (with_sr (sr_with SR_FLAG_CARRY (truthy (if r >=? v then 1 else 0))
                 (sr_with SR_FLAG_ZERO (to_u8 (r - v) =? 0)
                    (sr_with SR_FLAG_NEGATIVE (Z.testbit (to_u8 (r - v)) 7)
                       (my_sr (regs m)))))
               (regs m)) (bus m))).
  { unfold compare_instructions in Hin. subst r.
    repeat (destruct Hin as [Heq | Hin]; [injection Heq as <- <- | ]);
      try contradiction;
      unfold my_cmp, my_cpx, my_cpy, compare_with, bind, get;
      apply my_update_sr_with_carry_NZ. }
  eexists. split; [exact Hrun | ].
  repeat split.
  - read_flags. rewrite Z.geb_leb. now destruct (v <=? r).
  - read_flags. now apply byte_difference_zero.
  - read_flags. reflexivity.
  - intros j Hj.
    unfold SR_FLAG_CARRY, SR_FLAG_ZERO, SR_FLAG_NEGATIVE.
    rewrite !sr_with_testbit by lia.
    destruct (Z.eqb_spec j 0); [lia | ].
    destruct (Z.eqb_spec j 1); [lia | ].
    destruct (Z.eqb_spec j 7); [lia | reflexivity].
Qed.

(** CMP #$10 with AC = 0x10 sets C and Z. *)
Lemma compare_sets_nzc_witness :
  let m := mkMachine (mkRegs 0x0402 0x10 0 0 0x20 0xFD) [] in
  In (my_cmp, my_ac) compare_instructions
  /\ 0 <= my_ac (regs m) < 256
  /\ 0 <= 0x10 < 256
  /\ exists sr',
       my_cmp 0x10 m = Returns tt (mkMachine (mkRegs 0x0402 0x10 0 0 sr' 0xFD) [])
       /\ flag SR_FLAG_CARRY sr' = true
       /\ flag SR_FLAG_ZERO sr' = true
       /\ flag SR_FLAG_NEGATIVE sr' = false.
Proof.
  intros m.
  assert (Hin : In (my_cmp, my_ac) compare_instructions) by (left; reflexivity).
  assert (Hr : 0 <= my_ac (regs m) < 256) by (cbn; lia).
  assert (Hv : 0 <= 0x10 < 256) by lia.
  split; [exact Hin | split; [exact Hr | split; [exact Hv | ]]].
  destruct (compare_sets_nzc m 0x10 my_cmp my_ac Hin Hr Hv)
    as [sr' [Hrun [HC [HZ [HN _]]]]].
  exists sr'. split; [exact Hrun | split; [exact HC | split; [exact HZ | exact HN]]].
Defined.

(** X5: BIT copies bits 7 and 6 of the operand to N and V and sets Z when
    AC AND operand is zero; it leaves C, I, D, B and bit 5, every register
    and the bus. *)
Theorem bit_copies_operand_bits (m : machine) (v : Z) :
  exists sr',
    my_bit v m = Returns tt (mkMachine (with_sr sr' (regs m)) (bus m))
    /\ flag SR_FLAG_NEGATIVE sr' = Z.testbit v 7
    /\ flag SR_FLAG_OVERFLOW sr' = Z.testbit v 6
    /\ flag SR_FLAG_ZERO sr' = (Z.land (my_ac (regs m)) v =? 0)
    /\ forall j, 0 <= j < 8 -> j <> 7 -> j <> 6 -> j <> 1 ->
         Z.testbit sr' j = Z.testbit (my_sr (regs m)) j.
Proof.
  assert (Hrun : my_bit v m =
    Returns tt (mkMachine
      (with_sr (sr_with SR_FLAG_ZERO (Z.land (my_ac (regs m)) v =? 0)
                 (sr_with SR_FLAG_OVERFLOW (Z.testbit v 6)
                    (sr_with SR_FLAG_NEGATIVE (Z.testbit v 7) (my_sr (regs m)))))
               (regs m)) (bus m))).
  { assert (H7 : truthy (Z.land v SR_FLAG_NEGATIVE) = Z.testbit v 7)
      by exact (truthy_land_pow2 v 7 ltac:(lia)).
    assert (H6 : truthy (Z.land v SR_FLAG_OVERFLOW) = Z.testbit v 6)
      by exact (truthy_land_pow2 v 6 ltac:(lia)).
    unfold my_bit, bind, get. rewrite !SR_SET_or_CLR, H7, H6.
    destruct m as [[pc ac x y sr sp] h]. cbn [regs bus my_ac my_sr with_sr
      my_pc my_x my_y my_sp].
    unfold truthy. destruct (Z.land ac v =? 0); reflexivity. }
  eexists. split; [exact Hrun | ].
  repeat split.
  - read_flags. reflexivity.
  - read_flags. reflexivity.
  - read_flags. reflexivity.
  - intros j Hj H7 H6 H1.
    unfold SR_FLAG_OVERFLOW, SR_FLAG_ZERO, SR_FLAG_NEGATIVE.
    rewrite !sr_with_testbit by lia.
    destruct (Z.eqb_spec j 1); [lia | ].
    destruct (Z.eqb_spec j 6); [lia | ].
    destruct (Z.eqb_spec j 7); [lia | reflexivity].
Qed.

Lemma complement_byte (b : Z) : 0 <= b < 256 -> to_u8 (Z.lnot b) = 255 - b.
Proof. intros Hb. unfold Z.lnot. wrap_lia. Qed.

Lemma complement_byte_sign (b : Z) :
  0 <= b < 256 -> Z.testbit (255 - b) 7 = negb (Z.testbit b 7).
Proof.
  intros Hb. apply eqb_prop.
  apply (all_bytes_complete
           (fun z => eqb (Z.testbit (255 - z) 7) (negb (Z.testbit z 7))));
    [vm_compute; reflexivity | exact Hb].
Qed.

(** X6: SBC subtracts with borrow.  With accumulator [a], operand [b] and
    carry-in [c], AC = (a - b - (1 - c)) mod 256; C is set exactly when no
    borrow occurs, that is when b + (1 - c) <= a; Z and N follow AC, and
    V = (((a ^ b) & (a ^ AC) & 0x80) != 0). *)
Theorem sbc_subtracts_with_borrow (m : machine) (b : Z) :
  0 <= my_ac (regs m) < 256 ->
  0 <= b < 256 ->
  let a := my_ac (regs m) in
  let c := if flag SR_FLAG_CARRY (my_sr (regs m)) then 1 else 0 in
  exists m',
    my_sbc b m = Returns tt m' /\
    let AC := my_ac (regs m') in
    let SR := my_sr (regs m') in
    AC = (a - b - (1 - c)) mod 256 /\
    flag SR_FLAG_CARRY SR = (b + (1 - c) <=? a) /\
    flag SR_FLAG_ZERO SR = (AC =? 0) /\
    flag SR_FLAG_NEGATIVE SR = Z.testbit AC 7 /\
    flag SR_FLAG_OVERFLOW SR =
      negb (Z.land (Z.land (Z.lxor a b) (Z.lxor a AC)) 0x80 =? 0).
Proof.
  intros Ha Hb a c.
  unfold my_sbc. rewrite (complement_byte b Hb).
  assert (Hb' : 0 <= 255 - b < 256) by lia.
  eexists. split; [apply (my_adc_result m (255 - b) Ha Hb') | ].
  fold a. fold c. cbn [regs my_ac my_sr].
  set (sum := a + (255 - b) + c).
  assert (Hc : 0 <= c <= 1) by (subst c; destruct (flag _ _); lia).
  assert (HAC : to_u8 sum = (a - b - (1 - c)) mod 256).
  { unfold to_u8. replace sum with (a - b - (1 - c) + 1 * 256) by (subst sum; lia).
    apply Z.mod_add. lia. }
  repeat split.
  - exact HAC.
  - read_flags. subst sum.
    destruct (Z.leb_spec (b + (1 - c)) a), (Z.geb_spec (a + (255 - b) + c) 256);
      try reflexivity; lia.
  - read_flags. reflexivity.
  - read_flags. reflexivity.
  - read_flags.
    change 0x80 with (2 ^ 7). rewrite !land_pow2 by lia.
    rewrite Z.land_spec, !Z.lxor_spec, to_u8_testbit by lia.
    rewrite (complement_byte_sign b Hb).
    destruct (Z.testbit a 7), (Z.testbit b 7), (Z.testbit sum 7); reflexivity.
Qed.

(** 0x50 - 0x10 with carry set: AC = 0x40 and no borrow. *)
Lemma sbc_subtracts_with_borrow_witness :
  let m := mkMachine (mkRegs 0x0402 0x50 0 0 0x21 0xFD) [] in
  0 <= my_ac (regs m) < 256
  /\ 0 <= 0x10 < 256
  /\ exists m', my_sbc 0x10 m = Returns tt m'
                /\ my_ac (regs m') = 0x40
                /\ flag SR_FLAG_CARRY (my_sr (regs m')) = true.
Proof.
  intros m.
  assert (Ha : 0 <= my_ac (regs m) < 256) by (cbn; lia).
  assert (Hb : 0 <= 0x10 < 256) by lia.
  split; [exact Ha | split; [exact Hb | ]].
  destruct (sbc_subtracts_with_borrow m 0x10 Ha Hb) as [m' [Hrun [HA [HC _]]]].
  exists m'. split; [exact Hrun | split; [exact HA | exact HC]].
Defined.

(** ** The stack *)

Lemma stack_address (sp : Z) :
  0 <= sp < 256 -> to_u16 (STACK_OFFSET + sp) = STACK_OFFSET + sp.
Proof. intros H. apply to_u16_small. unfold STACK_OFFSET. lia. Qed.

(** X7: a byte pushed is the byte popped.  [my_push] writes at 0x0100 + SP,
    inside page 1, and leaves SP - 1 modulo 256; with a host that gives back
    written bytes the following [my_pop] reads that address, returns the byte
    and restores SP, for every SP including 0x00. *)
Theorem push_then_pop host (m : machine) (v : Z) :
  returns_written_bytes host ->
  0 <= my_sp (regs m) < 256 ->
  0 <= v < 256 ->
  let slot := STACK_OFFSET + my_sp (regs m) in
  exists m1 m2,
    my_push v m = Returns tt m1
    /\ my_sp (regs m1) = (my_sp (regs m) - 1) mod 256
    /\ my_pop host m1 = Returns v m2
    /\ regs m2 = regs m
    /\ bus m2 = BusRead slot v :: BusWrite slot v :: bus m
    /\ 0x0100 <= slot <= 0x01FF.
Proof.
  intros Hhost Hsp Hv slot.
  destruct m as [[pc ac x y sr sp] h].
  cbn [regs bus my_sp] in *.
  eexists. eexists.
  split; [cpu_step; reflexivity | ].
  cbn [regs my_sp].
  split; [reflexivity | ].
  cpu_step.
  assert (Hs : to_u8 (to_u8 (sp - 1) + 1) = sp) by wrap_lia.
  rewrite Hs, (stack_address sp Hsp). fold slot.
  rewrite (Hhost (BusWrite slot v :: h) slot v)
    by (cbn [last_write]; now rewrite Z.eqb_refl).
  rewrite (to_u8_small v Hv).
  repeat split; subst slot; unfold STACK_OFFSET; lia.
Qed.

(** A push at SP = 0x00 writes 0x0100 and leaves SP = 0xFF; the pop gives the
    byte back. *)
Lemma push_then_pop_witness :
  let host := ram (load 0x0400 []) in
  let m := mkMachine (mkRegs 0x0400 0 0 0 0x20 0x00) [] in
  returns_written_bytes host
  /\ 0 <= my_sp (regs m) < 256
  /\ 0 <= 0x42 < 256
  /\ exists m1 m2,
       my_push 0x42 m = Returns tt m1
       /\ my_sp (regs m1) = 0xFF
       /\ my_pop host m1 = Returns 0x42 m2
       /\ regs m2 = regs m
       /\ bus m2 = [BusRead 0x0100 0x42; BusWrite 0x0100 0x42].
Proof.
  intros host m.
  assert (Hhost : returns_written_bytes host) by apply ram_returns_written_bytes.
  assert (Hsp : 0 <= my_sp (regs m) < 256) by (cbn; lia).
  assert (Hv : 0 <= 0x42 < 256) by lia.
  split; [exact Hhost | split; [exact Hsp | split; [exact Hv | ]]].
  destruct (push_then_pop host m 0x42 Hhost Hsp Hv)
    as [m1 [m2 [Hpush [Hsp1 [Hpop [Hregs [Hbus _]]]]]]].
  exists m1, m2.
  split; [exact Hpush | split; [exact Hsp1 | split; [exact Hpop | ]]].
  split; [exact Hregs | exact Hbus].
Defined.

(** ** Software interrupt *)

(** X8: BRK at [p] pushes the high and low byte of p + 2 and then SR with the
    break flag set, reads the new PC from 0xFFFE and 0xFFFF and sets I in
    the register.  With a host that gives back written bytes and an RTI at
    the handler, the next step returns to p + 2 with SP as before the BRK
    and SR = SR | B: the I flag raised by BRK is dropped again. *)
Theorem brk_then_rti host (m : machine) (p : Z) :
  returns_written_bytes host ->
  0 <= p < 65536 ->
  0 <= my_sp (regs m) < 256 ->
  0 <= my_sr (regs m) < 256 ->
  my_pc (regs m) = p ->
  answer host m p = 0x00 ->
  let return_address := to_u16 (p + 2) in
  let sp := my_sp (regs m) in
  let sr := my_sr (regs m) in
  exists m1 lo hi,
    my6502_step host m = Returns tt m1 /\
    bus m1 = BusRead 0xFFFF hi :: BusRead 0xFFFE lo
          :: BusWrite (STACK_OFFSET + to_u8 (sp - 2)) (Z.lor sr SR_FLAG_BREAK)
          :: BusWrite (STACK_OFFSET + to_u8 (sp - 1)) (Z.land return_address 0xFF)
          :: BusWrite (STACK_OFFSET + sp) (Z.shiftr return_address 8)
          :: BusRead p 0x00 :: bus m /\
    my_pc (regs m1) = Z.lor lo (Z.shiftl hi 8) /\
    my_sr (regs m1) = Z.lor sr SR_FLAG_INTERRUPT /\
    (answer host m1 (my_pc (regs m1)) = 0x40 ->
     exists m2, my6502_step host m1 = Returns tt m2 /\
                my_pc (regs m2) = return_address /\
                my_sp (regs m2) = sp /\
                my_sr (regs m2) = Z.lor sr SR_FLAG_BREAK).
Proof.
  intros Hhost Hp Hsp Hsr Hpc Hop ret_addr sp0 sr0.
  destruct m as [[pc ac x y sr sp] h].
  cbn [regs bus my_pc my_sp my_sr] in *. subst pc sp0 sr0.
  unfold answer in Hop. cbn [bus] in Hop.
  assert (Hret : to_u16 (to_u16 (p + 1) + 1) = ret_addr) by (subst ret_addr; wrap_lia).
  assert (Hra : 0 <= ret_addr < 65536) by apply to_u16_range.
  assert (Hlo : to_u8 ret_addr = Z.land ret_addr 0xFF).
  { change 0xFF with (Z.ones 8). now rewrite Z.land_ones by lia. }
  assert (Hhi : to_u8 (Z.shiftr ret_addr 8) = Z.shiftr ret_addr 8).
  { apply to_u8_small. rewrite Z.shiftr_div_pow2 by lia. change (2 ^ 8) with 256.
    Z.div_mod_to_equations. lia. }
  assert (Hb : to_u8 (Z.lor sr SR_FLAG_BREAK) = Z.lor sr SR_FLAG_BREAK).
  { apply byte_lor_small; [exact Hsr | vm_compute; split; [discriminate | reflexivity]]. }
  assert (Hi : to_u8 (Z.lor sr SR_FLAG_INTERRUPT) = Z.lor sr SR_FLAG_INTERRUPT).
  { apply byte_lor_small; [exact Hsr | vm_compute; split; [discriminate | reflexivity]]. }
  assert (Hs2 : to_u8 (to_u8 (sp - 1) - 1) = to_u8 (sp - 2)) by wrap_lia.
  assert (Ha1 : to_u16 (STACK_OFFSET + sp) = STACK_OFFSET + sp)
    by (apply stack_address; exact Hsp).
  assert (Ha2 : to_u16 (STACK_OFFSET + to_u8 (sp - 1)) = STACK_OFFSET + to_u8 (sp - 1))
    by (apply stack_address, to_u8_range).
  assert (Ha3 : to_u16 (STACK_OFFSET + to_u8 (sp - 2)) = STACK_OFFSET + to_u8 (sp - 2))
    by (apply stack_address, to_u8_range).
  eexists. eexists. eexists.
  split.
  { cpu_step. rewrite Hop. cbv [dispatch my_brk]. cpu_step. reflexivity. }
  cbn [regs bus my_pc my_sp my_sr].
  rewrite !Hret, !Hlo, !Hhi, !Hb, !Hs2, Ha1, Ha2, Ha3, Hi, !to_u16_word.
  change (to_u16 (IRQ_OFFSET + 1)) with 0xFFFF. change IRQ_OFFSET with 0xFFFE.
  split; [reflexivity | ].
  split; [reflexivity | ].
  split; [reflexivity | ].
  intros Hrti. unfold answer in Hrti. cbn [bus] in Hrti.
  eexists. split.
  { cpu_step. rewrite Hrti. cbv [dispatch my_rti]. cpu_step. reflexivity. }
  cbn [regs my_pc my_sp my_sr].
  assert (Hp1 : to_u8 (to_u8 (to_u8 (sp - 2) - 1) + 1) = to_u8 (sp - 2)) by wrap_lia.
  assert (Hp2 : to_u8 (to_u8 (sp - 2) + 1) = to_u8 (sp - 1)) by wrap_lia.
  assert (Hp3 : to_u8 (to_u8 (sp - 1) + 1) = sp) by wrap_lia.
  rewrite !Hp1, !Hp2, !Hp3, Ha1, Ha2, Ha3.
  assert (N32 : (STACK_OFFSET + to_u8 (sp - 2) =? STACK_OFFSET + to_u8 (sp - 1)) = false)
    by (apply Z.eqb_neq; wrap_lia).
  assert (N31 : (STACK_OFFSET + to_u8 (sp - 2) =? STACK_OFFSET + sp) = false)
    by (apply Z.eqb_neq; wrap_lia).
  assert (N21 : (STACK_OFFSET + to_u8 (sp - 1) =? STACK_OFFSET + sp) = false)
    by (apply Z.eqb_neq; wrap_lia).
  repeat match goal with
  | |- context [host ?hist (STACK_OFFSET + ?s)] =>
      erewrite (Hhost hist (STACK_OFFSET + s))
        by (cbn [last_write]; rewrite ?N32, ?N31, ?N21, ?Z.eqb_refl; reflexivity)
  end.
  rewrite Hb.
  rewrite <- Hlo, (to_u8_small (to_u8 ret_addr)) by apply to_u8_range.
  rewrite Hlo, Hhi, split_bytes, (to_u16_small ret_addr Hra).
  split; [reflexivity | split; [reflexivity | ]].
  rewrite <- Z.lor_assoc, Z.lor_diag. exact Hb.
Qed.

(** BRK at 0x0400, vector 0x0500, RTI at 0x0500: back at 0x0402 with SP = 0xFD
    and SR = 0x20 | 0x10. *)
Lemma brk_then_rti_witness :
  let host := ram (place 0xFFFE [0x00; 0x05] (place 0x0500 [0x40] (load 0x0400 [0x00]))) in
  let m := after_reset 0x0400 in
  returns_written_bytes host
  /\ 0 <= 0x0400 < 65536
  /\ 0 <= my_sp (regs m) < 256
  /\ 0 <= my_sr (regs m) < 256
  /\ my_pc (regs m) = 0x0400
  /\ answer host m 0x0400 = 0x00
  /\ exists m1 m2,
       my6502_step host m = Returns tt m1
       /\ my_pc (regs m1) = 0x0500
       /\ my_sr (regs m1) = 0x24
       /\ my6502_step host m1 = Returns tt m2
       /\ my_pc (regs m2) = 0x0402
       /\ my_sp (regs m2) = 0xFD
       /\ my_sr (regs m2) = 0x30.
Proof.
  intros host m.
  assert (Hhost : returns_written_bytes host) by apply ram_returns_written_bytes.
  assert (Hp : 0 <= 0x0400 < 65536) by lia.
  assert (Hsp : 0 <= my_sp (regs m) < 256) by (change (0 <= 0xFD < 256); lia).
  assert (Hsr : 0 <= my_sr (regs m) < 256) by (change (0 <= 0x20 < 256); lia).
  repeat (split; [first [assumption | reflexivity] | ]).
  destruct (brk_then_rti host m 0x0400 Hhost Hp Hsp Hsr eq_refl eq_refl)
    as [m1 [lo [hi [Hbrk [_ [_ [Hsr1 Hrti]]]]]]].
  pose proof Hbrk as Hbrk0.
  vm_compute in Hbrk. injection Hbrk as Hm1. subst m1.
  destruct (Hrti eq_refl) as [m2 [Hstep [Hpc2 [Hsp2 Hsr2]]]].
  eexists. exists m2.
  split; [exact Hbrk0 | ].
  split; [reflexivity | split; [reflexivity | ]].
  split; [exact Hstep | split; [exact Hpc2 | split; [exact Hsp2 | exact Hsr2]]].
Defined.

(** ** Effective addresses *)

Lemma word_is_sum (u v : Z) :
  Z.lor (to_u8 u) (Z.shiftl (to_u8 v) 8) = to_u8 u + 256 * to_u8 v.
Proof.
  assert (H : Z.land (to_u8 u) (Z.shiftl (to_u8 v) 8) = 0).
  { apply Z.bits_inj'. intros n Hn. rewrite Z.land_spec, Z.bits_0.
    destruct (Z.ltb_spec n 8).
    - rewrite Z.shiftl_spec_low by lia. apply andb_false_r.
    - unfold to_u8 at 1. change 256 with (2 ^ 8).
      now rewrite Z.mod_pow2_bits_high by lia. }
  pose proof (Z.add_lor_land (to_u8 u) (Z.shiftl (to_u8 v) 8)) as Hs.
  rewrite H, Z.add_0_r in Hs. rewrite Hs, Z.shiftl_mul_pow2 by lia.
  change (2 ^ 8) with 256. lia.
Qed.

(** X9: absolute addressing is little-endian and indexing wraps at 64 KiB.
    With the bytes [lo] and [hi] following the opcode, ABSOLUTE yields
    lo + 256 * hi, ABSOLUTE_X and ABSOLUTE_Y add the index register modulo
    65536; the two bytes are read in order and PC moves past them. *)
Theorem absolute_addressing host (m : machine) :
  let pc := my_pc (regs m) in
  let lo := answer host m pc in
  let m1 := mkMachine (with_pc (to_u16 (pc + 1)) (regs m)) (BusRead pc lo :: bus m) in
  let hi := answer host m1 (to_u16 (pc + 1)) in
  let m2 := mkMachine (with_pc (to_u16 (to_u16 (pc + 1) + 1)) (regs m))
                      (BusRead (to_u16 (pc + 1)) hi :: bus m1) in
  my_read_addr host ABSOLUTE m = Returns (lo + 256 * hi) m2
  /\ my_read_addr host ABSOLUTE_X m =
       Returns ((lo + 256 * hi + my_x (regs m)) mod 65536) m2
  /\ my_read_addr host ABSOLUTE_Y m =
       Returns ((lo + 256 * hi + my_y (regs m)) mod 65536) m2
  /\ 0 <= lo + 256 * hi < 65536.
Proof.
  intros pc lo m1 hi m2.
  assert (Hw : to_u16 (Z.lor lo (Z.shiftl hi 8)) = lo + 256 * hi).
  { subst lo hi. unfold answer. now rewrite to_u16_word, word_is_sum. }
  assert (Hr : 0 <= lo + 256 * hi < 65536).
  { rewrite <- Hw. apply to_u16_range. }
  subst m2 hi m1 lo pc. destruct m as [[pc ac x y sr sp] h].
  unfold answer in *. cbn [regs bus my_pc my_x my_y] in *.
  split; [cpu_step; rewrite Hw; reflexivity | ].
  split; [cpu_step; rewrite Hw; reflexivity | ].
  split; [cpu_step; rewrite Hw; reflexivity | exact Hr].
Qed.

(** X10: JMP (indirect) has no page-wrap quirk.  The step reads the pointer
    [P] after the opcode, then the new PC from [P] and from P + 1 modulo
    65536; when the low byte of [P] is 0xFF the second byte comes from the
    next page, not from the start of the page of [P]. *)
Theorem jmp_indirect_crosses_pages host (m : machine) (p : Z) :
  0 <= p < 65536 ->
  my_pc (regs m) = p ->
  answer host m p = 0x6C ->
  exists m' P lo hi,
    my6502_step host m = Returns tt m'
    /\ regs m' = with_pc (lo + 256 * hi) (regs m)
    /\ (exists plo phi,
          P = plo + 256 * phi /\
          bus m' = BusRead (to_u16 (P + 1)) hi :: BusRead P lo
                :: BusRead (to_u16 (p + 2)) phi :: BusRead (to_u16 (p + 1)) plo
                :: BusRead p 0x6C :: bus m)
    /\ (Z.land P 0xFF = 0xFF -> to_u16 (P + 1) <> P - 0xFF).
Proof.
  intros Hp Hpc Hop.
  destruct m as [[pc ac x y sr sp] h].
  cbn [regs bus my_pc] in *. subst pc.
  unfold answer in Hop. cbn [bus] in Hop.
  set (plo := to_u8 (host (BusRead p 0x6C :: h) (to_u16 (p + 1)))).
  set (phi := to_u8 (host (BusRead (to_u16 (p + 1)) plo :: BusRead p 0x6C :: h)
                          (to_u16 (to_u16 (p + 1) + 1)))).
  set (P := plo + 256 * phi).
  assert (HP : to_u16 (Z.lor plo (Z.shiftl phi 8)) = P).
  { subst P plo phi. now rewrite to_u16_word, word_is_sum. }
  assert (HPr : 0 <= P < 65536).
  { subst P. pose proof (to_u8_range (host (BusRead p 0x6C :: h) (to_u16 (p + 1)))).
    pose proof (to_u8_range (host (BusRead (to_u16 (p + 1)) plo :: BusRead p 0x6C :: h)
                          (to_u16 (to_u16 (p + 1) + 1)))).
    fold plo in H. fold phi in H0. lia. }
  eexists. exists P. eexists. eexists.
  split.
  { cpu_step. rewrite Hop. cbv [dispatch my_jmp]. cpu_step.
    fold plo. fold phi. rewrite HP, to_u16_word, word_is_sum. reflexivity. }
  split; [reflexivity | ].
  split.
  { exists plo, phi. split; [reflexivity | ].
    cbn [bus]. replace (to_u16 (to_u16 (p + 1) + 1)) with (to_u16 (p + 2)) by wrap_lia.
    reflexivity. }
  intros Hlow. change 0xFF with (Z.ones 8) in Hlow.
  rewrite Z.land_ones in Hlow by lia. change (2 ^ 8) with 256 in Hlow.
  unfold to_u16. Z.div_mod_to_equations. lia.
Qed.

(** JMP ($04FF) with 0x34 at 0x04FF and 0x12 at 0x0500 goes to 0x1234. *)
Lemma jmp_indirect_crosses_pages_witness :
  let host := ram (place 0x04FF [0x34; 0x12] (load 0x0400 [0x6C; 0xFF; 0x04])) in
  let m := after_reset 0x0400 in
  0 <= 0x0400 < 65536
  /\ my_pc (regs m) = 0x0400
  /\ answer host m 0x0400 = 0x6C
  /\ exists m',
       my6502_step host m = Returns tt m'
       /\ my_pc (regs m') = 0x1234
       /\ bus m' = [BusRead 0x0500 0x12; BusRead 0x04FF 0x34; BusRead 0x0402 0x04;
                    BusRead 0x0401 0xFF; BusRead 0x0400 0x6C].
Proof.
  intros host m.
  assert (Hp : 0 <= 0x0400 < 65536) by lia.
  split; [exact Hp | split; [reflexivity | split; [reflexivity | ]]].
  destruct (jmp_indirect_crosses_pages host m 0x0400 Hp eq_refl eq_refl)
    as [m' [P [lo [hi [Hstep _]]]]].
  exists m'. split; [exact Hstep | ].
  vm_compute in Hstep. injection Hstep as Hm'. subst m'.
  split; reflexivity.
Defined.

(** X11: the pointer of (zp,X) and (zp),Y addressing is not wrapped inside the
    zero page.  For INDIRECT_X the pointer [P] is (byte + X) & 0xFF, for
    INDIRECT_Y it is the byte; the low address byte is read at [P] and the
    high one at P + 1, which is 0x0100 when [P] is 0xFF.  INDIRECT_X yields
    lo + 256 * hi, INDIRECT_Y adds Y modulo 65536. *)
Theorem indirect_pointer_leaves_zero_page host (m : machine) (mode : my_addr) :
  mode = INDIRECT_X \/ mode = INDIRECT_Y ->
  let pc := my_pc (regs m) in
  let b := answer host m pc in
  let P := match mode with INDIRECT_X => Z.land (b + my_x (regs m)) 0xFF | _ => b end in
  let m1 := mkMachine (with_pc (to_u16 (pc + 1)) (regs m)) (BusRead pc b :: bus m) in
  let lo := answer host m1 P in
  let m2 := mkMachine (regs m1) (BusRead P lo :: bus m1) in
  let hi := answer host m2 (P + 1) in
  let m3 := mkMachine (regs m1) (BusRead (P + 1) hi :: bus m2) in
  let index := match mode with INDIRECT_X => 0 | _ => my_y (regs m) end in
  my_read_addr host mode m = Returns ((lo + 256 * hi + index) mod 65536) m3
  /\ 0 <= P <= 0xFF.
Proof.
  intros Hmode pc b P m1 lo m2 hi m3 index.
  assert (HP : 0 <= P <= 0xFF).
  { subst P. destruct Hmode as [-> | ->]; cbv beta iota.
    - change 0xFF with (Z.ones 8). rewrite Z.land_ones by lia.
      change (2 ^ 8) with 256. change (Z.ones 8) with 255.
      pose proof (Z.mod_pos_bound (b + my_x (regs m)) 256). lia.
    - subst b. pose proof (to_u8_range (host (bus m) pc)). unfold answer. lia. }
  assert (HP1 : to_u16 (P + 1) = P + 1) by (apply to_u16_small; lia).
  assert (HP0 : to_u16 P = P) by (apply to_u16_small; lia).
  assert (Hw : to_u16 (Z.lor lo (Z.shiftl hi 8)) = lo + 256 * hi).
  { subst lo hi. unfold answer. now rewrite to_u16_word, word_is_sum. }
  assert (Hmod : (lo + 256 * hi + 0) mod 65536 = lo + 256 * hi).
  { rewrite Z.add_0_r. apply Z.mod_small. rewrite <- Hw. apply to_u16_range. }
  split; [ | exact HP].
  subst m3 hi m2 lo m1 index. destruct m as [[pc0 ac x y sr sp] h].
  unfold answer in *. cbn [regs bus my_pc my_x my_y with_pc] in *.
  subst pc. destruct Hmode as [-> | ->]; subst P b; cpu_step; cbn [fst].
  - rewrite HP0, HP1, Hw, Hmod. reflexivity.
  - rewrite HP1, Hw. reflexivity.
Qed.

(** LDA ($F0,X) with X = 0x0F: the pointer is 0xFF, its high byte is read at
    0x0100. *)
Lemma indirect_pointer_leaves_zero_page_witness :
  let host := ram (place 0x00FF [0x34; 0x12] (load 0x0401 [0xF0])) in
  let m := mkMachine (mkRegs 0x0401 0 0x0F 0 0x20 0xFD) [] in
  (INDIRECT_X = INDIRECT_X \/ INDIRECT_X = INDIRECT_Y)
  /\ exists m3,
       my_read_addr host INDIRECT_X m = Returns 0x1234 m3
       /\ bus m3 = [BusRead 0x0100 0x12; BusRead 0x00FF 0x34; BusRead 0x0401 0xF0].
Proof.
  intros host m.
  assert (Hmode : INDIRECT_X = INDIRECT_X \/ INDIRECT_X = INDIRECT_Y) by (left; reflexivity).
  split; [exact Hmode | ].
  destruct (indirect_pointer_leaves_zero_page host m INDIRECT_X Hmode) as [Hrun _].
  eexists. split; [exact Hrun | reflexivity].
Defined.

(** ** The packed operand *)

Lemma high_bits_clear (v p n : Z) :
  0 <= v < 2 ^ p -> 0 <= p <= n -> Z.testbit v n = false.
Proof.
  intros Hv Hp. rewrite <- (Z.mod_small v (2 ^ p)) by exact Hv.
  apply Z.mod_pow2_bits_high. exact Hp.
Qed.

Lemma my_addr_value_small (mode : my_addr) : 0 <= my_addr_value mode < 2 ^ 8.
Proof. destruct mode; cbn; lia. Qed.

(** The three fields of a packed operand are recovered by the shifts and
    masks of [my_write_op] and by the conversion to [uint8_t]. *)
Lemma pack_op_fields (addr : Z) (mode : my_addr) (value : Z) :
  0 <= addr < 65536 -> 0 <= value < 256 ->
  to_u8 (pack_op addr mode value) = value
  /\ Z.land (Z.shiftr (pack_op addr mode value) 8) 0xFF = my_addr_value mode
  /\ to_u16 (Z.shiftr (pack_op addr mode value) 16) = addr.
Proof.
  intros Ha Hv. pose proof (my_addr_value_small mode) as Hk.
  set (k := my_addr_value mode) in *.
  change 65536 with (2 ^ 16) in Ha. change 256 with (2 ^ 8) in Hv.
  unfold pack_op, to_u8, to_u16, to_u32. fold k.
  change 256 with (2 ^ 8). change 65536 with (2 ^ 16).
  change 4294967296 with (2 ^ 32). change 0xFF with (Z.ones 8).
  repeat split; apply Z.bits_inj'; intros n Hn.
  - destruct (Z.ltb_spec n 8).
    + rewrite !Z.mod_pow2_bits_low, !Z.lor_spec, !Z.shiftl_spec_low by lia.
      reflexivity.
    + rewrite Z.mod_pow2_bits_high by lia.
      symmetry. apply (high_bits_clear value 8 n); lia.
  - rewrite Z.land_spec.
    destruct (Z.ltb_spec n 8).
    + rewrite Z.ones_spec_low, Z.shiftr_spec, Z.mod_pow2_bits_low by lia.
      rewrite !Z.lor_spec, Z.shiftl_spec_low, Z.shiftl_spec by lia.
      rewrite (high_bits_clear value 8 (n + 8)) by lia.
      rewrite andb_true_r, orb_false_r. cbn [orb]. f_equal. lia.
    + rewrite Z.ones_spec_high, andb_false_r by lia.
      symmetry. apply (high_bits_clear k 8 n); lia.
  - destruct (Z.ltb_spec n 16).
    + rewrite Z.mod_pow2_bits_low, Z.shiftr_spec, Z.mod_pow2_bits_low by lia.
      rewrite !Z.lor_spec, !Z.shiftl_spec by lia.
      rewrite (high_bits_clear value 8 (n + 16)) by lia.
      rewrite (high_bits_clear k 8 (n + 16 - 8)) by lia.
      rewrite !orb_false_r. f_equal. lia.
    + rewrite Z.mod_pow2_bits_high by lia.
      symmetry. apply (high_bits_clear addr 16 n); lia.
Qed.

Lemma my_read_addr_range host (mode : my_addr) (m m1 : machine) (addr : Z) :
  my_read_addr host mode m = Returns addr m1 -> 0 <= addr < 65536.
Proof.
  destruct m as [[pc ac x y sr sp] h].
  destruct mode; cpu_step; cbn [fst]; intros H;
    first [ discriminate H
          | injection H as <- _;
            first [ apply to_u16_range
                  | match goal with
                    | |- 0 <= to_u8 ?v < _ => pose proof (to_u8_range v); lia
                    end ] ].
Qed.

Lemma my_read_addr_returns host (mode : my_addr) (m : machine) :
  In mode memory_modes -> exists addr m1, my_read_addr host mode m = Returns addr m1.
Proof.
  intros Hin. destruct m as [[pc ac x y sr sp] h].
  unfold memory_modes in Hin.
  repeat (destruct Hin as [<- | Hin]); try contradiction;
    cpu_step; eexists; eexists; reflexivity.
Qed.

Lemma accumulator_op_fields (ac : Z) :
  0 <= ac < 256 ->
  let op := to_u32 (Z.lor (Z.shiftl (my_addr_value ACCUMULATOR) 8) ac) in
  to_u8 op = ac /\ Z.land (Z.shiftr op 8) 0xFF = my_addr_value ACCUMULATOR.
Proof.
  intros Hac op. subst op.
  assert (H : ((to_u8 (to_u32 (Z.lor (Z.shiftl (my_addr_value ACCUMULATOR) 8) ac)) =? ac)
               && (Z.land (Z.shiftr (to_u32 (Z.lor (Z.shiftl (my_addr_value ACCUMULATOR) 8) ac)) 8)
                     0xFF =? my_addr_value ACCUMULATOR)) = true).
  { apply (all_bytes_complete
             (fun a => (to_u8 (to_u32 (Z.lor (Z.shiftl (my_addr_value ACCUMULATOR) 8) a)) =? a)
                       && (Z.land (Z.shiftr (to_u32 (Z.lor (Z.shiftl (my_addr_value ACCUMULATOR) 8) a)) 8)
                             0xFF =? my_addr_value ACCUMULATOR)));
      [vm_compute; reflexivity | exact Hac]. }
  apply andb_prop in H. destruct H as [H1 H2].
  split; apply Z.eqb_eq; assumption.
Qed.

(** X12: what [my_read_op] packs, [my_write_op] finds again.  For a memory
    mode the packed operand carries the byte read at the effective address,
    and writing back through it stores at that same address and leaves the
    registers; for ACCUMULATOR it carries AC, and writing back replaces AC
    with no bus access. *)
Theorem write_back_reaches_operand host (m : machine) :
  (forall mode, In mode memory_modes ->
     exists addr m1,
       my_read_addr host mode m = Returns addr m1
       /\ let value := answer host m1 addr in
          let op := pack_op addr mode value in
          my_read_op host mode m =
            Returns op (mkMachine (regs m1) (BusRead addr value :: bus m1))
          /\ to_u8 op = value
          /\ forall v m',
               my_write_op op v m' =
               Returns tt (mkMachine (regs m') (BusWrite addr v :: bus m')))
  /\ (0 <= my_ac (regs m) < 256 ->
      exists op,
        my_read_op host ACCUMULATOR m = Returns op m
        /\ to_u8 op = my_ac (regs m)
        /\ forall v m',
             my_write_op op v m' =
             Returns tt (mkMachine (with_ac v (regs m')) (bus m'))).
Proof.
  split.
  - intros mode Hin.
    destruct (my_read_addr_returns host mode m Hin) as [addr [m1 Hrd]].
    exists addr, m1. split; [exact Hrd | ].
    intros value op.
    pose proof (my_read_addr_range host mode m m1 addr Hrd) as Ha.
    assert (Hv : 0 <= value < 256) by apply to_u8_range.
    destruct (pack_op_fields addr mode value Ha Hv) as [F0 [F1 F2]].
    split; [ | split; [exact F0 | ]].
    + unfold memory_modes in Hin.
      repeat (destruct Hin as [<- | Hin]); try contradiction;
        unfold my_read_op, bind; rewrite Hrd; reflexivity.
    + intros v m'. subst op. unfold my_write_op. rewrite F1, F2.
      unfold memory_modes in Hin.
      repeat (destruct Hin as [<- | Hin]); try contradiction; reflexivity.
  - intros Hac.
    destruct (accumulator_op_fields (my_ac (regs m)) Hac) as [F0 F1].
    eexists. split; [reflexivity | ].
    split; [exact F0 | ].
    intros v m'. unfold my_write_op. rewrite F1. reflexivity.
Qed.

(** ** Shifts and rotates of the accumulator *)

Lemma shifted_accumulator host (m : machine) :
  0 <= my_ac (regs m) < 256 ->
  let a := my_ac (regs m) in
  let c := Z.land (my_sr (regs m)) SR_FLAG_CARRY in
  dispatch host 0x0A m = shifted (to_u8 (Z.shiftl a 1)) (to_u8 (Z.land a 0x80)) m
  /\ dispatch host 0x4A m = shifted (to_u8 (Z.shiftr a 1)) (to_u8 (Z.land a 0x01)) m
  /\ dispatch host 0x2A m = shifted (to_u8 (Z.shiftl a 1 + c)) (to_u8 (Z.land a 0x80)) m
  /\ dispatch host 0x6A m =
       shifted (to_u8 (Z.shiftr a 1 + (if truthy c then 0x80 else 0x00)))
               (to_u8 (Z.land a 0x01)) m.
Proof.
  intros Hac a c.
  destruct (accumulator_op_fields a Hac) as [F0 F1].
  destruct m as [[pc ac x y sr sp] h]. cbn [regs bus my_ac my_sr] in *. subst a c.
  repeat split;
    cbv [dispatch my_read_op my_asl my_lsr my_rol my_ror bind get ret shifted];
    cbn [regs bus my_ac my_sr]; rewrite ?F0;
    rewrite my_update_sr_with_carry_NZ; unfold my_write_op; rewrite F1;
    reflexivity.
Qed.

Ltac by_bytes f H :=
  apply (all_bytes_complete f); [vm_compute; reflexivity | exact H].

Lemma asl_byte (a : Z) :
  0 <= a < 256 ->
  to_u8 (Z.shiftl a 1) = (2 * a) mod 256
  /\ truthy (to_u8 (Z.land a 0x80)) = (128 <=? a).
Proof.
  intros Ha. split.
  - apply Z.eqb_eq.
    by_bytes (fun z => to_u8 (Z.shiftl z 1) =? (2 * z) mod 256) Ha.
  - apply eqb_prop.
    by_bytes (fun z => eqb (truthy (to_u8 (Z.land z 0x80))) (128 <=? z)) Ha.
Qed.

Lemma lsr_byte (a : Z) :
  0 <= a < 256 ->
  to_u8 (Z.shiftr a 1) = a / 2
  /\ truthy (to_u8 (Z.land a 0x01)) = Z.odd a
  /\ Z.testbit (a / 2) 7 = false.
Proof.
  intros Ha. split; [ | split].
  - apply Z.eqb_eq. by_bytes (fun z => to_u8 (Z.shiftr z 1) =? z / 2) Ha.
  - apply eqb_prop.
    by_bytes (fun z => eqb (truthy (to_u8 (Z.land z 0x01))) (Z.odd z)) Ha.
  - apply eqb_prop. by_bytes (fun z => eqb (Z.testbit (z / 2) 7) false) Ha.
Qed.

(** X13: ASL A doubles the accumulator modulo 256 and moves bit 7 to C; LSR A
    halves it, moves bit 0 to C and always clears N.  Z and N follow the new
    accumulator; the step reads the opcode only. *)
Theorem shift_accumulator host (m : machine) (opcode : Z) :
  0 <= my_ac (regs m) < 256 ->
  answer host m (my_pc (regs m)) = opcode ->
  opcode = 0x0A \/ opcode = 0x4A ->
  let a := my_ac (regs m) in
  exists m',
    my6502_step host m = Returns tt m'
    /\ bus m' = BusRead (my_pc (regs m)) opcode :: bus m
    /\ my_ac (regs m') = (if opcode =? 0x0A then (2 * a) mod 256 else a / 2)
    /\ flag SR_FLAG_CARRY (my_sr (regs m')) =
         (if opcode =? 0x0A then 128 <=? a else Z.odd a)
    /\ flag SR_FLAG_ZERO (my_sr (regs m')) = (my_ac (regs m') =? 0)
    /\ flag SR_FLAG_NEGATIVE (my_sr (regs m')) = Z.testbit (my_ac (regs m')) 7
    /\ (opcode = 0x4A -> flag SR_FLAG_NEGATIVE (my_sr (regs m')) = false).
Proof.
  intros Hac Hop Hcase a.
  rewrite (step_is_dispatch host m opcode Hop).
  assert (Hac' : 0 <= my_ac (regs (fetched m opcode)) < 256) by exact Hac.
  destruct (asl_byte a Hac) as [A1 A2]. destruct (lsr_byte a Hac) as [L1 [L2 L3]].
  destruct Hcase as [-> | ->].
  - eexists. split; [apply (shifted_accumulator host (fetched m 0x0A) Hac') | ].
    cbn [regs bus my_ac my_sr with_ac with_sr fetched with_pc Z.eqb Pos.eqb].
    fold a. rewrite A1, A2.
    repeat split; try (read_flags; reflexivity). discriminate.
  - eexists. split; [apply (shifted_accumulator host (fetched m 0x4A) Hac') | ].
    cbn [regs bus my_ac my_sr with_ac with_sr fetched with_pc Z.eqb Pos.eqb].
    fold a. rewrite L1, L2.
    repeat split; try (read_flags; reflexivity).
    intros _. read_flags. exact L3.
Qed.

(** ASL A with AC = 0x81 leaves 0x02 and sets C. *)
Lemma shift_accumulator_witness :
  let host := one_byte_image 0x0400 0x0A in
  let m := mkMachine (mkRegs 0x0400 0x81 0 0 0x20 0xFD) [] in
  0 <= my_ac (regs m) < 256
  /\ answer host m (my_pc (regs m)) = 0x0A
  /\ (0x0A = 0x0A \/ 0x0A = 0x4A)
  /\ exists m',
       my6502_step host m = Returns tt m'
       /\ my_ac (regs m') = 0x02
       /\ flag SR_FLAG_CARRY (my_sr (regs m')) = true.
Proof.
  intros host m.
  assert (Hac : 0 <= my_ac (regs m) < 256) by (cbn; lia).
  assert (Hcase : 0x0A = 0x0A \/ 0x0A = 0x4A) by (left; reflexivity).
  split; [exact Hac | split; [reflexivity | split; [exact Hcase | ]]].
  destruct (shift_accumulator host m 0x0A Hac eq_refl Hcase)
    as [m' [Hstep [_ [HA [HC _]]]]].
  exists m'. split; [exact Hstep | split; [exact HA | exact HC]].
Defined.

Lemma rotate_checks (a : Z) (c : bool) :
  0 <= a < 256 -> rol_ror_check c a = true /\ ror_rol_check c a = true.
Proof.
  intros Ha. destruct c; split.
  - by_bytes (rol_ror_check true) Ha.
  - by_bytes (ror_rol_check true) Ha.
  - by_bytes (rol_ror_check false) Ha.
  - by_bytes (ror_rol_check false) Ha.
Qed.

Lemma carry_bit_value (sr : Z) :
  Z.land sr SR_FLAG_CARRY = (if flag SR_FLAG_CARRY sr then 1 else 0).
Proof.
  unfold SR_FLAG_CARRY. rewrite flag_testbit by lia.
  rewrite Z.shiftl_1_l. apply (land_pow2 sr 0). lia.
Qed.

Lemma carry_after_update (on : bool) (sr : Z) :
  flag SR_FLAG_CARRY (sr_with SR_FLAG_CARRY on sr) = on.
Proof. read_flags. reflexivity. Qed.

Lemma truthy_of_bit (b : bool) : truthy (if b then 1 else 0) = b.
Proof. destruct b; reflexivity. Qed.

(** X14: ROL A followed by ROR A, and ROR A followed by ROL A, restore both
    the accumulator and the carry flag. *)
Theorem rotate_round_trip host (m : machine) (first second : Z) :
  0 <= my_ac (regs m) < 256 ->
  (first = 0x2A /\ second = 0x6A) \/ (first = 0x6A /\ second = 0x2A) ->
  answer host m (my_pc (regs m)) = first ->
  exists m1,
    my6502_step host m = Returns tt m1
    /\ (answer host m1 (my_pc (regs m1)) = second ->
        exists m2,
          my6502_step host m1 = Returns tt m2
          /\ my_ac (regs m2) = my_ac (regs m)
          /\ flag SR_FLAG_CARRY (my_sr (regs m2)) =
               flag SR_FLAG_CARRY (my_sr (regs m))).
Proof.
  intros Hac Hcase Hop.
  rewrite (step_is_dispatch host m first Hop).
  set (a := my_ac (regs m)) in *. set (sr := my_sr (regs m)).
  destruct (rotate_checks a (flag SR_FLAG_CARRY sr) Hac) as [Hlr Hrl].
  apply andb_prop in Hlr, Hrl.
  destruct Hlr as [Hlr1 Hlr2]. destruct Hrl as [Hrl1 Hrl2].
  apply Z.eqb_eq in Hlr1, Hrl1. apply eqb_prop in Hlr2, Hrl2.
  assert (Hac0 : 0 <= my_ac (regs (fetched m first)) < 256) by exact Hac.
  destruct (shifted_accumulator host (fetched m first) Hac0) as [_ [_ [Hrol Hror]]].
  cbn [fetched regs my_ac my_sr with_pc] in Hrol, Hror. fold a sr in Hrol, Hror.
  rewrite carry_bit_value in Hrol, Hror. rewrite truthy_of_bit in Hror.
  destruct Hcase as [[-> ->] | [-> ->]].
  - eexists. split; [exact Hrol | ].
    intros Hop2. rewrite (step_is_dispatch host _ 0x6A Hop2).
    match goal with
    | |- context [dispatch host 0x6A ?m1] =>
        assert (Hac1 : 0 <= my_ac (regs m1) < 256) by apply to_u8_range;
        destruct (shifted_accumulator host m1 Hac1) as [_ [_ [_ Hror1]]]
    end.
    eexists. split; [exact Hror1 | ].
    cbn [fetched regs bus my_ac my_sr with_pc with_ac with_sr shifted].
    rewrite carry_bit_value, !carry_after_update, truthy_of_bit.
    split; [exact Hlr1 | exact Hlr2].
  - eexists. split; [exact Hror | ].
    intros Hop2. rewrite (step_is_dispatch host _ 0x2A Hop2).
    match goal with
    | |- context [dispatch host 0x2A ?m1] =>
        assert (Hac1 : 0 <= my_ac (regs m1) < 256) by apply to_u8_range;
        destruct (shifted_accumulator host m1 Hac1) as [_ [_ [Hrol1 _]]]
    end.
    eexists. split; [exact Hrol1 | ].
    cbn [fetched regs bus my_ac my_sr with_pc with_ac with_sr shifted].
    rewrite carry_bit_value, !carry_after_update.
    split; [exact Hrl1 | exact Hrl2].
Qed.

(** ROL A then ROR A with AC = 0x81 and C clear. *)
Lemma rotate_round_trip_witness :
  let host := ram (load 0x0400 [0x2A; 0x6A]) in
  let m := mkMachine (mkRegs 0x0400 0x81 0 0 0x20 0xFD) [] in
  0 <= my_ac (regs m) < 256
  /\ ((0x2A = 0x2A /\ 0x6A = 0x6A) \/ (0x2A = 0x6A /\ 0x6A = 0x2A))
  /\ answer host m (my_pc (regs m)) = 0x2A
  /\ exists m1 m2,
       my6502_step host m = Returns tt m1
       /\ my_ac (regs m1) = 0x02
       /\ my6502_step host m1 = Returns tt m2
       /\ my_ac (regs m2) = 0x81
       /\ flag SR_FLAG_CARRY (my_sr (regs m2)) = false.
Proof.
  intros host m.
  assert (Hac : 0 <= my_ac (regs m) < 256) by (cbn; lia).
  assert (Hcase : (0x2A = 0x2A /\ 0x6A = 0x6A) \/ (0x2A = 0x6A /\ 0x6A = 0x2A))
    by (left; split; reflexivity).
  split; [exact Hac | split; [exact Hcase | split; [reflexivity | ]]].
  destruct (rotate_round_trip host m 0x2A 0x6A Hac Hcase eq_refl) as [m1 [Hrol Hror]].
  pose proof Hrol as Hrol0.
  vm_compute in Hrol. injection Hrol as Hm1. subst m1.
  destruct (Hror eq_refl) as [m2 [Hstep [HA HC]]].
  eexists. exists m2.
  split; [exact Hrol0 | split; [reflexivity | ]].
  split; [exact Hstep | split; [exact HA | exact HC]].
Defined.

(** ** What the resolver leaves alone *)

(** X15: resolving an operand never writes to the bus and changes no register
    but PC: after [my_read_addr] or [my_read_op], returned or aborted, the
    bus history has grown by reads only, five at most, and AC, X, Y, SR and
    SP are as before. *)
Theorem resolver_only_reads host (mode : my_addr) (m : machine) :
  (exists reads pc',
     bus (final (my_read_addr host mode m)) = reads ++ bus m
     /\ Forall is_read reads /\ (length reads <= 4)%nat
     /\ regs (final (my_read_addr host mode m)) = with_pc pc' (regs m))
  /\ (exists reads pc',
     bus (final (my_read_op host mode m)) = reads ++ bus m
     /\ Forall is_read reads /\ (length reads <= 5)%nat
     /\ regs (final (my_read_op host mode m)) = with_pc pc' (regs m)).
Proof.
  destruct m as [[pc ac x y sr sp] h].
  split; destruct mode; cbv [my_read_op]; cpu_step;
    match goal with
    | |- exists reads pc', ?l = _ /\ _ =>
        match l with
        | context [BusRead ?a1 ?v1 :: BusRead ?a2 ?v2 :: BusRead ?a3 ?v3
                     :: BusRead ?a4 ?v4 :: BusRead ?a5 ?v5 :: h] =>
            exists [BusRead a1 v1; BusRead a2 v2; BusRead a3 v3; BusRead a4 v4;
                    BusRead a5 v5]
        | context [BusRead ?a1 ?v1 :: BusRead ?a2 ?v2 :: BusRead ?a3 ?v3
                     :: BusRead ?a4 ?v4 :: h] =>
            exists [BusRead a1 v1; BusRead a2 v2; BusRead a3 v3; BusRead a4 v4]
        | context [BusRead ?a1 ?v1 :: BusRead ?a2 ?v2 :: BusRead ?a3 ?v3 :: h] =>
            exists [BusRead a1 v1; BusRead a2 v2; BusRead a3 v3]
        | context [BusRead ?a1 ?v1 :: BusRead ?a2 ?v2 :: h] =>
            exists [BusRead a1 v1; BusRead a2 v2]
        | context [BusRead ?a1 ?v1 :: h] => exists [BusRead a1 v1]
        | _ => exists []
        end
    end;
    eexists; (split; [reflexivity | ]);
    (split; [repeat constructor | ]);
    (split; [cbn [length]; lia | reflexivity]).
Qed.

(** ** Stores and loads *)

(** X16: a store writes one byte, the register, at the effective address, after
    the reads of the resolver; AC, X, Y, SR and SP are unchanged. *)
Theorem store_writes_register host (m : machine) (opcode : Z) (mode : my_addr)
        (reg : regfile -> Z) :
  answer host m (my_pc (regs m)) = opcode ->
  In (opcode, (mode, reg)) store_instructions ->
  exists addr m1 pc',
    my_read_addr host mode (fetched m opcode) = Returns addr m1
    /\ my6502_step host m =
         Returns tt (mkMachine (regs m1) (BusWrite addr (reg (regs m)) :: bus m1))
    /\ regs m1 = with_pc pc' (regs m).
Proof.
  intros Hop Hin.
  rewrite (step_is_dispatch host m opcode Hop).
  destruct m as [[pc ac x y sr sp] h].
  unfold store_instructions in Hin.
  repeat (destruct Hin as [Heq | Hin]; [injection Heq as <- <- <- | ]);
    try contradiction;
    cbv [dispatch my_sta my_stx my_sty fetched]; cpu_step;
    eexists; eexists; eexists; repeat split.
Qed.

(** STA $0200 with AC = 0x42. *)
Lemma store_writes_register_witness :
  let host := ram (load 0x0400 [0x8D; 0x00; 0x02]) in
  let m := mkMachine (mkRegs 0x0400 0x42 0 0 0x20 0xFD) [] in
  answer host m (my_pc (regs m)) = 0x8D
  /\ In (0x8D, (ABSOLUTE, my_ac)) store_instructions
  /\ my6502_step host m =
       Returns tt (mkMachine (mkRegs 0x0403 0x42 0 0 0x20 0xFD)
                     [BusWrite 0x0200 0x42; BusRead 0x0402 0x02; BusRead 0x0401 0x00;
                      BusRead 0x0400 0x8D]).
Proof.
  intros host m.
  assert (Hin : In (0x8D, (ABSOLUTE, my_ac)) store_instructions)
    by (do 5 right; left; reflexivity).
  split; [reflexivity | split; [exact Hin | ]].
  destruct (store_writes_register host m 0x8D ABSOLUTE my_ac eq_refl Hin)
    as [addr [m1 [pc' [Hrd [Hstep _]]]]].
  rewrite Hstep. vm_compute in Hrd. injection Hrd as Haddr Hm1.
  rewrite <- Haddr, <- Hm1. reflexivity.
Defined.

(** X17: LDA #, LDX # and LDY # read the opcode and the operand byte, load the
    byte into their register, set Z when it is zero and N from its bit 7,
    and leave the other six bits of SR, the other registers and SP; PC moves
    by two. *)
Theorem immediate_load host (m : machine) (opcode : Z) (reg : regfile -> Z) :
  answer host m (my_pc (regs m)) = opcode ->
  In (opcode, reg) immediate_loads ->
  let pc := my_pc (regs m) in
  let v := answer host (fetched m opcode) (to_u16 (pc + 1)) in
  exists m',
    my6502_step host m = Returns tt m'
    /\ bus m' = BusRead (to_u16 (pc + 1)) v :: BusRead pc opcode :: bus m
    /\ my_pc (regs m') = to_u16 (pc + 2)
    /\ reg (regs m') = v
    /\ flag SR_FLAG_ZERO (my_sr (regs m')) = (v =? 0)
    /\ flag SR_FLAG_NEGATIVE (my_sr (regs m')) = Z.testbit v 7
    /\ (forall j, 0 <= j < 8 -> j <> 1 -> j <> 7 ->
          Z.testbit (my_sr (regs m')) j = Z.testbit (my_sr (regs m)) j)
    /\ my_sp (regs m') = my_sp (regs m)
    /\ (forall other, In other [my_ac; my_x; my_y] -> other <> reg ->
          other (regs m') = other (regs m)).
Proof.
  intros Hop Hin pc v.
  rewrite (step_is_dispatch host m opcode Hop).
  assert (Hv : 0 <= v < 256) by apply to_u8_range.
  assert (Ha : 0 <= to_u16 (pc + 1) < 65536) by apply to_u16_range.
  assert (F : forall mode, to_u8 (pack_op (to_u16 (pc + 1)) mode v) = v)
    by (intros mode; apply (pack_op_fields _ mode v Ha Hv)).
  assert (Hpc2 : to_u16 (to_u16 (pc + 1) + 1) = to_u16 (pc + 2)) by wrap_lia.
  subst v pc. destruct m as [[pc ac x y sr sp] h].
  unfold answer in *. cbn [regs bus my_pc fetched] in *.
  unfold immediate_loads in Hin.
  repeat (destruct Hin as [Heq | Hin]; [injection Heq as <- <- | ]);
    try contradiction;
    cbv [dispatch my_read_op my_lda my_ldx my_ldy bind get set_pc set_ac set_x set_y
         modify my6502_read ret with_pc];
    cbn [regs bus my_pc my_ac my_x my_y my_sr my_sp];
    rewrite F, my_update_sr_NZ;
    (eexists; split; [reflexivity | ]);
    cbn [regs bus my_pc my_ac my_x my_y my_sr my_sp with_sr];
    (split; [reflexivity | ]); (split; [exact Hpc2 | ]);
    (split; [reflexivity | ]);
    (split; [read_flags; reflexivity | ]);
    (split; [read_flags; reflexivity | ]);
    (split; [intros j Hj H1 H7; unfold SR_FLAG_ZERO, SR_FLAG_NEGATIVE;
             rewrite !sr_with_testbit by lia;
             destruct (Z.eqb_spec j 1); [lia | ];
             destruct (Z.eqb_spec j 7); [lia | reflexivity] | ]);
    (split; [reflexivity | ]);
    intros other Hother Hne;
    repeat (destruct Hother as [<- | Hother]; [first [reflexivity | contradiction] | ]);
    contradiction.
Qed.

(** LDX #$80 sets N and clears Z. *)
Lemma immediate_load_witness :
  let host := ram (load 0x0400 [0xA2; 0x80]) in
  let m := after_reset 0x0400 in
  answer host m (my_pc (regs m)) = 0xA2
  /\ In (0xA2, my_x) immediate_loads
  /\ exists m',
       my6502_step host m = Returns tt m'
       /\ my_x (regs m') = 0x80
       /\ my_pc (regs m') = 0x0402
       /\ flag SR_FLAG_ZERO (my_sr (regs m')) = false
       /\ flag SR_FLAG_NEGATIVE (my_sr (regs m')) = true.
Proof.
  intros host m.
  assert (Hin : In (0xA2, my_x) immediate_loads) by (right; left; reflexivity).
  split; [reflexivity | split; [exact Hin | ]].
  destruct (immediate_load host m 0xA2 my_x eq_refl Hin)
    as [m' [Hstep [_ [Hpc [Hreg [HZ [HN _]]]]]]].
  exists m'.
  split; [exact Hstep | split; [exact Hreg | split; [exact Hpc | ]]].
  split; [exact HZ | exact HN].
Defined.

(** ** Increments and decrements *)

Lemma byte_up_down (v : Z) :
  0 <= v < 256 ->
  to_u8 (to_u8 (v + 1) - 1) = v /\ to_u8 (to_u8 (v - 1) + 1) = v.
Proof. intros Hv. split; wrap_lia. Qed.

(** X18: INX and INY add one and DEX and DEY subtract one modulo 256, so 0xFF
    steps up to 0x00 and 0x00 down to 0xFF; an increment undoes a decrement
    and the reverse.  After either round trip the register is restored, Z and
    N describe the restored byte, and PC, SP, the other registers and the
    bus are untouched. *)
Theorem index_step_round_trip (m : machine) (up down : M unit) (reg : regfile -> Z) :
  In (up, down, reg) index_steps ->
  0 <= reg (regs m) < 256 ->
  let r := reg (regs m) in
  exists m_up m_down,
    up m = Returns tt m_up /\ reg (regs m_up) = (r + 1) mod 256
    /\ down m = Returns tt m_down /\ reg (regs m_down) = (r - 1) mod 256
    /\ (exists m2, down m_up = Returns tt m2 /\ restored reg m m2)
    /\ (exists m2, up m_down = Returns tt m2 /\ restored reg m m2).
Proof.
  intros Hin Hr r.
  destruct (byte_up_down r Hr) as [Hud Hdu].
  destruct m as [[pc ac x y sr sp] h].
  unfold index_steps in Hin.
  repeat (destruct Hin as [Heq | Hin]; [injection Heq as <- <- <- | ]);
    try contradiction;
    cbn [regs my_x my_y] in *; subst r;
    (eexists; eexists;
     split; [unfold my_inx, my_iny, bind, get, set_x, set_y, modify;
             cbn [regs bus my_pc my_ac my_x my_y my_sr my_sp];
             rewrite my_update_sr_NZ; reflexivity | ];
     split; [reflexivity | ];
     split; [unfold my_dex, my_dey, bind, get, set_x, set_y, modify;
             cbn [regs bus my_pc my_ac my_x my_y my_sr my_sp];
             rewrite my_update_sr_NZ; reflexivity | ];
     split; [reflexivity | ]);
    split;
    (eexists;
     split; [unfold my_inx, my_iny, my_dex, my_dey, bind, get, set_x, set_y, modify;
             cbn [regs bus my_pc my_ac my_x my_y my_sr my_sp with_sr];
             rewrite my_update_sr_NZ; reflexivity | ]);
    unfold restored;
    cbn [regs bus my_pc my_ac my_x my_y my_sr my_sp with_sr];
    rewrite ?Hud, ?Hdu;
    (split; [reflexivity | ]);
    (split; [read_flags; reflexivity | ]);
    (split; [read_flags; reflexivity | ]);
    (split; [reflexivity | ]); (split; [reflexivity | ]); (split; [reflexivity | ]);
    intros other Hother Hne;
    repeat (destruct Hother as [<- | Hother]; [first [reflexivity | contradiction] | ]);
    contradiction.
Qed.

(** INX at X = 0xFF wraps to 0x00 and DEX brings 0xFF back. *)
Lemma index_step_round_trip_witness :
  let m := mkMachine (mkRegs 0x0400 0 0xFF 0 0x20 0xFD) [] in
  In (my_inx, my_dex, my_x) index_steps
  /\ 0 <= my_x (regs m) < 256
  /\ exists m_up m2,
       my_inx m = Returns tt m_up
       /\ my_x (regs m_up) = 0x00
       /\ my_dex m_up = Returns tt m2
       /\ my_x (regs m2) = 0xFF.
Proof.
  intros m.
  assert (Hin : In (my_inx, my_dex, my_x) index_steps) by (left; reflexivity).
  assert (Hr : 0 <= my_x (regs m) < 256) by (cbn; lia).
  split; [exact Hin | split; [exact Hr | ]].
  destruct (index_step_round_trip m my_inx my_dex my_x Hin Hr)
    as [m_up [m_down [Hup [Hx [_ [_ [[m2 [Hdown Hback]] _]]]]]]].
  exists m_up, m2.
  split; [exact Hup | split; [exact Hx | split; [exact Hdown | exact (proj1 Hback)]]].
Defined.

(** X19: INC followed by DEC of the same address puts the byte back.  With a
    host that gives back written bytes and the byte [v] at the address, INC
    writes (v + 1) mod 256 and DEC then writes [v]; Z and N describe [v], and
    no register other than SR changes. *)
Theorem inc_then_dec host (m : machine) (addr : Z) :
  returns_written_bytes host ->
  let v := answer host m addr in
  exists m1 m2,
    my_inc host addr m = Returns tt m1
    /\ my_dec host addr m1 = Returns tt m2
    /\ bus m2 = BusWrite addr v :: BusRead addr ((v + 1) mod 256)
             :: BusWrite addr ((v + 1) mod 256) :: BusRead addr v :: bus m
    /\ last_write (bus m2) addr = Some v
    /\ flag SR_FLAG_ZERO (my_sr (regs m2)) = (v =? 0)
    /\ flag SR_FLAG_NEGATIVE (my_sr (regs m2)) = Z.testbit v 7
    /\ exists sr', regs m2 = with_sr sr' (regs m).
Proof.
  intros Hhost v.
  assert (Hv : 0 <= v < 256) by apply to_u8_range.
  destruct (byte_up_down v Hv) as [Hud _].
  subst v. destruct m as [[pc ac x y sr sp] h].
  unfold answer in *. cbn [bus] in *.
  set (v := to_u8 (host h addr)) in *.
  eexists. eexists.
  split.
  { unfold my_inc, bind, my6502_read, my6502_write. cbn [regs bus]. fold v.
    rewrite my_update_sr_NZ. reflexivity. }
  cbn [regs bus my_sr with_sr my_pc my_ac my_x my_y my_sp].
  assert (Hback : to_u8 (host (BusWrite addr (to_u8 (v + 1)) :: BusRead addr v :: h) addr)
                  = to_u8 (v + 1)).
  { rewrite (Hhost _ addr (to_u8 (v + 1)))
      by (cbn [last_write]; now rewrite Z.eqb_refl).
    apply to_u8_small, to_u8_range. }
  split.
  { unfold my_dec, bind, my6502_read, my6502_write. cbn [regs bus].
    rewrite Hback, Hud, my_update_sr_NZ. reflexivity. }
  cbn [regs bus my_sr with_sr my_pc my_ac my_x my_y my_sp].
  split; [reflexivity | ].
  split; [cbn [last_write]; now rewrite Z.eqb_refl | ].
  split; [read_flags; reflexivity | ].
  split; [read_flags; reflexivity | ].
  eexists. reflexivity.
Qed.

(** INC then DEC of 0x0010 holding 0xFF: 0x00 is written, then 0xFF. *)
Lemma inc_then_dec_witness :
  let host := ram (load 0x0010 [0xFF]) in
  let m := after_reset 0x0400 in
  returns_written_bytes host
  /\ exists m1 m2,
       my_inc host 0x0010 m = Returns tt m1
       /\ my_dec host 0x0010 m1 = Returns tt m2
       /\ bus m2 = [BusWrite 0x0010 0xFF; BusRead 0x0010 0x00;
                    BusWrite 0x0010 0x00; BusRead 0x0010 0xFF]
       /\ flag SR_FLAG_NEGATIVE (my_sr (regs m2)) = true.
Proof.
  intros host m.
  assert (Hhost : returns_written_bytes host) by apply ram_returns_written_bytes.
  split; [exact Hhost | ].
  destruct (inc_then_dec host m 0x0010 Hhost)
    as [m1 [m2 [Hinc [Hdec [Hbus [_ [_ [HN _]]]]]]]].
  exists m1, m2.
  split; [exact Hinc | split; [exact Hdec | split; [exact Hbus | exact HN]]].
Defined.

(** ** Which steps write *)

Section ReadsOnly.
Variable host : list bus_event -> Z -> Z.

Lemma reads_only_ret {A} (a : A) : reads_only (ret a).
Proof. intros m. exists []. split; [reflexivity | constructor]. Qed.

Lemma reads_only_assert_0 {A} (site : assert_site) : reads_only (@assert_0 A site).
Proof. intros m. exists []. split; [reflexivity | constructor]. Qed.

Lemma reads_only_get {A} (field : regfile -> A) : reads_only (get field).
Proof. intros m. exists []. split; [reflexivity | constructor]. Qed.

Lemma reads_only_modify f : reads_only (modify f).
Proof. intros m. exists []. split; [reflexivity | constructor]. Qed.

Lemma reads_only_read a : reads_only (my6502_read host a).
Proof.
  intros m. eexists [_]. split; [reflexivity | ]. repeat constructor.
Qed.

Lemma reads_only_bind {A B} (c : M A) (k : A -> M B) :
  reads_only c -> (forall a, reads_only (k a)) -> reads_only (bind c k).
Proof.
  intros Hc Hk m. unfold bind.
  destruct (Hc m) as [r1 [E1 F1]].
  destruct (c m) as [a m1|site m1]; cbn [final] in *.
  - destruct (Hk a m1) as [r2 [E2 F2]].
    exists (r2 ++ r1). rewrite E2, E1, app_assoc.
    split; [reflexivity | apply Forall_app; split; assumption].
  - exists r1. split; assumption.
Qed.

Lemma reads_only_if {A} (b : bool) (c1 c2 : M A) :
  reads_only c1 -> reads_only c2 -> reads_only (if b then c1 else c2).
Proof. destruct b; auto. Qed.

Ltac reads_only_tac :=
  cbv [dispatch my_read_op my_read_addr my_read_addr_from_pc my_read_addr_from_mem
       fetch my_pop SR_IS_SET SR_SET SR_CLR
       my_update_sr my_update_sr_with_carry branch_if compare_with
       set_pc set_ac set_x set_y set_sr set_sp
       my_adc my_and my_bcs my_bit my_bne my_bcc my_beq my_bmi my_bpl
       my_bvc my_bvs my_clc my_cld my_cli my_clv my_cmp my_cpx my_cpy my_dex
       my_dey my_eor my_jmp my_inx my_iny my_lda my_ldx my_ldy
       my_nop my_ora my_rti my_rts my_pla my_plp my_sbc
       my_sec my_sed my_sei my_tax my_tay my_tsx my_txa my_txs my_tya];
  repeat
    lazymatch goal with
    | |- reads_only (bind _ _) => apply reads_only_bind; [ | intro ]
    | |- reads_only (if _ then _ else _) => apply reads_only_if
    | |- reads_only (ret _) => apply reads_only_ret
    | |- reads_only (assert_0 _) => apply reads_only_assert_0
    | |- reads_only (get _) => apply reads_only_get
    | |- reads_only (modify _) => apply reads_only_modify
    | |- reads_only (my6502_read _ _) => apply reads_only_read
    end.

Lemma dispatch_reads_only (opcode : Z) :
  writes_memory opcode = false ->
  opcode <> 0x0A -> opcode <> 0x4A -> opcode <> 0x2A -> opcode <> 0x6A ->
  reads_only (dispatch host opcode).
Proof.
  intros Hw N1 N2 N3 N4.
  destruct opcode as [|p|p]; [discriminate Hw | | solve [reads_only_tac]].
  do 8 (destruct p as [p|p|];
        [ | | first [ solve [reads_only_tac]
                    | vm_compute in Hw; discriminate Hw
                    | contradiction N1; reflexivity
                    | contradiction N2; reflexivity
                    | contradiction N3; reflexivity
                    | contradiction N4; reflexivity ] ]).
  all: solve [reads_only_tac].
Qed.

End ReadsOnly.

(** X20: memory is written by stores, INC, DEC, memory shifts and rotates,
    PHA, PHP, JSR and BRK only.  A step on any other opcode byte, defined or
    not, appends nothing but reads to the bus history. *)
Theorem step_writes_only_when_storing host (m : machine) :
  0 <= my_ac (regs m) < 256 ->
  writes_memory (answer host m (my_pc (regs m))) = false ->
  exists reads,
    bus (final (my6502_step host m)) = reads ++ bus m /\ Forall is_read reads.
Proof.
  intros Hac Hw.
  rewrite (step_is_dispatch host m _ eq_refl).
  set (opcode := answer host m (my_pc (regs m))) in *.
  assert (Hf : bus (fetched m opcode) = [BusRead (my_pc (regs m)) opcode] ++ bus m)
    by reflexivity.
  assert (Hac' : 0 <= my_ac (regs (fetched m opcode)) < 256) by exact Hac.
  destruct (shifted_accumulator host (fetched m opcode) Hac') as [S1 [S2 [S3 S4]]].
  assert (Hread : forall r, bus r = bus (fetched m opcode) ->
            exists reads, bus r = reads ++ bus m /\ Forall is_read reads).
  { intros r ->. exists [BusRead (my_pc (regs m)) opcode].
    split; [exact Hf | repeat constructor]. }
  destruct (Z.eq_dec opcode 0x0A) as [E|N1]; [rewrite E in *; rewrite S1; now apply Hread | ].
  destruct (Z.eq_dec opcode 0x4A) as [E|N2]; [rewrite E in *; rewrite S2; now apply Hread | ].
  destruct (Z.eq_dec opcode 0x2A) as [E|N3]; [rewrite E in *; rewrite S3; now apply Hread | ].
  destruct (Z.eq_dec opcode 0x6A) as [E|N4]; [rewrite E in *; rewrite S4; now apply Hread | ].
  destruct (dispatch_reads_only host opcode Hw N1 N2 N3 N4 (fetched m opcode))
    as [reads [E F]].
  exists (reads ++ [BusRead (my_pc (regs m)) opcode]).
  rewrite E, Hf, app_assoc. split; [reflexivity | ].
  apply Forall_app. split; [exact F | repeat constructor].
Qed.

(** LDA #$00 writes nothing. *)
Lemma step_writes_only_when_storing_witness :
  let host := ram (load 0x0400 [0xA9; 0x00]) in
  let m := after_reset 0x0400 in
  0 <= my_ac (regs m) < 256
  /\ writes_memory (answer host m (my_pc (regs m))) = false
  /\ exists reads,
       bus (final (my6502_step host m)) = reads ++ bus m /\ Forall is_read reads.
Proof.
  intros host m.
  assert (Hac : 0 <= my_ac (regs m) < 256) by (change (0 <= 0 < 256); lia).
  split; [exact Hac | split; [reflexivity | ]].
  exact (step_writes_only_when_storing host m Hac eq_refl).
Defined.

(** ** Register widths *)

Section Widths.
Variable host : list bus_event -> Z -> Z.

Lemma ok_ret {A} (Q : A -> Prop) (a : A) : Q a -> keeps_ok Q (ret a).
Proof. intros HQ m Hm. split; assumption. Qed.

Lemma ok_assert_0 {A} (Q : A -> Prop) site : keeps_ok Q (@assert_0 A site).
Proof. intros m Hm. exact Hm. Qed.

Lemma ok_bind {A B} (P : A -> Prop) (Q : B -> Prop) (c : M A) (k : A -> M B) :
  keeps_ok P c -> (forall a, P a -> keeps_ok Q (k a)) -> keeps_ok Q (bind c k).
Proof.
  intros Hc Hk m Hm. unfold bind. specialize (Hc m Hm).
  destruct (c m) as [a m1|site m1]; [ | exact Hc].
  destruct Hc as [Hm1 Ha]. apply (Hk a Ha m1 Hm1).
Qed.

Lemma ok_if {A} (Q : A -> Prop) (b : bool) (c1 c2 : M A) :
  keeps_ok Q c1 -> keeps_ok Q c2 -> keeps_ok Q (if b then c1 else c2).
Proof. destruct b; auto. Qed.

Lemma ok_get_pc : keeps_ok is_u16 (get my_pc).
Proof. intros m Hm. split; [exact Hm | apply (proj1 Hm)]. Qed.
Lemma ok_get_ac : keeps_ok is_u8 (get my_ac).
Proof. intros m Hm. split; [exact Hm | apply (proj1 Hm)]. Qed.
Lemma ok_get_x : keeps_ok is_u8 (get my_x).
Proof. intros m Hm. split; [exact Hm | apply (proj1 Hm)]. Qed.
Lemma ok_get_y : keeps_ok is_u8 (get my_y).
Proof. intros m Hm. split; [exact Hm | apply (proj1 Hm)]. Qed.
Lemma ok_get_sr : keeps_ok is_u8 (get my_sr).
Proof. intros m Hm. split; [exact Hm | apply (proj1 Hm)]. Qed.
Lemma ok_get_sp : keeps_ok is_u8 (get my_sp).
Proof. intros m Hm. split; [exact Hm | apply (proj1 Hm)]. Qed.

Ltac ok_set :=
  let m := fresh "m" in let Hm := fresh "Hm" in
  intros ? m Hm; destruct m as [[? ? ? ? ? ?] ?];
  unfold machine_ok, regs_ok, is_u8, is_u16, anything in *; cbn in *; intuition lia.

Lemma ok_set_pc v : is_u16 v -> keeps_ok (@anything unit) (set_pc v).
Proof. ok_set. Qed.
Lemma ok_set_ac v : is_u8 v -> keeps_ok (@anything unit) (set_ac v).
Proof. ok_set. Qed.
Lemma ok_set_x v : is_u8 v -> keeps_ok (@anything unit) (set_x v).
Proof. ok_set. Qed.
Lemma ok_set_y v : is_u8 v -> keeps_ok (@anything unit) (set_y v).
Proof. ok_set. Qed.
Lemma ok_set_sr v : is_u8 v -> keeps_ok (@anything unit) (set_sr v).
Proof. ok_set. Qed.
Lemma ok_set_sp v : is_u8 v -> keeps_ok (@anything unit) (set_sp v).
Proof. ok_set. Qed.

Lemma ok_read a : is_u16 a -> keeps_ok is_u8 (my6502_read host a).
Proof.
  intros Ha m [Hr Hb]. split; [ | apply to_u8_range].
  split; [exact Hr | ]. constructor; [ | exact Hb].
  split; [exact Ha | apply to_u8_range].
Qed.

Lemma ok_write a v : is_u16 a -> is_u8 v -> keeps_ok (@anything unit) (my6502_write a v).
Proof.
  intros Ha Hv m [Hr Hb]. split; [ | exact I].
  split; [exact Hr | ]. constructor; [ | exact Hb]. split; assumption.
Qed.

Lemma is_u8_to_u8 v : is_u8 (to_u8 v).
Proof. apply to_u8_range. Qed.
Lemma is_u16_to_u16 v : is_u16 (to_u16 v).
Proof. apply to_u16_range. Qed.
Lemma is_u16_of_u8 v : is_u8 v -> is_u16 v.
Proof. unfold is_u8, is_u16. lia. Qed.

Lemma is_u16_vector : is_u16 IRQ_OFFSET.
Proof. unfold is_u16, IRQ_OFFSET. lia. Qed.

Ltac width :=
  first [ apply is_u8_to_u8 | apply is_u16_to_u16 | assumption
        | apply is_u16_of_u8; assumption | apply is_u16_vector | exact I ].

Ltac ok_one :=
  lazymatch goal with
  | |- keeps_ok _ (if _ then _ else _) => apply ok_if
  | |- keeps_ok _ (ret _) => apply ok_ret; width
  | |- keeps_ok _ (assert_0 _) => apply ok_assert_0
  | |- keeps_ok _ (get my_pc) => apply ok_get_pc
  | |- keeps_ok _ (get my_ac) => apply ok_get_ac
  | |- keeps_ok _ (get my_x) => apply ok_get_x
  | |- keeps_ok _ (get my_y) => apply ok_get_y
  | |- keeps_ok _ (get my_sr) => apply ok_get_sr
  | |- keeps_ok _ (get my_sp) => apply ok_get_sp
  | |- keeps_ok _ (set_pc _) => apply ok_set_pc; width
  | |- keeps_ok _ (set_ac _) => apply ok_set_ac; width
  | |- keeps_ok _ (set_x _) => apply ok_set_x; width
  | |- keeps_ok _ (set_y _) => apply ok_set_y; width
  | |- keeps_ok _ (set_sr _) => apply ok_set_sr; width
  | |- keeps_ok _ (set_sp _) => apply ok_set_sp; width
  | |- keeps_ok _ (my6502_read _ _) => apply ok_read; width
  | |- keeps_ok _ (my6502_write _ _) => apply ok_write; width
  end.

Ltac ok_run :=
  repeat
    lazymatch goal with
    | |- keeps_ok _ (bind _ _) => eapply ok_bind; [ | intros ? ? ]
    | |- keeps_ok _ _ => ok_one
    end.

Lemma ok_fetch : keeps_ok is_u8 (fetch host).
Proof. unfold fetch. ok_run. Qed.

Lemma ok_pop : keeps_ok is_u8 (my_pop host).
Proof. unfold my_pop. ok_run. Qed.

Lemma ok_push v : is_u8 v -> keeps_ok (@anything unit) (my_push v).
Proof. intros Hv. unfold my_push. ok_run. Qed.

Lemma ok_read_addr_from_pc : keeps_ok is_u16 (my_read_addr_from_pc host).
Proof.
  unfold my_read_addr_from_pc.
  eapply ok_bind; [apply ok_fetch | intros ? ?].
  eapply ok_bind; [apply ok_fetch | intros ? ?]. ok_run.
Qed.

Lemma ok_read_addr_from_mem reg :
  is_u16 reg ->
  keeps_ok (fun r => is_u16 (fst r)) (my_read_addr_from_mem host reg).
Proof. intros Hreg. unfold my_read_addr_from_mem. ok_run. Qed.

Lemma ok_read_addr mode : keeps_ok is_u16 (my_read_addr host mode).
Proof.
  destruct mode; unfold my_read_addr;
    repeat
      lazymatch goal with
      | |- keeps_ok _ (bind (my_read_addr_from_pc _) _) =>
          eapply ok_bind; [apply ok_read_addr_from_pc | intros ? ?]
      | |- keeps_ok _ (bind (my_read_addr_from_mem _ _) _) =>
          eapply ok_bind; [apply ok_read_addr_from_mem; width | intros ? ?]
      | |- keeps_ok _ (bind (fetch _) _) =>
          eapply ok_bind; [apply ok_fetch | intros ? ?]
      | |- keeps_ok _ (bind _ _) => eapply ok_bind; [ | intros ? ? ]
      | |- keeps_ok _ (my_read_addr_from_pc _) => apply ok_read_addr_from_pc
      | |- keeps_ok _ (fetch _) =>
          intros m Hm; destruct (ok_fetch m Hm) as [? ?];
          split; [assumption | now apply is_u16_of_u8]
      | |- keeps_ok _ _ => ok_one
      end.
Qed.

Lemma ok_read_op mode : keeps_ok (@anything Z) (my_read_op host mode).
Proof.
  destruct mode; unfold my_read_op;
    repeat
      lazymatch goal with
      | |- keeps_ok _ (bind (my_read_addr _ _) _) =>
          eapply ok_bind; [apply ok_read_addr | intros ? ?]
      | |- keeps_ok _ (bind _ _) => eapply ok_bind; [ | intros ? ? ]
      | |- keeps_ok _ _ => ok_one
      end.
Qed.

Lemma ok_write_op op v : is_u8 v -> keeps_ok (@anything unit) (my_write_op op v).
Proof. intros Hv. unfold my_write_op. ok_run. Qed.

Lemma ok_SR_SET bit : keeps_ok (@anything unit) (SR_SET bit).
Proof. unfold SR_SET. ok_run. Qed.

Lemma ok_SR_CLR bit : keeps_ok (@anything unit) (SR_CLR bit).
Proof. unfold SR_CLR. ok_run. Qed.

Lemma ok_SR_IS_SET bit : keeps_ok (@anything Z) (SR_IS_SET bit).
Proof. unfold SR_IS_SET. ok_run. Qed.

Ltac ok_handler :=
  repeat
    lazymatch goal with
    | |- keeps_ok _ (bind (fetch _) _) =>
        eapply ok_bind; [apply ok_fetch | intros ? ?]
    | |- keeps_ok _ (bind (my_pop _) _) =>
        eapply ok_bind; [apply ok_pop | intros ? ?]
    | |- keeps_ok _ (bind (my_read_addr _ _) _) =>
        eapply ok_bind; [apply ok_read_addr | intros ? ?]
    | |- keeps_ok _ (bind (my_read_op _ _) _) =>
        eapply ok_bind; [apply ok_read_op | intros ? ?]
    | |- keeps_ok _ (bind (SR_IS_SET _) _) =>
        eapply ok_bind; [apply ok_SR_IS_SET | intros ? ?]
    | |- keeps_ok _ (bind _ _) => eapply ok_bind; [ | intros ? ? ]
    | |- keeps_ok _ (my_push _) => apply ok_push; width
    | |- keeps_ok _ (my_write_op _ _) => apply ok_write_op; width
    | |- keeps_ok _ (SR_SET _) => apply ok_SR_SET
    | |- keeps_ok _ (SR_CLR _) => apply ok_SR_CLR
    | |- keeps_ok _ _ => ok_one
    end.

Ltac ok_opcode :=
  cbv [dispatch my_update_sr my_update_sr_with_carry branch_if compare_with
       my_adc my_and my_asl my_bcs my_bit my_bne my_bcc my_beq my_bmi my_bpl my_brk
       my_bvc my_bvs my_clc my_cld my_cli my_clv my_cmp my_cpx my_cpy my_dec my_dex
       my_dey my_eor my_jmp my_jsr my_inc my_inx my_iny my_lda my_ldx my_ldy my_lsr
       my_nop my_ora my_rol my_ror my_rti my_rts my_pha my_php my_pla my_plp my_sbc
       my_sec my_sed my_sei my_sta my_stx my_sty my_tax my_tay my_tsx my_txa my_txs
       my_tya];
  solve [ok_handler].

Lemma ok_dispatch (opcode : Z) : keeps_ok (@anything unit) (dispatch host opcode).
Proof.
  destruct opcode as [|p|p]; [ok_opcode | | ok_opcode].
  do 8 (destruct p as [p|p|]; [ | | ok_opcode]).
  all: ok_opcode.
Qed.

Lemma ok_step : keeps_ok (@anything unit) (my6502_step host).
Proof.
  unfold my6502_step.
  eapply ok_bind; [apply ok_fetch | intros opcode _; apply ok_dispatch].
Qed.

Lemma ok_run_steps (n : nat) : keeps_ok (@anything unit) (run host n).
Proof.
  induction n as [|n IH]; cbn [run].
  - apply ok_ret. exact I.
  - eapply ok_bind; [apply ok_step | intros _ _; exact IH].
Qed.

End Widths.

Lemma final_ok {A} (Q : A -> Prop) (c : M A) (m : machine) :
  keeps_ok Q c -> machine_ok m -> machine_ok (final (c m)).
Proof.
  intros Hc Hm. specialize (Hc m Hm).
  destruct (c m) as [a m'|site m']; [apply Hc | exact Hc].
Qed.

(** X21: the registers never leave their widths and the bus only sees 16-bit
    addresses and 8-bit values.  From a machine whose PC is below 65536,
    whose other registers are below 256 and whose bus history is of that
    kind, a step, and any number of steps, returned or aborted, leave a
    machine of the same kind. *)
Theorem widths_are_kept host (m : machine) (n : nat) :
  machine_ok m ->
  machine_ok (final (my6502_step host m))
  /\ machine_ok (final (run host n m)).
Proof.
  intros Hm. split.
  - apply (final_ok _ _ m (ok_step host) Hm).
  - apply (final_ok _ _ m (ok_run_steps host n) Hm).
Qed.

Lemma after_reset_ok : machine_ok (after_reset 0x0400).
Proof.
  split; [ | constructor].
  change (regs_ok (mkRegs 0x0400 0 0 0 0x20 0xFD)).
  unfold regs_ok. cbn [my_pc my_ac my_x my_y my_sr my_sp]. lia.
Defined.

(** Scenario C, two steps from reset. *)
Lemma widths_are_kept_witness :
  machine_ok (after_reset 0x0400)
  /\ machine_ok (final (my6502_step jsr_rts_image (after_reset 0x0400)))
  /\ machine_ok (final (run jsr_rts_image 2 (after_reset 0x0400))).
Proof.
  split; [exact after_reset_ok | ].
  exact (widths_are_kept jsr_rts_image (after_reset 0x0400) 2 after_reset_ok).
Defined.

(** ** Transfers and logic *)

(** X22: TAX, TAY, TSX, TXA and TYA copy one register to another and set Z and
    N from the byte copied, leaving the other six bits of SR; TXS copies X to
    SP and leaves SR alone.  None of them touches the bus. *)
Theorem transfers_and_flags (m : machine) :
  (forall t src dst, In (t, (src, dst)) flagged_transfers ->
     exists m',
       t m = Returns tt m'
       /\ dst (regs m') = src (regs m)
       /\ flag SR_FLAG_ZERO (my_sr (regs m')) = (src (regs m) =? 0)
       /\ flag SR_FLAG_NEGATIVE (my_sr (regs m')) = Z.testbit (src (regs m)) 7
       /\ (forall j, 0 <= j < 8 -> j <> 1 -> j <> 7 ->
             Z.testbit (my_sr (regs m')) j = Z.testbit (my_sr (regs m)) j)
       /\ bus m' = bus m)
  /\ my_txs m = Returns tt (mkMachine (with_sp (my_x (regs m)) (regs m)) (bus m)).
Proof.
  destruct m as [[pc ac x y sr sp] h].
  split; [ | reflexivity].
  intros t src dst Hin. unfold flagged_transfers in Hin.
  repeat (destruct Hin as [Heq | Hin]; [injection Heq as <- <- <- | ]);
    try contradiction;
    (eexists;
     split; [unfold my_tax, my_tay, my_tsx, my_txa, my_tya, bind, get,
                    set_ac, set_x, set_y, modify;
             cbn [regs bus my_pc my_ac my_x my_y my_sr my_sp];
             rewrite my_update_sr_NZ; reflexivity | ]);
    cbn [regs bus my_pc my_ac my_x my_y my_sr my_sp with_sr];
    (split; [reflexivity | ]);
    (split; [read_flags; reflexivity | ]);
    (split; [read_flags; reflexivity | ]);
    (split; [ | reflexivity]);
    intros j Hj H1 H7; unfold SR_FLAG_ZERO, SR_FLAG_NEGATIVE;
    rewrite !sr_with_testbit by lia;
    (destruct (Z.eqb_spec j 1); [lia | ]);
    (destruct (Z.eqb_spec j 7); [lia | reflexivity]).
Qed.

Lemma byte_logic_small (a v : Z) :
  0 <= a < 256 -> 0 <= v < 256 ->
  to_u8 (Z.land a v) = Z.land a v /\ to_u8 (Z.lxor a v) = Z.lxor a v.
Proof.
  intros Ha Hv.
  assert (H : forallb (fun s => forallb (fun b =>
                (to_u8 (Z.land s b) =? Z.land s b) && (to_u8 (Z.lxor s b) =? Z.lxor s b))
                all_bytes) all_bytes = true) by (vm_compute; reflexivity).
  pose proof (all_bytes_complete _ H a Ha) as H1. cbv beta in H1.
  pose proof (all_bytes_complete _ H1 v Hv) as H2. cbv beta in H2.
  apply andb_prop in H2. destruct H2 as [E1 E2].
  split; apply Z.eqb_eq; assumption.
Qed.

(** X23: AND, ORA and EOR leave AC AND operand, AC OR operand and AC XOR
    operand in the accumulator, set Z and N from the result and leave the
    other six bits of SR, the other registers and the bus. *)
Theorem logic_result_and_flags (m : machine) (v : Z) (f : Z -> M unit)
        (op : Z -> Z -> Z) :
  In (f, op) logic_instructions ->
  0 <= my_ac (regs m) < 256 ->
  0 <= v < 256 ->
  let r := op (my_ac (regs m)) v in
  exists sr',
    f v m = Returns tt (mkMachine (with_sr sr' (with_ac r (regs m))) (bus m))
    /\ 0 <= r < 256
    /\ flag SR_FLAG_ZERO sr' = (r =? 0)
    /\ flag SR_FLAG_NEGATIVE sr' = Z.testbit r 7
    /\ forall j, 0 <= j < 8 -> j <> 1 -> j <> 7 ->
         Z.testbit sr' j = Z.testbit (my_sr (regs m)) j.
Proof.
  intros Hin Hac Hv r.
  destruct (byte_logic_small (my_ac (regs m)) v Hac Hv) as [Eand Exor].
  pose proof (byte_lor_small (my_ac (regs m)) v Hac Hv) as Eor.
  assert (Hr : to_u8 r = r).
  { subst r. unfold logic_instructions in Hin.
    repeat (destruct Hin as [Heq | Hin]; [injection Heq as <- <- | ]);
      try contradiction; assumption. }
  exists (sr_with SR_FLAG_ZERO (r =? 0)
            (sr_with SR_FLAG_NEGATIVE (Z.testbit r 7) (my_sr (regs m)))).
  split.
  { subst r. destruct m as [[pc ac x y sr sp] h].
    cbn [regs bus my_ac my_sr] in *. unfold logic_instructions in Hin.
    repeat (destruct Hin as [Heq | Hin]; [injection Heq as <- <- | ]);
      try contradiction;
      unfold my_and, my_ora, my_eor, bind, get, set_ac, modify;
      cbn [regs bus my_pc my_ac my_x my_y my_sr my_sp];
      rewrite my_update_sr_NZ, Hr; reflexivity. }
  split; [rewrite <- Hr; apply to_u8_range | ].
  split; [read_flags; reflexivity | ].
  split; [read_flags; reflexivity | ].
  intros j Hj H1 H7. unfold SR_FLAG_ZERO, SR_FLAG_NEGATIVE.
  rewrite !sr_with_testbit by lia.
  destruct (Z.eqb_spec j 1); [lia | ].
  destruct (Z.eqb_spec j 7); [lia | reflexivity].
Qed.

(** EOR #$FF with AC = 0x0F leaves 0xF0 and sets N. *)
Lemma logic_result_and_flags_witness :
  let m := mkMachine (mkRegs 0x0402 0x0F 0 0 0x20 0xFD) [] in
  In (my_eor, Z.lxor) logic_instructions
  /\ 0 <= my_ac (regs m) < 256
  /\ 0 <= 0xFF < 256
  /\ exists sr',
       my_eor 0xFF m = Returns tt (mkMachine (mkRegs 0x0402 0xF0 0 0 sr' 0xFD) [])
       /\ flag SR_FLAG_ZERO sr' = false
       /\ flag SR_FLAG_NEGATIVE sr' = true.
Proof.
  intros m.
  assert (Hin : In (my_eor, Z.lxor) logic_instructions) by (do 2 right; left; reflexivity).
  assert (Hac : 0 <= my_ac (regs m) < 256) by (cbn; lia).
  assert (Hv : 0 <= 0xFF < 256) by lia.
  split; [exact Hin | split; [exact Hac | split; [exact Hv | ]]].
  destruct (logic_result_and_flags m 0xFF my_eor Z.lxor Hin Hac Hv)
    as [sr' [Hrun [_ [HZ [HN _]]]]].
  exists sr'. split; [exact Hrun | split; [exact HZ | exact HN]].
Defined.
